(** * OpenQAOA: the bin-packing problem class and the AWS Braket backend

    A shallow embedding of
    - [openqaoa/problems/binpacking.py]   (class [BinPacking]),
    - [openqaoa/backends/qpus/qaoa_braket_qpu.py] (class [QAOAAWSQPUBackend]),
    followed by the properties of these two classes.

    Conventions.  Python [int]s are [Z].  A method that can raise returns a
    [result]; a method that mutates [self] takes the object and returns the
    updated object, also when it raises (the caller still holds the object
    after catching).  A Python [dict] is an association list in insertion
    order.  A [while] loop takes fuel and the properties show how much it
    needs.

    What is modelled of the libraries.  NumPy's arithmetic and docplex's
    [Model] are written out as far as the class uses them; floating-point
    values are exact rationals together with [inf] and [nan], so rounding
    is not modelled.  Braket's gates, NumPy's random generator, the
    docplex-to-Ising converter, the docplex solver, the QAOA workflow and
    SciPy's [minimize] are interfaces whose operations are parameters.
    A matplotlib [Axes] is the list of what has been drawn on it, and
    the drawing calls are taken to succeed; the [QUBO] class is known by
    the arguments it is constructed with.  What [binpacking.py] prints
    is left out. *)

From Stdlib Require Import ZArith QArith Qround List String Ascii Bool Lia.
From Stdlib Require Import DecimalString DecimalPos DecimalZ FinFun.
From Stdlib Require Import Qabs Lqa Sorted.
Import ListNotations.

Local Open Scope string_scope.
Local Open Scope list_scope.
Local Open Scope Z_scope.

(* ================================================================== *)
(** * Part I: definitions                                              *)
(* ================================================================== *)

(** ** Python scaffolding *)

Module Py.

(** The exceptions that occur in the two modules. *)
Inductive exn : Type :=
  | ValueError (msg : string)
  | TypeError (msg : string)
  | KeyError (key : string)
  | IndexError (msg : string)
  | OverflowError (msg : string)
  | ZeroDivisionError
  | AttributeError (attr : string)
  | UnboundLocalError (var : string)
  | ConnectionError (msg : string).

Inductive result (A : Type) : Type :=
  | Ok (a : A)
  | Raise (e : exn).
Arguments Ok {A} a.
Arguments Raise {A} e.

Definition bind {A B} (m : result A) (k : A -> result B) : result B :=
  match m with
  | Ok a => k a
  | Raise e => Raise e
  end.

Definition is_ok {A} (m : result A) : bool :=
  match m with Ok _ => true | Raise _ => false end.

Definition is_value_error {A} (m : result A) : bool :=
  match m with Raise (ValueError _) => true | _ => false end.

(** [[f(a) for a in l]] where [f] may raise: stops at the first exception. *)
Fixpoint mapM {A B} (f : A -> result B) (l : list A) : result (list B) :=
  match l with
  | [] => Ok []
  | a :: l' =>
      match f a with
      | Raise e => Raise e
      | Ok b =>
          match mapM f l' with
          | Raise e => Raise e
          | Ok bs => Ok (b :: bs)
          end
      end
  end.

(** [range(stop)] and [range(start, stop)]. *)
Definition range2 (start stop : Z) : list Z :=
  map (fun k => start + Z.of_nat k) (seq 0 (Z.to_nat (stop - start))).
Definition range (stop : Z) : list Z := range2 0 stop.

Definition len {A} (l : list A) : Z := Z.of_nat (List.length l).

(** [str(n)] for an [int]. *)
Definition str (n : Z) : string := NilZero.string_of_int (Z.to_int n).

(** [l[i]] on a list or a string: negative indices count from the end. *)
Definition index {A} (l : list A) (i : Z) : result A :=
  let i' := if i <? 0 then i + len l else i in
  if i' <? 0 then Raise (IndexError "index out of range")
  else match nth_error l (Z.to_nat i') with
       | Some a => Ok a
       | None => Raise (IndexError "index out of range")
       end.

(** A [dict]: insertion-ordered, a store to an existing key keeps its
    place. *)
Section Dict.
Context {K V : Type} (eqb : K -> K -> bool).

Definition dict : Type := list (K * V).

Fixpoint get (k : K) (d : dict) : option V :=
  match d with
  | [] => None
  | (k', v) :: d' => if eqb k k' then Some v else get k d'
  end.

Fixpoint set (k : K) (v : V) (d : dict) : dict :=
  match d with
  | [] => [(k, v)]
  | (k', v') :: d' =>
      if eqb k k' then (k', v) :: d' else (k', v') :: set k v d'
  end.

Definition keys (d : dict) : list K := map fst d.
Definition values (d : dict) : list V := map snd d.

(** [{k: f(k) for k in l}] for distinct keys *)
Definition tabulate (f : K -> V) (l : list K) : dict :=
  map (fun k => (k, f k)) l.
End Dict.

End Py.

Import Py.

Declare Scope py_scope.
Notation "x <- m ;; k" := (Py.bind m (fun x => k))
  (at level 61, m at next level, right associativity) : py_scope.
Local Open Scope py_scope.

(* ------------------------------------------------------------------ *)
(** ** The AWS Braket backend ([qaoa_braket_qpu.py])                   *)
(* ------------------------------------------------------------------ *)

Module Braket.

(** [braket.circuits.FreeParameter]: a named symbolic angle. *)
Record FreeParameter : Type := { fp_name : string }.

(** What a Braket [Circuit] accumulates through [+=]: instructions and
    result types, in order.  [Op] stands for the instructions the gate
    library emits. *)
Inductive Item (Op : Type) : Type :=
  | H_h (qubit : Z)
  | Instr (op : Op)
  | Probability_probability.
Arguments H_h {Op} qubit.
Arguments Instr {Op} op.
Arguments Probability_probability {Op}.

Definition Circuit (Op : Type) : Type := list (Item Op).

(** Measurement counts: bitstring to number of shots. *)
Definition Counts : Type := Py.dict (K := string) (V := Z).

(** What [job.result()] gives: a result object carrying
    [measurement_counts], or [None] for a task that failed or timed out
    (so that the attribute access raises [AttributeError]). *)
Inductive TaskResult : Type :=
  | Completed (measurement_counts : Counts)
  | NoResult.

(** The parts of OpenQAOA and Braket the backend calls into:
    [pauli_label_str g] is [str(g.pauli_label)], [set_rotation_angle g a]
    is [g] after [g.rotation_angle = a], [decomposition g kind] is
    [g.decomposition(kind)], and [apply_braket_gate t c] is
    [t[0]().apply_braket_gate( *t[1], c)]. *)
Class Vendor : Type := {
  GateMap : Type;
  GateTuple : Type;
  Op : Type;
  Params : Type;
  Angle : Type;
  pauli_label_str : GateMap -> string;
  set_rotation_angle : GateMap -> FreeParameter -> GateMap;
  decomposition : GateMap -> string -> list GateTuple;
  apply_braket_gate : GateTuple -> Circuit Op -> Circuit Op;
  obtain_angles_for_pauli_list : list GateMap -> Params -> list Angle;
  make_bound_circuit :
    Circuit Op -> Py.dict (K := string) (V := Angle) -> Circuit Op
}.

Section Backend.
Context {vendor : Vendor}.

Record Device : Type := {
  s3_bucket_name : string;
  folder_name : string
}.

(** A task as received by [backend_qpu.run]. *)
Record Task : Type := {
  task_circuit : Circuit Op;
  task_s3 : string * string;
  task_shots : Z
}.

(** The cloud side: the tasks submitted so far, the result the n-th
    submitted task comes back with, and what was printed. *)
Record Cloud : Type := {
  tasks : list Task;
  outcome : nat -> TaskResult;
  stdout : list string
}.

Record QAOAAWSQPUBackend : Type := {
  abstract_circuit : list GateMap;
  n_shots : Z;
  prepend_state : option (Circuit Op);
  append_state : option (Circuit Op);
  init_hadamard : bool;
  qubit_layout : list Z;
  device : Device;
  braket_parameter_list : list FreeParameter;
  parametric_circuit : Circuit Op;
  measurement_outcomes : option Counts
}.

Definition set_abstract_circuit (self : QAOAAWSQPUBackend) gs :=
  {| abstract_circuit := gs; n_shots := n_shots self;
     prepend_state := prepend_state self; append_state := append_state self;
     init_hadamard := init_hadamard self; qubit_layout := qubit_layout self;
     device := device self;
     braket_parameter_list := braket_parameter_list self;
     parametric_circuit := parametric_circuit self;
     measurement_outcomes := measurement_outcomes self |}.

Definition set_braket_parameter_list (self : QAOAAWSQPUBackend) ps :=
  {| abstract_circuit := abstract_circuit self; n_shots := n_shots self;
     prepend_state := prepend_state self; append_state := append_state self;
     init_hadamard := init_hadamard self; qubit_layout := qubit_layout self;
     device := device self;
     braket_parameter_list := ps;
     parametric_circuit := parametric_circuit self;
     measurement_outcomes := measurement_outcomes self |}.

Definition set_measurement_outcomes (self : QAOAAWSQPUBackend) c :=
  {| abstract_circuit := abstract_circuit self; n_shots := n_shots self;
     prepend_state := prepend_state self; append_state := append_state self;
     init_hadamard := init_hadamard self; qubit_layout := qubit_layout self;
     device := device self;
     braket_parameter_list := braket_parameter_list self;
     parametric_circuit := parametric_circuit self;
     measurement_outcomes := Some c |}.

(** [dict(zip(ks, vs))] *)
Definition dict_zip {V} (ks : list string) (vs : list V)
  : Py.dict (K := string) (V := V) :=
  fold_left (fun d kv => Py.set String.eqb (fst kv) (snd kv) d)
            (combine ks vs) [].

(** [qaoa_circuit]: bind the free parameters to the angles of [params]. *)
Definition qaoa_circuit (self : QAOAAWSQPUBackend) (params : Params)
  : Circuit Op :=
  let angles_list :=
    obtain_angles_for_pauli_list (abstract_circuit self) params in
  let memory_map :=
    dict_zip (map fp_name (braket_parameter_list self)) angles_list in
  make_bound_circuit (parametric_circuit self) memory_map.

(** One turn of [for each_gate in self.abstract_circuit]: the loop
    carries the gates already updated, the parameters collected and
    the circuit. *)
Definition gate_step
  (acc : list GateMap * list FreeParameter * Circuit Op)
  (each_gate : GateMap)
  : list GateMap * list FreeParameter * Circuit Op :=
  let '(done, params, parametric_circuit) := acc in
  let angle_param := {| fp_name := pauli_label_str each_gate |} in
  let each_gate' := set_rotation_angle each_gate angle_param in
  let decomposition := decomposition each_gate' "standard" in
  (done ++ [each_gate'],
   params ++ [angle_param],
   fold_left (fun c each_tuple => apply_braket_gate each_tuple c)
             decomposition parametric_circuit).

(** [parametric_qaoa_circuit]: returns the circuit; [self] gets
    [braket_parameter_list] and the gates' rotation angles. *)
Definition parametric_qaoa_circuit (self : QAOAAWSQPUBackend)
  : QAOAAWSQPUBackend * Circuit Op :=
  let parametric_circuit : Circuit Op := [] in
  let parametric_circuit :=
    match prepend_state self with
    | Some c => parametric_circuit ++ c
    | None => parametric_circuit
    end in
  let parametric_circuit :=
    if init_hadamard self
    then fold_left (fun c each_qubit => c ++ [H_h each_qubit])
                   (qubit_layout self) parametric_circuit
    else parametric_circuit in
  let self := set_braket_parameter_list self [] in
  let '(gates, params, parametric_circuit) :=
    fold_left gate_step (abstract_circuit self)
              ([], braket_parameter_list self, parametric_circuit) in
  let self := set_braket_parameter_list (set_abstract_circuit self gates) params in
  let parametric_circuit :=
    match append_state self with
    | Some c => parametric_circuit ++ c
    | None => parametric_circuit
    end in
  (self, parametric_circuit ++ [Probability_probability]).

(** [backend_qpu.run(circuit, (bucket, folder), shots=n)]: the task is
    recorded; its handle is its position. *)
Definition run (cloud : Cloud) (t : Task) : Cloud * nat :=
  ({| tasks := tasks cloud ++ [t]; outcome := outcome cloud;
      stdout := stdout cloud |},
   List.length (tasks cloud)).

Definition print (cloud : Cloud) (line : string) : Cloud :=
  {| tasks := tasks cloud; outcome := outcome cloud;
     stdout := stdout cloud ++ [line] |}.

(** The local variables of [get_counts]; [counts] is unbound until the
    [try] body assigns it. *)
Record Locals : Type := {
  job_state : bool;
  no_of_job_retries : Z;
  counts : option Counts
}.

Inductive Flow : Type :=
  | Next
  | Break
  | Throw (e : Py.exn).

Definition max_job_retries : Z := 5.

(** The body of [while job_state == False]. *)
Definition loop_body (self : QAOAAWSQPUBackend) (circuit : Circuit Op)
  (cloud : Cloud) (l : Locals) : Cloud * Locals * Flow :=
  let '(cloud, job) :=
    run cloud {| task_circuit := circuit;
                 task_s3 := (s3_bucket_name (device self),
                             folder_name (device self));
                 task_shots := n_shots self |} in
  match outcome cloud job with
  | Completed measurement_counts =>
      let l := {| job_state := true;
                  no_of_job_retries := no_of_job_retries l;
                  counts := Some measurement_counts |} in
      if max_job_retries <=? no_of_job_retries l
      then (cloud, l,
            Throw (ConnectionError
                     "An Error Occurred with the Job(s) sent to IBMQ."))
      else (cloud, l, Next)
  | NoResult =>
      let cloud :=
        print cloud
          "The task did not complete successfully or the connection timed out. Resending Task." in
      let l := {| job_state := job_state l;
                  no_of_job_retries := no_of_job_retries l + 1;
                  counts := counts l |} in
      (cloud, l, Break)
  end.

(** The [while] loop; [None] when the fuel runs out. *)
Fixpoint while_job_state (fuel : nat) (self : QAOAAWSQPUBackend)
  (circuit : Circuit Op) (cloud : Cloud) (l : Locals)
  : option (Cloud * Locals * option Py.exn) :=
  if job_state l then Some (cloud, l, None)
  else
    match fuel with
    | O => None
    | S fuel' =>
        match loop_body self circuit cloud l with
        | (cloud', l', Next) => while_job_state fuel' self circuit cloud' l'
        | (cloud', l', Break) => Some (cloud', l', None)
        | (cloud', l', Throw e) => Some (cloud', l', Some e)
        end
    end.

Definition get_counts (fuel : nat) (self : QAOAAWSQPUBackend)
  (cloud : Cloud) (params : Params)
  : option (QAOAAWSQPUBackend * Cloud * Py.result Counts) :=
  let circuit := qaoa_circuit self params in
  let l := {| job_state := false; no_of_job_retries := 0; counts := None |} in
  match while_job_state fuel self circuit cloud l with
  | None => None
  | Some (cloud, l, Some e) => Some (self, cloud, Raise e)
  | Some (cloud, l, None) =>
      match counts l with
      | None => Some (self, cloud, Raise (UnboundLocalError "counts"))
      | Some c => Some (set_measurement_outcomes self c, cloud, Ok c)
      end
  end.

(** Shorthands for the statements below: the task [get_counts] submits,
    the notice it prints, a gate with its parameter attached, and a run of
    gate applications. *)
Definition the_task (self : QAOAAWSQPUBackend) (params : Params) : Task :=
  {| task_circuit := qaoa_circuit self params;
     task_s3 := (s3_bucket_name (device self), folder_name (device self));
     task_shots := n_shots self |}.

Definition resending : string :=
  "The task did not complete successfully or the connection timed out. Resending Task.".

Definition with_param (g : GateMap) : GateMap :=
  set_rotation_angle g {| fp_name := pauli_label_str g |}.

Definition apply_all (ts : list GateTuple) (c : Circuit Op) : Circuit Op :=
  fold_left (fun c t => apply_braket_gate t c) ts c.

End Backend.

End Braket.

(* ------------------------------------------------------------------ *)
(** ** NumPy, as far as [binpacking.py] uses it                        *)
(* ------------------------------------------------------------------ *)

Module Np.

(** A [float64] value.  Finite values are kept as exact rationals: the
    rounding of binary floating point is not modelled.  Division by zero
    on NumPy scalars does not raise, it yields [inf] or [nan]. *)
Inductive float64 : Type :=
| Finite (q : Q)
| Infinity (negative : bool)
| NaN.

(** [np.sum(ws)] on integers. *)
Definition sum (ws : list Z) : Z := fold_right Z.add 0 ws.

(** [a / b] where [a] is a NumPy scalar. *)
Definition true_divide (a b : Z) : float64 :=
  if b =? 0 then (if a =? 0 then NaN else Infinity (a <? 0))
  else Finite (inject_Z a / inject_Z b).

(** [np.ceil] *)
Definition ceil (f : float64) : float64 :=
  match f with
  | Finite q => Finite (inject_Z (Qceiling q))
  | _ => f
  end.

(** [int(f)]: truncation towards zero; [inf] and [nan] have no integer. *)
Definition to_int (f : float64) : Py.result Z :=
  match f with
  | Finite q => Ok (if Qle_bool 0 q then Qfloor q else Qceiling q)
  | Infinity _ => Raise (OverflowError "cannot convert float infinity to integer")
  | NaN => Raise (ValueError "cannot convert float NaN to integer")
  end.

(** [np.round(q, decimals)]: to the nearest multiple of [10 ** -decimals],
    halves to the even neighbour. *)
Definition round (q : Q) (decimals : Z) : float64 :=
  let scale := inject_Z (10 ^ decimals) in
  let t := (q * scale)%Q in
  let f := Qfloor t in
  let r := (t - inject_Z f)%Q in
  let n := match (r ?= 1 # 2)%Q with
           | Lt => f
           | Gt => f + 1
           | Eq => if Z.even f then f else f + 1
           end in
  Finite (inject_Z n / scale)%Q.

(** [np.zeros(n)] *)
Definition zeros (n : Z) : Py.result (list Z) :=
  if n <? 0 then Raise (ValueError "negative dimensions are not allowed")
  else Ok (repeat 0 (Z.to_nat n)).

(** Position [i] of an array of length [n], negative indices wrapping. *)
Definition position (n : nat) (i : Z) : Py.result nat :=
  let i' := if i <? 0 then i + Z.of_nat n else i in
  if (i' <? 0) || (Z.of_nat n <=? i')
  then Raise (IndexError "index is out of bounds")
  else Ok (Z.to_nat i').

Fixpoint update {A} (l : list A) (k : nat) (a : A) : list A :=
  match l, k with
  | [], _ => []
  | _ :: l', O => a :: l'
  | b :: l', S k' => b :: update l' k' a
  end.

(** [vec[idx] = value] with a list of indices and one scalar. *)
Definition setitem_scalar (vec : list Z) (idx : list Z) (value : Z)
  : Py.result (list Z) :=
  ps <- Py.mapM (position (List.length vec)) idx ;;
  Ok (fold_left (fun v p => update v p value) ps vec).

(** [vec[idx] = values] with a list of indices and a list of values: the
    lengths agree, or the single value is broadcast. *)
Definition setitem (vec : list Z) (idx : list Z) (values : list Z)
  : Py.result (list Z) :=
  ps <- Py.mapM (position (List.length vec)) idx ;;
  if (List.length values =? List.length ps)%nat
  then Ok (fold_left (fun v pa => update v (fst pa) (snd pa)) (combine ps values) vec)
  else match values with
       | [a] => Ok (fold_left (fun v p => update v p a) ps vec)
       | _ => Raise (ValueError "shape mismatch")
       end.

(** [a * b] on one-dimensional arrays, with broadcasting of length one. *)
Definition multiply (a b : list Z) : Py.result (list Z) :=
  if (List.length a =? List.length b)%nat
  then Ok (map (fun ab => fst ab * snd ab) (combine a b))
  else match a, b with
       | [u], _ => Ok (map (Z.mul u) b)
       | _, [v] => Ok (map (fun u => u * v) a)
       | _, _ => Raise (ValueError "operands could not be broadcast together")
       end.

(** [a / b] on floats where [b] is a NumPy scalar: a zero divisor gives
    [inf] or [nan]. *)
Definition divide (a b : Q) : float64 :=
  if Qeq_bool b 0 then (if Qeq_bool a 0 then NaN else Infinity (Qle_bool a 0))
  else Finite (a / b)%Q.

(** [np.unique]: the distinct values in increasing order. *)
Fixpoint insert_unique (q : Q) (l : list Q) : list Q :=
  match l with
  | [] => [q]
  | a :: l' =>
      match (q ?= a)%Q with
      | Lt => q :: l
      | Eq => l
      | Gt => a :: insert_unique q l'
      end
  end.

Definition unique (l : list Q) : list Q := fold_right insert_unique [] l.

(** [np.argsort]: the indices in the order of their values, equal values
    in the order of their indices. *)
Fixpoint insert_index (x : Q * Z) (l : list (Q * Z)) : list (Q * Z) :=
  match l with
  | [] => [x]
  | a :: l' =>
      if Qle_bool (fst a) (fst x) then a :: insert_index x l' else x :: l
  end.

Definition argsort (l : list Q) : list Z :=
  map snd (fold_left (fun sorted x => insert_index x sorted)
                     (combine l (Py.range (Py.len l))) []).

(** [np.array(l).reshape((rows, cols))] on a flat list. *)
Fixpoint chunks {A} (rows cols : nat) (l : list A) : list (list A) :=
  match rows with
  | O => []
  | S rows' => firstn cols l :: chunks rows' cols (skipn cols l)
  end.

Definition reshape {A} (l : list A) (rows cols : Z) : Py.result (list (list A)) :=
  if (rows <? 0) || (cols <? 0)
  then Raise (ValueError "negative dimensions not allowed")
  else if Py.len l =? rows * cols
       then Ok (chunks (Z.to_nat rows) (Z.to_nat cols) l)
       else Raise (ValueError "cannot reshape array").

End Np.

(* ------------------------------------------------------------------ *)
(** ** docplex, as far as [binpacking.py] uses it                      *)
(* ------------------------------------------------------------------ *)

Module Docplex.

(** The decision variables of the bin-packing model, known in the code
    by their names [y_j] and [x_i_j]. *)
Inductive Var : Type :=
| y_ (j : Z)
| x_ (i j : Z).

Definition name (v : Var) : string :=
  match v with
  | y_ j => ("y_" ++ Py.str j)%string
  | x_ i j => ("x_" ++ Py.str i ++ "_" ++ Py.str j)%string
  end.

Definition Var_eqb (a b : Var) : bool :=
  match a, b with
  | y_ j, y_ j' => j =? j'
  | x_ i j, x_ i' j' => (i =? i') && (j =? j')
  | _, _ => false
  end.

(** An operand of [mdl.sum]: a model variable or a number. *)
Inductive Term : Type :=
| BinVar (v : Var)
| Const (c : Z).

Inductive Sense : Type := EQ | LE.

Record LinearConstraint : Type := {
  lhs : list (Q * Term);
  sense : Sense;
  rhs : Term
}.

(** A [Model]: its binary variables in creation order, its objective and
    its constraints. *)
Record Model : Type := {
  model_name : string;
  binary_vars : list Var;
  objective : option (list Term);
  constraints : list LinearConstraint
}.

Definition new_Model (nm : string) : Model :=
  {| model_name := nm; binary_vars := []; objective := None; constraints := [] |}.

Definition binary_var (mdl : Model) (v : Var) : Model :=
  {| model_name := model_name mdl; binary_vars := binary_vars mdl ++ [v];
     objective := objective mdl; constraints := constraints mdl |}.

Definition minimize (mdl : Model) (obj : list Term) : Model :=
  {| model_name := model_name mdl; binary_vars := binary_vars mdl;
     objective := Some obj; constraints := constraints mdl |}.

Definition add_constraint (mdl : Model) (c : LinearConstraint) : Model :=
  {| model_name := model_name mdl; binary_vars := binary_vars mdl;
     objective := objective mdl; constraints := constraints mdl ++ [c] |}.

Definition iter_binary_vars (mdl : Model) : list Var := binary_vars mdl.

Definition number_of_binary_variables (mdl : Model) : Z :=
  Py.len (binary_vars mdl).

End Docplex.

(* ------------------------------------------------------------------ *)
(** ** The bin-packing problem class ([binpacking.py])                 *)
(* ------------------------------------------------------------------ *)

Module Binpacking.
Import Docplex.

(** [penalty: Union[float, list]] *)
Inductive Penalty : Type :=
| PFloat (p : Q)
| PList (ps : list Q).

(** A recorded constraint, the two-element list
    [[positions, [right-hand side]]]. *)
Record Constraint : Type := {
  c_positions : list Z;
  c_rhs : list Z
}.

(** [eq_constraints] and [ineq_constraints]: the key [eq_i] (or [ineq_j])
    is kept as its index. *)
Definition Constraints : Type := Py.dict (K := Z) (V := Constraint).

(** The solution dictionary: variable to [None] or a fixed value. *)
Definition Solution : Type := Py.dict (K := Var) (V := option Z).

Definition VarsPos : Type := Py.dict (K := Var) (V := Z).

(** The instance.  The last five attributes are created by methods, not
    by every run of the constructor: [None] is an absent attribute. *)
Record BinPacking : Type := {
  weights : list Z;
  weight_capacity : Z;
  penalty : Penalty;
  n_items : Z;
  method : string;
  simplifications : bool;
  eq_constraints : Constraints;
  ineq_constraints : Constraints;
  n_bins : Z;
  min_bins : option Z;
  solution : option Solution;
  vars_pos : option VarsPos;
  cplex_model : option Model;
  n_vars : option Z
}.

Definition set_weights (v : list Z) (self : BinPacking) : BinPacking :=
  {| weights := v;
     weight_capacity := weight_capacity self;
     penalty := penalty self;
     n_items := n_items self;
     method := method self;
     simplifications := simplifications self;
     eq_constraints := eq_constraints self;
     ineq_constraints := ineq_constraints self;
     n_bins := n_bins self;
     min_bins := min_bins self;
     solution := solution self;
     vars_pos := vars_pos self;
     cplex_model := cplex_model self;
     n_vars := n_vars self |}.

Definition set_weight_capacity (v : Z) (self : BinPacking) : BinPacking :=
  {| weights := weights self;
     weight_capacity := v;
     penalty := penalty self;
     n_items := n_items self;
     method := method self;
     simplifications := simplifications self;
     eq_constraints := eq_constraints self;
     ineq_constraints := ineq_constraints self;
     n_bins := n_bins self;
     min_bins := min_bins self;
     solution := solution self;
     vars_pos := vars_pos self;
     cplex_model := cplex_model self;
     n_vars := n_vars self |}.

Definition set_penalty (v : Penalty) (self : BinPacking) : BinPacking :=
  {| weights := weights self;
     weight_capacity := weight_capacity self;
     penalty := v;
     n_items := n_items self;
     method := method self;
     simplifications := simplifications self;
     eq_constraints := eq_constraints self;
     ineq_constraints := ineq_constraints self;
     n_bins := n_bins self;
     min_bins := min_bins self;
     solution := solution self;
     vars_pos := vars_pos self;
     cplex_model := cplex_model self;
     n_vars := n_vars self |}.

Definition set_n_items (v : Z) (self : BinPacking) : BinPacking :=
  {| weights := weights self;
     weight_capacity := weight_capacity self;
     penalty := penalty self;
     n_items := v;
     method := method self;
     simplifications := simplifications self;
     eq_constraints := eq_constraints self;
     ineq_constraints := ineq_constraints self;
     n_bins := n_bins self;
     min_bins := min_bins self;
     solution := solution self;
     vars_pos := vars_pos self;
     cplex_model := cplex_model self;
     n_vars := n_vars self |}.

Definition set_simplifications (v : bool) (self : BinPacking) : BinPacking :=
  {| weights := weights self;
     weight_capacity := weight_capacity self;
     penalty := penalty self;
     n_items := n_items self;
     method := method self;
     simplifications := v;
     eq_constraints := eq_constraints self;
     ineq_constraints := ineq_constraints self;
     n_bins := n_bins self;
     min_bins := min_bins self;
     solution := solution self;
     vars_pos := vars_pos self;
     cplex_model := cplex_model self;
     n_vars := n_vars self |}.

Definition set_eq_constraints (v : Constraints) (self : BinPacking) : BinPacking :=
  {| weights := weights self;
     weight_capacity := weight_capacity self;
     penalty := penalty self;
     n_items := n_items self;
     method := method self;
     simplifications := simplifications self;
     eq_constraints := v;
     ineq_constraints := ineq_constraints self;
     n_bins := n_bins self;
     min_bins := min_bins self;
     solution := solution self;
     vars_pos := vars_pos self;
     cplex_model := cplex_model self;
     n_vars := n_vars self |}.

Definition set_ineq_constraints (v : Constraints) (self : BinPacking) : BinPacking :=
  {| weights := weights self;
     weight_capacity := weight_capacity self;
     penalty := penalty self;
     n_items := n_items self;
     method := method self;
     simplifications := simplifications self;
     eq_constraints := eq_constraints self;
     ineq_constraints := v;
     n_bins := n_bins self;
     min_bins := min_bins self;
     solution := solution self;
     vars_pos := vars_pos self;
     cplex_model := cplex_model self;
     n_vars := n_vars self |}.

Definition set_n_bins (v : Z) (self : BinPacking) : BinPacking :=
  {| weights := weights self;
     weight_capacity := weight_capacity self;
     penalty := penalty self;
     n_items := n_items self;
     method := method self;
     simplifications := simplifications self;
     eq_constraints := eq_constraints self;
     ineq_constraints := ineq_constraints self;
     n_bins := v;
     min_bins := min_bins self;
     solution := solution self;
     vars_pos := vars_pos self;
     cplex_model := cplex_model self;
     n_vars := n_vars self |}.

Definition set_min_bins (v : option Z) (self : BinPacking) : BinPacking :=
  {| weights := weights self;
     weight_capacity := weight_capacity self;
     penalty := penalty self;
     n_items := n_items self;
     method := method self;
     simplifications := simplifications self;
     eq_constraints := eq_constraints self;
     ineq_constraints := ineq_constraints self;
     n_bins := n_bins self;
     min_bins := v;
     solution := solution self;
     vars_pos := vars_pos self;
     cplex_model := cplex_model self;
     n_vars := n_vars self |}.

Definition set_solution (v : option Solution) (self : BinPacking) : BinPacking :=
  {| weights := weights self;
     weight_capacity := weight_capacity self;
     penalty := penalty self;
     n_items := n_items self;
     method := method self;
     simplifications := simplifications self;
     eq_constraints := eq_constraints self;
     ineq_constraints := ineq_constraints self;
     n_bins := n_bins self;
     min_bins := min_bins self;
     solution := v;
     vars_pos := vars_pos self;
     cplex_model := cplex_model self;
     n_vars := n_vars self |}.

Definition set_vars_pos (v : option VarsPos) (self : BinPacking) : BinPacking :=
  {| weights := weights self;
     weight_capacity := weight_capacity self;
     penalty := penalty self;
     n_items := n_items self;
     method := method self;
     simplifications := simplifications self;
     eq_constraints := eq_constraints self;
     ineq_constraints := ineq_constraints self;
     n_bins := n_bins self;
     min_bins := min_bins self;
     solution := solution self;
     vars_pos := v;
     cplex_model := cplex_model self;
     n_vars := n_vars self |}.

Definition set_cplex_model (v : option Model) (self : BinPacking) : BinPacking :=
  {| weights := weights self;
     weight_capacity := weight_capacity self;
     penalty := penalty self;
     n_items := n_items self;
     method := method self;
     simplifications := simplifications self;
     eq_constraints := eq_constraints self;
     ineq_constraints := ineq_constraints self;
     n_bins := n_bins self;
     min_bins := min_bins self;
     solution := solution self;
     vars_pos := vars_pos self;
     cplex_model := v;
     n_vars := n_vars self |}.

Definition set_n_vars (v : option Z) (self : BinPacking) : BinPacking :=
  {| weights := weights self;
     weight_capacity := weight_capacity self;
     penalty := penalty self;
     n_items := n_items self;
     method := method self;
     simplifications := simplifications self;
     eq_constraints := eq_constraints self;
     ineq_constraints := ineq_constraints self;
     n_bins := n_bins self;
     min_bins := min_bins self;
     solution := solution self;
     vars_pos := vars_pos self;
     cplex_model := cplex_model self;
     n_vars := v |}.

(** *** Methods as state transformers that may raise *)

Definition M (A : Type) : Type := BinPacking -> BinPacking * Py.result A.

Definition ret {A} (a : A) : M A := fun self => (self, Ok a).

Definition raise {A} (e : Py.exn) : M A := fun self => (self, Raise e).

Definition bindM {A B} (m : M A) (k : A -> M B) : M B :=
  fun self =>
    match m self with
    | (self', Ok a) => k a self'
    | (self', Raise e) => (self', Raise e)
    end.

Definition lift {A} (r : Py.result A) : M A := fun self => (self, r).

(** [self.f] *)
Definition gets {A} (f : BinPacking -> A) : M A := fun self => (self, Ok (f self)).

(** [self.f] for an attribute that may not exist yet. *)
Definition attr {A} (nm : string) (f : BinPacking -> option A) : M A :=
  fun self =>
    match f self with
    | Some a => (self, Ok a)
    | None => (self, Raise (AttributeError nm))
    end.

(** [self.f = v] *)
Definition assign (upd : BinPacking -> BinPacking) : M unit :=
  fun self => (upd self, Ok tt).

(** A [for] loop carrying the locals it rebinds. *)
Fixpoint foldM {A B} (body : B -> A -> M B) (l : list A) (acc : B) : M B :=
  match l with
  | [] => ret acc
  | a :: l' => bindM (body acc a) (foldM body l')
  end.

(** [[f(a) for a in l]] *)
Fixpoint mapM {A B} (f : A -> M B) (l : list A) : M (list B) :=
  match l with
  | [] => ret []
  | a :: l' => bindM (f a) (fun b => bindM (mapM f l') (fun bs => ret (b :: bs)))
  end.

(** [d[k]] *)
Definition getitem {K V} (eqb : K -> K -> bool) (show : K -> string)
  (d : Py.dict (K := K) (V := V)) (k : K) : Py.result V :=
  match Py.get eqb k d with
  | Some v => Ok v
  | None => Raise (KeyError (show k))
  end.

Notation "'let*' x ':=' m 'in' k" := (bindM m (fun x => k))
  (at level 10, x name, m at level 100, k at level 200, only parsing) : py_scope.
Notation "'let*' ' p ':=' m 'in' k" := (bindM m (fun p => k))
  (at level 10, p pattern, m at level 100, k at level 200, only parsing) : py_scope.
Notation "m ;;; k" := (bindM m (fun _ => k))
  (at level 100, k at level 200, right associativity, only parsing) : py_scope.

(** *** [solution_dict] *)

(** [int(np.ceil(np.sum(self.weights) / self.weight_capacity))] *)
Definition minimum_bins (ws : list Z) (capacity : Z) : Py.result Z :=
  Np.to_int (Np.ceil (Np.true_divide (Np.sum ws) capacity)).

Definition solution_dict : M Solution := fun self =>
  let solution : Solution :=
    fold_left (fun d i => Py.set Var_eqb (y_ i) None d)
              (Py.range (n_bins self)) [] in
  let solution :=
    fold_left (fun d i =>
                 fold_left (fun d j => Py.set Var_eqb (x_ i j) None d)
                           (Py.range (n_bins self)) d)
              (Py.range (n_items self)) solution in
  if simplifications self then
    (* First simplification: we know the minimum number of bins *)
    match minimum_bins (weights self) (weight_capacity self) with
    | Raise e => (self, Raise e)
    | Ok mb =>
        let self := set_min_bins (Some mb) self in
        let solution :=
          fold_left (fun d j =>
                       if j <? mb then Py.set Var_eqb (y_ j) (Some 1) d else d)
                    (Py.range (n_bins self)) solution in
        let solution := Py.set Var_eqb (x_ 0 0) (Some 1) solution in
        let solution :=
          fold_left (fun d j => Py.set Var_eqb (x_ 0 j) (Some 0) d)
                    (Py.range2 1 (n_bins self)) solution in
        (self, Ok solution)
    end
  else (self, Ok solution).

(** *** [docplex_model] *)

(** [y[0] == "y"] on a variable name *)
Definition starts_with_y (v : Var) : bool :=
  match String.get 0 (name v) with
  | Some c => Ascii.eqb c "y"%char
  | None => false
  end.

(** [{var.name: n for n, var in enumerate(vars)}] *)
Definition enumerate_positions (vars : list Var) : VarsPos :=
  fold_left (fun d nv => Py.set Var_eqb (snd nv) (fst nv) d)
            (combine (Py.range (Py.len vars)) vars) [].

(** [self.weights[i] / self.weight_capacity] on plain integers, as the
    constructor receives them.  (On the NumPy integers [random_instance]
    draws, a zero capacity gives [inf] or [nan] instead, and what docplex
    makes of such a coefficient is not modelled: the quotient raises here
    in both cases.) *)
Definition coefficient (w capacity : Z) : Py.result Q :=
  if capacity =? 0 then Raise ZeroDivisionError
  else Ok (inject_Z w / inject_Z capacity)%Q.

(** [[self.vars_pos[f"x_{i}_{j}"] for i in list_items]] *)
Definition positions_in_bin (list_items : list Z) (j : Z) : M (list Z) :=
  mapM (fun i =>
          let* vars_pos := attr "vars_pos" vars_pos in
          lift (getitem Var_eqb name vars_pos (x_ i j)))
       list_items.

(** One turn of [for var in self.solution.keys()]: a variable without a
    fixed value becomes a binary variable of the model. *)
Definition declare_variable (acc : Model * Py.dict (K := Var) (V := Term))
  (var : Var) : M (Model * Py.dict (K := Var) (V := Term)) :=
  let '(mdl, vars_) := acc in
  let* sol := attr "solution" solution in
  let* value := lift (getitem Var_eqb name sol var) in
  match value with
  | None => ret (binary_var mdl var, Py.set Var_eqb var (BinVar var) vars_)
  | Some v => ret (mdl, Py.set Var_eqb var (Const v) vars_)
  end.

(** One turn of [for i in list_items].
    First set of constraints: the items must be in any bin. *)
Definition record_item (vars_ : Py.dict (K := Var) (V := Term)) (mdl : Model)
  (i : Z) : M Model :=
  let* bins := gets n_bins in
  let* positions :=
    mapM (fun j =>
            let* vars_pos := attr "vars_pos" vars_pos in
            lift (getitem Var_eqb name vars_pos (x_ i j)))
         (Py.range bins) in
  let* eqs := gets eq_constraints in
  assign (set_eq_constraints
            (Py.set Z.eqb i {| c_positions := positions; c_rhs := [1] |} eqs)) ;;;
  let* bins := gets n_bins in
  let* terms :=
    lift (Py.mapM (fun j => getitem Var_eqb name vars_ (x_ i j))
                  (Py.range bins)) in
  ret (add_constraint mdl
         {| lhs := map (fun t => (1%Q, t)) terms; sense := EQ; rhs := Const 1 |}).

(** One turn of [for j in range(self.n_bins)].
    Second set of constraints: weight constraints. *)
Definition record_bin (vars_ : Py.dict (K := Var) (V := Term))
  (list_items : list Z) (mdl : Model) (j : Z) : M Model :=
  let* n := gets n_items in
  let* terms :=
    mapM (fun i =>
            let* ws := gets weights in
            let* w := lift (Py.index ws i) in
            let* capacity := gets weight_capacity in
            let* c := lift (coefficient w capacity) in
            let* t := lift (getitem Var_eqb name vars_ (x_ i j)) in
            ret (c, t))
         (Py.range n) in
  let* bin := lift (getitem Var_eqb name vars_ (y_ j)) in
  let mdl := add_constraint mdl {| lhs := terms; sense := LE; rhs := bin |} in
  let* simp := gets simplifications in
  let* below :=
    if simp
    then (let* mb := attr "min_bins" min_bins in ret (j <? mb))
    else ret false in
  if below then
    if j =? 0 then
      let* positions := positions_in_bin list_items j in
      let* capacity := gets weight_capacity in
      let* ws := gets weights in
      let* w0 := lift (Py.index ws 0) in
      let* ineqs := gets ineq_constraints in
      assign (set_ineq_constraints
                (Py.set Z.eqb j {| c_positions := positions;
                                   c_rhs := [capacity - w0] |} ineqs)) ;;;
      ret mdl
    else
      let* positions := positions_in_bin list_items j in
      let* capacity := gets weight_capacity in
      let* ineqs := gets ineq_constraints in
      assign (set_ineq_constraints
                (Py.set Z.eqb j {| c_positions := positions;
                                   c_rhs := [capacity] |} ineqs)) ;;;
      ret mdl
  else
    let* positions := positions_in_bin list_items j in
    let* vars_pos := attr "vars_pos" vars_pos in
    let* yj := lift (getitem Var_eqb name vars_pos (y_ j)) in
    let* ineqs := gets ineq_constraints in
    assign (set_ineq_constraints
              (Py.set Z.eqb j {| c_positions := positions;
                                 c_rhs := [yj] |} ineqs)) ;;;
    ret mdl.

Definition docplex_model : M Model :=
  let mdl := new_Model "bin_packing" in
  let* sol := attr "solution" solution in
  let* '(mdl, vars_) := foldM declare_variable (Py.keys sol) (mdl, []) in
  let* objective :=
    lift (Py.mapM (getitem Var_eqb name vars_)
                  (filter starts_with_y (Py.keys vars_))) in
  assign (set_vars_pos (Some (enumerate_positions (iter_binary_vars mdl)))) ;;;
  let mdl := minimize mdl objective in
  let* simp := gets simplifications in
  let* n := gets n_items in
  let list_items := if simp then Py.range2 1 n else Py.range n in
  let* mdl := foldM (record_item vars_) list_items mdl in
  let* bins := gets n_bins in
  let* mdl := foldM (record_bin vars_ list_items) (Py.range bins) mdl in
  ret mdl.

(** *** [__init__] *)

Record InitArgs : Type := {
  arg_weights : list Z;
  arg_weight_capacity : Z;
  arg_penalty : Penalty;
  arg_n_bins : option Z;
  arg_simplifications : bool;
  arg_method : string
}.

(** [BinPacking()] *)
Definition default_args : InitArgs :=
  {| arg_weights := []; arg_weight_capacity := 0; arg_penalty := PList [];
     arg_n_bins := None; arg_simplifications := true; arg_method := "slack" |}.

(** The attributes [__init__] assigns before its [if]. *)
Definition init_fields (a : InitArgs) : BinPacking :=
  {| weights := arg_weights a;
     weight_capacity := arg_weight_capacity a;
     penalty := arg_penalty a;
     n_items := Py.len (arg_weights a);
     method := arg_method a;
     simplifications := arg_simplifications a;
     eq_constraints := [];
     ineq_constraints := [];
     n_bins := match arg_n_bins a with
               | None => Py.len (arg_weights a)
               | Some n => n
               end;
     min_bins := None; solution := None; vars_pos := None;
     cplex_model := None; n_vars := None |}.

(** [self.solution = ...; self.cplex_model = ...; self.n_vars = ...] *)
Definition build : M unit :=
  let* s := solution_dict in
  assign (set_solution (Some s)) ;;;
  let* mdl := docplex_model in
  assign (set_cplex_model (Some mdl)) ;;;
  let* mdl := attr "cplex_model" cplex_model in
  assign (set_n_vars (Some (number_of_binary_variables mdl))).

(** The constructor: an object exists only when [__init__] returns. *)
Definition init (a : InitArgs) : Py.result BinPacking :=
  let self := init_fields a in
  if 0 <? Py.len (arg_weights a) then
    match build self with
    | (self, Ok _) => Ok self
    | (_, Raise e) => Raise e
    end
  else Ok self.

(** *** The libraries behind [random_instance], [get_qubo_problem],
        [classical_solution] and [find_penalty_terms] *)

(** What [cplex_model.solve()] returns when it finds a solution. *)
Record SolveSolution : Type := {
  get_value : Var -> Q;
  is_valid_solution : bool
}.

(** [qaoa.results.lowest_cost_bitstrings(n)] *)
Record LowestCost : Type := {
  solutions_bitstrings : list string;
  probabilities : list Q
}.

(** What [get_penalty] returns: the objective value, or the report
    dictionary when called with [callback=True]. *)
Record Report : Type := {
  report_result : LowestCost;
  report_pos : Z;
  report_CoP : Q;
  report_probability : Q;
  report_n_vars : Z;
  report_x0 : list Q;
  report_constraints_not_fulfilled : Z
}.

Inductive PenaltyValue : Type :=
| Objective (value : Q)
| Callback (report : Report).

Class Vendor : Type := {
  (** NumPy's global generator: [np.random.seed(seed)] and
      [np.random.randint(low, high, size)] *)
  RandomState : Type;
  np_random_seed : Z -> Py.result RandomState;
  np_random_randint : RandomState -> Z -> Z -> Z -> Py.result (list Z);
  (** [FromDocplex2IsingModel(model, multipliers=, unbalanced_const=,
      strength_ineq=).ising_model]; [None] is an argument left out *)
  IsingModel : Type;
  FromDocplex2IsingModel :
    Model -> option Penalty -> option bool -> option (list Q) -> Py.result IsingModel;
  (** [model.solve()]; [None] when there is no solution *)
  solve : Model -> option SolveSolution;
  (** [QAOA()] set up with p=1, the custom initial parameters and
      maxiter=100, compiled on the Ising model, optimised, and asked for
      its [n] lowest-cost bitstrings *)
  qaoa_lowest_cost_bitstrings : IsingModel -> Z -> Py.result LowestCost;
  (** [scipy.optimize.minimize(fun, x0=, bounds=, method=, options=).x] *)
  scipy_minimize :
    (list Q -> Py.result PenaltyValue) -> list Q -> list (Z * Z) -> string ->
    list (string * Z) -> Py.result (list Q)
}.

Section Methods.
Context {vendor : Vendor}.

(** *** [random_instance] *)

Definition random_instance (n_items min_weight max_weight weight_capacity : Z)
  (simplification : bool) (seed : Z) : M unit :=
  let* rng := lift (np_random_seed seed) in
  assign (set_weight_capacity weight_capacity) ;;;
  assign (set_n_items n_items) ;;;
  assign (set_n_bins n_items) ;;;
  if max_weight <=? min_weight then
    raise (ValueError ("min_weight: " ++ Py.str min_weight
                       ++ " must be < max_weight:" ++ Py.str max_weight)%string)
  else
    let* ws := lift (np_random_randint rng min_weight max_weight n_items) in
    assign (set_weights ws) ;;;
    assign (set_simplifications simplification) ;;;
    build.

(** *** [get_qubo_problem] *)

(** [len(self.penalty)] *)
Definition len_penalty (p : Penalty) : Py.result Z :=
  match p with
  | PList ps => Ok (Py.len ps)
  | PFloat _ => Raise (TypeError "object of type 'float' has no len()")
  end.

(** [penalty[0]] and [penalty[1:]] *)
Definition penalty_head (p : Penalty) : Py.result Q :=
  match p with
  | PList ps => Py.index ps 0
  | PFloat _ => Raise (TypeError "'float' object is not subscriptable")
  end.

Definition penalty_tail (p : Penalty) : Py.result (list Q) :=
  match p with
  | PList ps => Ok (tl ps)
  | PFloat _ => Raise (TypeError "'float' object is not subscriptable")
  end.

Definition the_model (self : BinPacking) : Py.result Model :=
  match cplex_model self with
  | Some m => Ok m
  | None => Raise (AttributeError "cplex_model")
  end.

Definition get_qubo_problem (self : BinPacking) : Py.result IsingModel :=
  n <- len_penalty (penalty self) ;;
  if 0 <? n then
    if String.eqb (method self) "slack" then
      m <- the_model self ;;
      FromDocplex2IsingModel m (Some (penalty self)) None None
    else if String.eqb (method self) "unbalanced" then
      m <- the_model self ;;
      p0 <- penalty_head (penalty self) ;;
      rest <- penalty_tail (penalty self) ;;
      FromDocplex2IsingModel m (Some (PFloat p0)) (Some true) (Some rest)
    else Raise (UnboundLocalError "qubo")
  else
    if String.eqb (method self) "slack" then
      m <- the_model self ;;
      FromDocplex2IsingModel m None None None
    else if String.eqb (method self) "unbalanced" then
      m <- the_model self ;;
      FromDocplex2IsingModel m None (Some true) None
    else Raise (UnboundLocalError "qubo").

End Methods.

(** *** [constraints_not_fulfilled] *)

(** [int(c)] on one character of the solution string *)
Definition int_of_char (c : ascii) : Py.result Z :=
  let n := nat_of_ascii c in
  if ((48 <=? n) && (n <=? 57))%nat then Ok (Z.of_nat (n - 48))
  else Raise (ValueError "invalid literal for int() with base 10").

(** [np.array([int(i) for i in solution])] *)
Definition int_array (s : string) : Py.result (list Z) :=
  Py.mapM int_of_char (list_ascii_of_string s).

(** What [solution[k]] is asked with: an integer, or (in the branch
    without simplifications) the right-hand-side list itself. *)
Inductive Subscript : Type :=
| SInt (k : Z)
| SList (ks : list Z).

(** [int(solution[k])] on the solution string *)
Definition int_at (s : string) (k : Subscript) : Py.result Z :=
  match k with
  | SInt k => c <- Py.index (list_ascii_of_string s) k ;; int_of_char c
  | SList _ => Raise (TypeError "string indices must be integers")
  end.

(** One equality constraint: 1 when violated. *)
Definition check_eq (n_vars : Z) (sol : string) (constraint : Constraint)
  : Py.result Z :=
  vec <- Np.zeros n_vars ;;
  vec <- Np.setitem_scalar vec (c_positions constraint) 1 ;;
  bits <- int_array sol ;;
  prod <- Np.multiply vec bits ;;
  let lh := Np.sum prod in
  r <- Py.index (c_rhs constraint) 0 ;;
  Ok (if lh =? r then 0 else 1).

(** One inequality constraint, the [ii]-th recorded: 1 when violated. *)
Definition check_ineq (self : BinPacking) (n_vars : Z) (sol : string)
  (ii : Z) (constraint : Constraint) : Py.result Z :=
  vec <- Np.zeros n_vars ;;
  wr <- (if simplifications self then
           let ws := tl (weights self) in
           match min_bins self with
           | None => Raise (AttributeError "min_bins")
           | Some mb =>
               if ii <? mb then
                 r <- Py.index (c_rhs constraint) 0 ;; Ok (ws, r)
               else
                 k <- Py.index (c_rhs constraint) 0 ;;
                 b <- int_at sol (SInt k) ;;
                 Ok (ws, weight_capacity self * b)
           end
         else
           b <- int_at sol (SList (c_rhs constraint)) ;;
           Ok (weights self, weight_capacity self * b)) ;;
  let '(ws, r) := wr in
  vec <- Np.setitem vec (c_positions constraint) ws ;;
  bits <- int_array sol ;;
  prod <- Np.multiply vec bits ;;
  let lh := Np.sum prod in
  Ok (if r <? lh then 1 else 0).

(** A [for] loop that adds to [check]. *)
Fixpoint count_violations {A} (f : A -> Py.result Z) (l : list A) (check : Z)
  : Py.result Z :=
  match l with
  | [] => Ok check
  | a :: l' => v <- f a ;; count_violations f l' (check + v)
  end.

Definition constraints_not_fulfilled (self : BinPacking) (sol : string)
  : Py.result Z :=
  let check := 0 in
  check <- count_violations
             (fun constraint =>
                match n_vars self with
                | None => Raise (AttributeError "n_vars")
                | Some n => check_eq n sol constraint
                end)
             (Py.values (eq_constraints self)) check ;;
  let ineqs := Py.values (ineq_constraints self) in
  count_violations
    (fun '(ii, constraint) =>
       match n_vars self with
       | None => Raise (AttributeError "n_vars")
       | Some n => check_ineq self n sol ii constraint
       end)
    (combine (Py.range (Py.len ineqs)) ineqs) check.

Section Tuning.
Context {vendor : Vendor}.

(** *** [classical_solution] *)

(** [int(np.round(v, 1))]: round half to even at one decimal, then
    truncate. *)
Definition round_to_int (v : Q) : Py.result Z :=
  Np.to_int (Np.round v 1).

Definition solved (s : option SolveSolution) (what : string)
  : Py.result SolveSolution :=
  match s with
  | Some s => Ok s
  | None => Raise (AttributeError what)
  end.

(** The result is a string when [string] is set and a copy of the
    solution dictionary otherwise. *)
Definition classical_solution (self : BinPacking) (string_ : bool)
  : Py.result (string + Solution) :=
  mdl <- the_model self ;;
  let docplex_sol := solve mdl in
  start <- (if string_ then Ok (inl EmptyString)
            else match solution self with
                 | Some s => Ok (inr s)
                 | None => Raise (AttributeError "solution")
                 end) ;;
  mdl <- the_model self ;;
  sol <- fold_left
           (fun acc var =>
              acc <- acc ;;
              s <- solved docplex_sol "get_value" ;;
              v <- round_to_int (get_value s var) ;;
              match acc with
              | inl text => Ok (inl (text ++ Py.str v)%string)
              | inr d => Ok (inr (Py.set Var_eqb var (Some v) d))
              end)
           (iter_binary_vars mdl) (Ok start) ;;
  s <- solved docplex_sol "is_valid_solution" ;;
  if negb (is_valid_solution s)
  then Raise (ValueError "The Cplex solver does not find a solution.")
  else Ok sol.

(** *** [find_penalty_terms] *)

(** [min(l)] and [max(l)] *)
Definition py_min (l : list Z) : Py.result Z :=
  match l with
  | [] => Raise (ValueError "min() arg is an empty sequence")
  | a :: l' => Ok (fold_left Z.min l' a)
  end.

Definition py_max (l : list Z) : Py.result Z :=
  match l with
  | [] => Raise (ValueError "max() arg is an empty sequence")
  | a :: l' => Ok (fold_left Z.max l' a)
  end.

(** [l.index(s)] on a list of strings *)
Fixpoint list_index (l : list string) (s : string) : Py.result Z :=
  match l with
  | [] => Raise (ValueError "is not in list")
  | a :: l' =>
      if String.eqb a s then Ok 0
      else (k <- list_index l' s ;; Ok (k + 1))
  end.

(** The Ising model [get_penalty] builds for one problem. *)
Definition penalty_ising (self : BinPacking) (penalty : list Q)
  (problem : BinPacking) : Py.result IsingModel :=
  if String.eqb (method self) "unbalanced" then
    if negb (Py.len penalty =? 3) then
      Raise (ValueError ("The penalization term must include 3 terms. 1 for the equality constraint and 2 for the unbalanced, given "
                         ++ Py.str (Py.len penalty))%string)
    else
      m <- the_model problem ;;
      p0 <- Py.index penalty 0 ;;
      FromDocplex2IsingModel m (Some (PFloat p0)) (Some true) (Some (tl penalty))
  else if String.eqb (method self) "slack" then
    if negb (Py.len penalty =? 1) then
      Raise (ValueError ("The penalization term must include 1 term for the equality and inequality constraints , given "
                         ++ Py.str (Py.len penalty))%string)
    else
      m <- the_model problem ;;
      p0 <- Py.index penalty 0 ;;
      FromDocplex2IsingModel m (Some (PFloat p0)) (Some false) None
  else Raise (UnboundLocalError "ising").

(** The loop of the nested function [get_penalty], over the keys of
    [problems] still to visit, with its two running sums. *)
Fixpoint get_penalty_loop (self : BinPacking) (penalty : list Q)
  (problems : Py.dict (K := Z) (V := BinPacking))
  (sol_str : Py.dict (K := Z) (V := string)) (callback : bool)
  (todo : list Z) (probability : Q) (const_not : Z) : Py.result PenaltyValue :=
  match todo with
  | [] => Ok (Objective (inject_Z const_not - probability)%Q)
  | n_problem :: todo' =>
      problem <- getitem Z.eqb Py.str problems n_problem ;;
      ising <- penalty_ising self penalty problem ;;
      n <- match n_vars problem with
           | Some n => Ok n
           | None => Raise (AttributeError "n_vars")
           end ;;
      results <- qaoa_lowest_cost_bitstrings ising (2 ^ n) ;;
      s <- getitem Z.eqb Py.str sol_str n_problem ;;
      pos <- list_index (solutions_bitstrings results) s ;;
      p <- Py.index (probabilities results) pos ;;
      let probability := (probability + p)%Q in
      first <- Py.index (solutions_bitstrings results) 0 ;;
      c <- constraints_not_fulfilled problem first ;;
      let const_not := const_not + c in
      if callback then
        Ok (Callback {| report_result := results;
                        report_pos := pos;
                        report_CoP := (probability * inject_Z (2 ^ n))%Q;
                        report_probability := probability;
                        report_n_vars := n;
                        report_x0 := penalty;
                        report_constraints_not_fulfilled := const_not |})
      else
        get_penalty_loop self penalty problems sol_str callback todo'
                         probability const_not
  end.

Definition get_penalty (self : BinPacking) (penalty : list Q)
  (problems : Py.dict (K := Z) (V := BinPacking))
  (sol_str : Py.dict (K := Z) (V := string)) (callback : bool)
  : Py.result PenaltyValue :=
  get_penalty_loop self penalty problems sol_str callback
                   (Py.keys problems) 0%Q 0.

(** The arguments of [BinPacking(method=m)], and the object it builds:
    with no weights the constructor only assigns the fields. *)
Definition with_method (m : string) : InitArgs :=
  {| arg_weights := arg_weights default_args;
     arg_weight_capacity := arg_weight_capacity default_args;
     arg_penalty := arg_penalty default_args;
     arg_n_bins := arg_n_bins default_args;
     arg_simplifications := arg_simplifications default_args;
     arg_method := m |}.

Definition fresh_instance (self : BinPacking) : BinPacking :=
  init_fields (with_method (method self)).


(** One turn of [for n_mdl in range(n_mdls)]: a fresh instance with the
    method of [self], made random with seed [n_mdl], and its classical
    solution as a string.  (The last branch is never taken:
    [classical_solution] called with [string=True] returns a string.) *)
Definition add_instance (self : BinPacking) (n_items min_weight max_weight : Z)
  (acc : Py.dict (K := Z) (V := BinPacking) * Py.dict (K := Z) (V := string))
  (n_mdl : Z)
  : Py.result (Py.dict (K := Z) (V := BinPacking) * Py.dict (K := Z) (V := string)) :=
  let '(mdls, sol_str) := acc in
  fresh <- init (with_method (method self)) ;;
  let mdls := Py.set Z.eqb n_mdl fresh mdls in
  problem <- getitem Z.eqb Py.str mdls n_mdl ;;
  match random_instance n_items min_weight max_weight (weight_capacity self)
                        true n_mdl problem with
  | (_, Raise e) => Raise e
  | (problem, Ok _) =>
      let mdls := Py.set Z.eqb n_mdl problem mdls in
      problem <- getitem Z.eqb Py.str mdls n_mdl ;;
      text <- classical_solution problem true ;;
      match text with
      | inl text => Ok (mdls, Py.set Z.eqb n_mdl text sol_str)
      | inr _ => Raise (TypeError "classical_solution(string=True) is a str")
      end
  end.

Definition bounds : list (Z * Z) := [(0, 10); (0, 5); (0, 5)].

Definition options : list (string * Z) := [("maxiter", 100); ("maxfeval", 100)].

Definition find_penalty_terms (penalty0 : list Q) (n_items n_mdls : Z)
  : M (list Q * PenaltyValue) :=
  let* ws := gets weights in
  let* min_weight := lift (py_min ws) in
  let* ws := gets weights in
  let* max_weight := lift (py_max ws) in
  let* min_weight :=
    if (min_weight =? max_weight) && (1 <? max_weight) then
      if 1 <? max_weight then ret (min_weight - 1)
      else raise (ValueError ("max weight cannot be " ++ Py.str max_weight)%string)
    else ret min_weight in
  let* '(mdls, sol_str) :=
    foldM (fun acc n_mdl =>
             let* self := gets (fun self => self) in
             lift (add_instance self n_items min_weight max_weight acc n_mdl))
          (Py.range n_mdls) ([], []) in
  let* self := gets (fun self => self) in
  let* x :=
    lift (scipy_minimize (fun penalty => get_penalty self penalty mdls sol_str false)
                         penalty0 bounds "Nelder-Mead" options) in
  assign (set_penalty (PList x)) ;;;
  let* self := gets (fun self => self) in
  let* report := lift (get_penalty self x mdls sol_str true) in
  ret (x, report).

End Tuning.

(** *** The solution dictionary in closed form *)

(** The variables of an instance: one per bin, one per item and bin. *)
Definition variables (items bins : Z) : list Var :=
  map y_ (Py.range bins)
  ++ flat_map (fun i => map (x_ i) (Py.range bins)) (Py.range items).

(** The values fixed by the simplifications: the first [mb] bins are
    used, item 0 sits in bin 0 and in no other bin. *)
Definition simplified_value (mb : Z) (v : Var) : option Z :=
  match v with
  | y_ j => if j <? mb then Some 1 else None
  | x_ i j => if i =? 0 then (if j =? 0 then Some 1 else Some 0) else None
  end.

(** [ceil(sum(weights) / weight_capacity)] *)
Definition ceil_ratio (self : BinPacking) : Z :=
  Qceiling (inject_Z (Np.sum (weights self)) / inject_Z (weight_capacity self)).

(** *** What a method leaves alone *)

(** The attributes neither [solution_dict] nor [docplex_model] assigns. *)
Definition kept (self self' : BinPacking) : Prop :=
  solution self' = solution self
  /\ cplex_model self' = cplex_model self
  /\ n_vars self' = n_vars self
  /\ weights self' = weights self
  /\ weight_capacity self' = weight_capacity self
  /\ n_items self' = n_items self
  /\ n_bins self' = n_bins self
  /\ simplifications self' = simplifications self.

(** A computation that never raises [ValueError] and leaves the
    attributes above as they are. *)
Definition quiet {A} (m : M A) : Prop :=
  forall self,
    Py.is_value_error (snd (m self)) = false /\ kept self (fst (m self)).

(** The constraints recorded on [self] are still recorded on [self']. *)
Definition grown (self self' : BinPacking) : Prop :=
  (forall k, In k (Py.keys (eq_constraints self)) ->
             In k (Py.keys (eq_constraints self')))
  /\ (forall k, In k (Py.keys (ineq_constraints self)) ->
                In k (Py.keys (ineq_constraints self'))).

(** A computation that removes no recorded constraint. *)
Definition growing {A} (m : M A) : Prop :=
  forall self, grown self (fst (m self)).


(** *** Sequences of [random_instance] calls *)

Record RandomArgs : Type := {
  ra_n_items : Z;
  ra_min_weight : Z;
  ra_max_weight : Z;
  ra_weight_capacity : Z;
  ra_simplification : bool;
  ra_seed : Z
}.

(** [random_instance()] *)
Definition default_random : RandomArgs :=
  {| ra_n_items := 3; ra_min_weight := 1; ra_max_weight := 5;
     ra_weight_capacity := 10; ra_simplification := true; ra_seed := 1 |}.

Definition has_attributes (self : BinPacking) : bool :=
  match solution self, cplex_model self, n_vars self with
  | Some _, Some _, Some _ => true
  | _, _, _ => false
  end.

Definition returned (r : Py.result unit) : bool := Py.is_ok r.

(** [n_vars], when it exists together with the model, counts the model's
    binary variables. *)
Definition consistent (self : BinPacking) : Prop :=
  forall m n, cplex_model self = Some m -> n_vars self = Some n ->
              n = number_of_binary_variables m.

(** The invariant of an instance between calls: the three attributes
    are all there, or the model is not. *)
Definition settled (self : BinPacking) : Prop :=
  (has_attributes self = true \/ cplex_model self = None)
  /\ consistent self.

Section Calls.
Context {vendor : Vendor}.

Definition call (a : RandomArgs) : M unit :=
  random_instance (ra_n_items a) (ra_min_weight a) (ra_max_weight a)
                  (ra_weight_capacity a) (ra_simplification a) (ra_seed a).

(** The calls made on one instance, one after the other, by a caller who
    catches what they raise: the final object and every call's outcome. *)
Fixpoint run_calls (calls : list RandomArgs) (self : BinPacking)
  : BinPacking * list (Py.result unit) :=
  match calls with
  | [] => (self, [])
  | a :: calls' =>
      let '(self, r) := call a self in
      let '(self, rs) := run_calls calls' self in
      (self, r :: rs)
  end.

End Calls.

(** *** Bitstrings and the sums the constraints compare *)

(** The string of a list of bits, as the QAOA results give it. *)
Definition bit_char (b : bool) : ascii := if b then "1"%char else "0"%char.

Definition bits_string (bits : list bool) : string :=
  string_of_list_ascii (map bit_char bits).

(** The bit at position [p], as a number. *)
Definition bit_at (bits : list bool) (p : Z) : Z :=
  nth (Z.to_nat p) (map Z.b2z bits) 0.

(** [sum(w * bit for the positions and their weights)] *)
Definition weighted_sum (positions weights_ : list Z) (bits : list bool) : Z :=
  Np.sum (map (fun pw => snd pw * bit_at bits (fst pw))
              (combine positions weights_)).

(** [sum(bit for the positions)] *)
Definition assigned (positions : list Z) (bits : list bool) : Z :=
  Np.sum (map (bit_at bits) positions).

(** Positions a constraint may record on [n] variables: distinct and
    within the string. *)
Definition well_placed (n : Z) (positions : list Z) : Prop :=
  NoDup positions /\ forall p, In p positions -> 0 <= p < n.

(** *** The number of violated constraints, in closed form *)

(** A recorded equality constraint is violated when the bits at its
    positions do not add up to its right-hand side. *)
Definition eq_violated (bits : list bool) (c : Constraint) : Z :=
  if assigned (c_positions c) bits =? hd 0 (c_rhs c) then 0 else 1.

(** The right-hand side of the [ii]-th inequality constraint under the
    simplifications: the recorded capacity for a bin below [min_bins],
    the capacity times the bit of the bin's variable otherwise. *)
Definition bin_capacity (self : BinPacking) (mb : Z) (bits : list bool)
  (ii : Z) (c : Constraint) : Z :=
  if ii <? mb then hd 0 (c_rhs c)
  else weight_capacity self * bit_at bits (hd 0 (c_rhs c)).

(** A recorded inequality constraint is violated when the weights of the
    items at its positions add up to more than that capacity. *)
Definition ineq_violated (self : BinPacking) (mb : Z) (bits : list bool)
  (iic : Z * Constraint) : Z :=
  if bin_capacity self mb bits (fst iic) (snd iic)
     <? weighted_sum (c_positions (snd iic)) (tl (weights self)) bits
  then 1 else 0.

Definition enumerate {A} (l : list A) : list (Z * A) :=
  combine (Py.range (Py.len l)) l.

Definition violations (self : BinPacking) (mb : Z) (bits : list bool) : Z :=
  Np.sum (map (eq_violated bits) (Py.values (eq_constraints self)))
  + Np.sum (map (ineq_violated self mb bits)
                (enumerate (Py.values (ineq_constraints self)))).

(** The shape of what [docplex_model] records under the simplifications
    for a model of [n] binary variables. *)
Definition recorded_eq (n : Z) (c : Constraint) : Prop :=
  well_placed n (c_positions c) /\ exists r, c_rhs c = [r].

Definition recorded_ineq (self : BinPacking) (mb n : Z)
  (iic : Z * Constraint) : Prop :=
  well_placed n (c_positions (snd iic))
  /\ List.length (c_positions (snd iic)) = List.length (tl (weights self))
  /\ exists r, c_rhs (snd iic) = [r] /\ (mb <= fst iic -> 0 <= r < n).

(** *** What [docplex_model] records, in closed form *)

(** The variables the simplifications leave free, in the order the model
    creates them. *)
Definition free (mb : Z) (v : Var) : bool :=
  match simplified_value mb v with
  | None => true
  | Some _ => false
  end.

Definition free_vars (mb items bins : Z) : list Var :=
  filter (free mb) (variables items bins).

(** The entry of [vars_] for a variable: the model variable when it is
    free, its fixed value otherwise. *)
Definition term_of (mb : Z) (v : Var) : Term :=
  match simplified_value mb v with
  | None => BinVar v
  | Some c => Const c
  end.

(** [vars_pos[v]] for the variables [l] of a model. *)
Definition position_of (l : list Var) (v : Var) : Z :=
  match Py.get Var_eqb v (enumerate_positions l) with
  | Some p => p
  | None => 0
  end.

(** The constraint recorded for item [i]: its variables over the bins
    add up to 1. *)
Definition eq_record (l : list Var) (bins i : Z) : Constraint :=
  {| c_positions := map (fun j => position_of l (x_ i j)) (Py.range bins);
     c_rhs := [1] |}.

(** The constraint recorded for bin [j] of an instance of [items] items
    of weights [ws]: the weights of the items after the first, against
    what is left in bin 0, the capacity of a bin in use, or the position
    of the bin's own variable. *)
Definition ineq_record (l : list Var) (items capacity : Z) (ws : list Z)
  (mb j : Z) : Constraint :=
  {| c_positions := map (fun i => position_of l (x_ i j)) (Py.range2 1 items);
     c_rhs :=
       [if j <? mb
        then (if j =? 0 then capacity - hd 0 ws else capacity)
        else position_of l (y_ j)] |}.

Definition add_binary_vars (mdl : Model) (l : list Var) : Model :=
  {| model_name := model_name mdl; binary_vars := binary_vars mdl ++ l;
     objective := objective mdl; constraints := constraints mdl |}.

(** The state in which the two constraint loops of [docplex_model] run,
    under the simplifications, for [items] items and [bins] bins. *)
Definition modelled (mb items bins : Z) (s : BinPacking) : Prop :=
  vars_pos s = Some (enumerate_positions (free_vars mb items bins))
  /\ simplifications s = true
  /\ min_bins s = Some mb
  /\ n_items s = items
  /\ n_bins s = bins
  /\ items = Py.len (weights s)
  /\ weight_capacity s <> 0.

(** *** The model [docplex_model] builds, in closed form *)




Definition add_constraints (mdl : Model) (cs : list LinearConstraint) : Model :=
  fold_left add_constraint cs mdl.

(** *** What [docplex_model] builds without the simplifications *)

(** Every variable is a variable of the model. *)
Definition plain_item_constraint (bins i : Z) : LinearConstraint :=
  {| lhs := map (fun j => (1%Q, BinVar (x_ i j))) (Py.range bins);
     sense := EQ;
     rhs := Const 1 |}.

Definition plain_bin_constraint (items capacity : Z) (ws : list Z) (j : Z)
  : LinearConstraint :=
  {| lhs := map (fun i =>
                   ((inject_Z (nth (Z.to_nat i) ws 0%Z) / inject_Z capacity)%Q,
                    BinVar (x_ i j)))
                (Py.range items);
     sense := LE;
     rhs := BinVar (y_ j) |}.

Definition plain_model (items bins capacity : Z) (ws : list Z) : Model :=
  {| model_name := "bin_packing";
     binary_vars := variables items bins;
     objective := Some (map (fun j => BinVar (y_ j)) (Py.range bins));
     constraints :=
       map (plain_item_constraint bins) (Py.range items)
       ++ map (plain_bin_constraint items capacity ws) (Py.range bins) |}.

(** The inequality recorded for bin [j]: the positions of all its items,
    against the position of the bin's variable. *)
Definition plain_ineq_record (l : list Var) (items j : Z) : Constraint :=
  {| c_positions := map (fun i => position_of l (x_ i j)) (Py.range items);
     c_rhs := [position_of l (y_ j)] |}.

(** The state in which the two constraint loops run without the
    simplifications. *)
Definition plain_modelled (items bins : Z) (s : BinPacking) : Prop :=
  vars_pos s = Some (enumerate_positions (variables items bins))
  /\ simplifications s = false
  /\ n_items s = items
  /\ n_bins s = bins
  /\ items = Py.len (weights s)
  /\ weight_capacity s <> 0.

(** *** What the model's constraints say of a bitstring *)

(** The value a bitstring gives a term of a model whose binary variables
    are [l]: the bit at the variable's position, or the constant. *)
Definition term_int (l : list Var) (bits : list bool) (t : Term) : Z :=
  match t with
  | BinVar v => bit_at bits (position_of l v)
  | Const c => c
  end.

Definition lhs_value (l : list Var) (bits : list bool) (c : LinearConstraint) : Q :=
  fold_right Qplus 0%Q
    (map (fun ct => (fst ct * inject_Z (term_int l bits (snd ct)))%Q) (lhs c)).

(** 1 when the bitstring violates the constraint, 0 when it satisfies
    it. *)
Definition violated (l : list Var) (bits : list bool) (c : LinearConstraint) : Z :=
  match sense c with
  | EQ =>
      if Qeq_bool (lhs_value l bits c) (inject_Z (term_int l bits (rhs c)))
      then 0 else 1
  | LE =>
      if Qle_bool (lhs_value l bits c) (inject_Z (term_int l bits (rhs c)))
      then 0 else 1
  end.

(** *** [plot_solution] *)

(** What the method puts on a matplotlib [Axes], in order: the bars, the
    capacity line, the ticks, the two axis labels and the legend.  A bar
    is coloured [colors(i)] for item [i]; the fixed styling arguments
    are left out. *)
Inductive Artist : Type :=
| Bar (x height bottom : Z) (label : string) (color : Z)
| HLines (y : Z) (xmin xmax : Q) (label : string)
| XTicks (ticks : list Z)
| XLabel (text : string)
| YLabel (text : string)
| Legend (anchor_x anchor_y : Q).

Definition Axes : Type := list Artist.

(** The truth value of an entry of the solution dictionary. *)
Definition truthy (v : option Z) : bool :=
  match v with
  | Some z => negb (z =? 0)
  | None => false
  end.

(** The branch for a string: a copy of [self.solution] in which the
    binary variables get the digits of the string, by position. *)
Definition decode_solution (self : BinPacking) (text : string)
  : Py.result Solution :=
  sol <- match solution self with
         | Some s => Ok s
         | None => Raise (AttributeError "solution")
         end ;;
  mdl <- the_model self ;;
  fold_left (fun acc nv =>
               sol <- acc ;;
               b <- int_at text (SInt (fst nv)) ;;
               Ok (Py.set Var_eqb (snd nv) (Some b) sol))
            (enumerate (iter_binary_vars mdl)) (Ok sol).

(** [for i in range(self.n_items)] within bin [j], carrying the axes and
    [sum_items]. *)
Fixpoint plot_items (self : BinPacking) (sol : Solution) (j : Z)
  (items : list Z) (ax : Axes) (sum_items : Z) : Axes * Py.result Z :=
  match items with
  | [] => (ax, Ok sum_items)
  | i :: items' =>
      match getitem Var_eqb name sol (x_ i j) with
      | Raise e => (ax, Raise e)
      | Ok xij =>
          if truthy xij then
            match Py.index (weights self) i with
            | Raise e => (ax, Raise e)
            | Ok w =>
                plot_items self sol j items'
                  (ax ++ [Bar j w sum_items ("item " ++ Py.str i) i])
                  (sum_items + w)
            end
          else plot_items self sol j items' ax sum_items
      end
  end.

(** [for j in range(self.n_bins)] *)
Fixpoint plot_bins (self : BinPacking) (sol : Solution) (bins : list Z)
  (ax : Axes) : Axes * Py.result unit :=
  match bins with
  | [] => (ax, Ok tt)
  | j :: bins' =>
      let sum_items := 0 in
      match getitem Var_eqb name sol (y_ j) with
      | Raise e => (ax, Raise e)
      | Ok yj =>
          if truthy yj then
            match plot_items self sol j (Py.range (n_items self)) ax sum_items with
            | (ax, Raise e) => (ax, Raise e)
            | (ax, Ok _) => plot_bins self sol bins' ax
            end
          else plot_bins self sol bins' ax
      end
  end.

(** What follows the bars. *)
Definition decorations (self : BinPacking) : Axes :=
  [HLines (weight_capacity self) (- (1 # 2)) (inject_Z (n_bins self) - (1 # 2))
          "Max Weight";
   XTicks (Py.range (n_bins self));
   XLabel "bin";
   YLabel "weight";
   Legend (1 # 2) ((12 # 10) + (11 # 1000) * inject_Z (n_items self))].

(** The method draws on the axes it is given, or on those of a new
    figure; it returns the figure, a name that is bound only when the
    figure was made here.  The first component is the axes after the
    call. *)
Definition plot_solution (self : BinPacking) (solution : string + Solution)
  (ax : option Axes) : Axes * Py.result Axes :=
  let given := match ax with Some a => a | None => [] end in
  match (match solution with
         | inl text => decode_solution self text
         | inr d => Ok d
         end) with
  | Raise e => (given, Raise e)
  | Ok solution =>
      let '(fig, ax) := match ax with
                        | None => (Some tt, [])
                        | Some a => (None, a)
                        end in
      match plot_bins self solution (Py.range (n_bins self)) ax with
      | (ax, Raise e) => (ax, Raise e)
      | (ax, Ok _) =>
          let ax := ax ++ decorations self in
          match fig with
          | Some _ => (ax, Ok ax)
          | None => (ax, Raise (UnboundLocalError "fig"))
          end
      end
  end.

(** The height the bars at [x] reach together. *)
Fixpoint height_at (x : Z) (ax : Axes) : Z :=
  match ax with
  | [] => 0
  | Bar x' h _ _ _ :: ax' => (if x' =? x then h else 0) + height_at x ax'
  | _ :: ax' => height_at x ax'
  end.

(** Every bar starts where the bars drawn before it at the same place
    end. *)
Definition stacked (ax : Axes) : Prop :=
  forall pre x h b l c post,
    ax = pre ++ Bar x h b l c :: post -> b = height_at x pre.

(** The weight the solution puts into bin [j]. *)
Definition load (self : BinPacking) (sol : Solution) (j : Z) : Z :=
  match Py.get Var_eqb (y_ j) sol with
  | Some yj =>
      if truthy yj then
        Np.sum (map (fun i =>
                       match Py.get Var_eqb (x_ i j) sol with
                       | Some xij => if truthy xij then nth (Z.to_nat i) (weights self) 0 else 0
                       | None => 0
                       end)
                    (Py.range (n_items self)))
      else 0
  | None => 0
  end.

(** *** [normalizing] *)

(** The QUBO problem handed in: its terms, weights and constant. *)
Module QUBO.
Record t : Type := {
  terms : list (list Z);
  weights : list Q;
  constant : Q
}.

(** [problem.terms.append(term)] *)
Definition append_term (problem : t) (term : list Z) : t :=
  {| terms := terms problem ++ [term];
     weights := weights problem;
     constant := constant problem |}.

(** The arguments of the call [QUBO(n, terms, weights)] the method ends
    with. *)
Record call : Type := {
  n : Z;
  call_terms : list (list Z);
  call_weights : list Np.float64
}.
End QUBO.

(** The first component is [problem] after the call: its list of terms
    is the one the method appends to. *)
Definition normalizing (self : BinPacking) (problem : QUBO.t) (normalized : Z)
  : QUBO.t * Py.result QUBO.call :=
  let abs_weights := Np.unique (map Qabs (QUBO.weights problem)) in
  let arg_sort := Np.argsort abs_weights in
  match (k <- Py.index arg_sort normalized ;; Py.index abs_weights k) with
  | Raise e => (problem, Raise e)
  | Ok max_weight =>
      let weights :=
        map (fun weight => Np.divide weight max_weight) (QUBO.weights problem) in
      let problem := QUBO.append_term problem [] in
      let terms := QUBO.terms problem in
      let weights := weights ++ [Np.divide (QUBO.constant problem) max_weight] in
      match n_vars self with
      | None => (problem, Raise (AttributeError "n_vars"))
      | Some n =>
          (problem,
           Ok {| QUBO.n := n; QUBO.call_terms := terms;
                 QUBO.call_weights := weights |})
      end
  end.

(** *** [cost_energy], [optimal_prob] and [landscape_energy] *)

(** The QAOA workflow object the three methods are handed: updating its
    variational parameters and asking its backend may change it and may
    raise. *)
Class Workflow : Type := {
  QAOA : Type;
  Angle : Type;
  (** [qaoa.variate_params.update_from_raw(params)] *)
  update_from_raw : QAOA -> Angle * Angle -> QAOA * Py.result unit;
  (** [qaoa.backend.expectation(qaoa.variate_params)] *)
  expectation : QAOA -> QAOA * Py.result Q;
  (** [qaoa.backend.probability_dict(qaoa.variate_params)] *)
  probability_dict : QAOA -> QAOA * Py.result (Py.dict (K := string) (V := Q))
}.

Section Landscape.
Context {workflow : Workflow}.

Definition cost_energy (params : Angle * Angle) (qaoa : QAOA)
  : QAOA * Py.result Q :=
  match update_from_raw qaoa params with
  | (qaoa, Raise e) => (qaoa, Raise e)
  | (qaoa, Ok _) => expectation qaoa
  end.

Definition optimal_prob (params : Angle * Angle) (qaoa : QAOA) (optimal : string)
  : QAOA * Py.result Q :=
  match update_from_raw qaoa params with
  | (qaoa, Raise e) => (qaoa, Raise e)
  | (qaoa, Ok _) =>
      match probability_dict qaoa with
      | (qaoa, Raise e) => (qaoa, Raise e)
      | (qaoa, Ok probs) =>
          (qaoa, getitem String.eqb (fun s => s) probs optimal)
      end
  end.

(** [for params in itertools.product(betas, gammas)] *)
Fixpoint landscape_loop (todo : list (Angle * Angle)) (qaoa : QAOA)
  (landscape : list Q) : QAOA * Py.result (list Q) :=
  match todo with
  | [] => (qaoa, Ok landscape)
  | params :: todo' =>
      match cost_energy params qaoa with
      | (qaoa, Raise e) => (qaoa, Raise e)
      | (qaoa, Ok energy) => landscape_loop todo' qaoa (landscape ++ [energy])
      end
  end.

Definition landscape_energy (qaoa_mdl : QAOA) (betas gammas : list Angle)
  : QAOA * Py.result (list (list Q)) :=
  let n_betas := Py.len betas in
  let n_gammas := Py.len gammas in
  match landscape_loop (list_prod betas gammas) qaoa_mdl [] with
  | (qaoa, Raise e) => (qaoa, Raise e)
  | (qaoa, Ok landscape) => (qaoa, Np.reshape landscape n_betas n_gammas)
  end.

End Landscape.

End Binpacking.

(** A small concrete setting for the backend: gates are a Pauli label with
    an optional symbolic angle, a decomposition is one rotation per gate,
    and applying a gate appends its instruction. *)
Module BraketExample.
Import Braket.

Definition ex_gate : Type := string * option FreeParameter.

#[export] Instance ex_vendor : Vendor := {|
  GateMap := ex_gate;
  GateTuple := string * string;
  Op := string * string;
  Params := list Z;
  Angle := Z;
  pauli_label_str := fst;
  set_rotation_angle := fun g a => (fst g, Some a);
  decomposition := fun g kind =>
    [(fst g, match snd g with Some a => fp_name a | None => "" end)];
  apply_braket_gate := fun t c => c ++ [Instr t];
  obtain_angles_for_pauli_list := fun gs ps => ps;
  make_bound_circuit := fun c m => c
|}.

Definition ex_backend : QAOAAWSQPUBackend := {|
  abstract_circuit := [("ZZ", None); ("X", None)];
  n_shots := 100;
  prepend_state := None;
  append_state := None;
  init_hadamard := true;
  qubit_layout := [0; 1];
  device := {| s3_bucket_name := "bucket"; folder_name := "folder" |};
  braket_parameter_list := [{| fp_name := "ZZ" |}; {| fp_name := "X" |}];
  parametric_circuit := [H_h 0; H_h 1; Instr ("ZZ", "ZZ"); Instr ("X", "X");
                         Probability_probability];
  measurement_outcomes := None
|}.

Definition ex_counts : Counts := [("00", 60); ("11", 40)].

(** A device on which every task completes. *)
Definition cloud_up : Cloud :=
  {| tasks := []; outcome := fun _ => Completed ex_counts; stdout := [] |}.

(** A device on which no task ever completes. *)
Definition cloud_down : Cloud :=
  {| tasks := []; outcome := fun _ => NoResult; stdout := [] |}.

End BraketExample.

(** A concrete setting for the problem class: a small deterministic
    generator in place of NumPy's, a converter that records its
    arguments, a solver that sets every variable to zero, a QAOA run that
    returns the all-zero bitstring with probability one, and an optimiser
    that evaluates the objective once and returns its starting point. *)
Module BinpackingExample.
Import Docplex Binpacking.

Definition ex_seed (seed : Z) : Py.result Z :=
  if (0 <=? seed) && (seed <? 2 ^ 32) then Ok seed
  else Raise (ValueError "Seed must be between 0 and 2**32 - 1").

Definition ex_randint (rng low high size : Z) : Py.result (list Z) :=
  if size <? 0 then Raise (ValueError "negative dimensions are not allowed")
  else if high <=? low then Raise (ValueError "low >= high")
  else Ok (map (fun k => low + (rng + k) mod (high - low)) (Py.range size)).

Definition ex_ising : Type :=
  Model * option Penalty * option bool * option (list Q).

Definition zeros_string (n : nat) : string :=
  string_of_list_ascii (repeat "0"%char n).

#[export] Instance ex_vendor : Vendor := {|
  RandomState := Z;
  np_random_seed := ex_seed;
  np_random_randint := ex_randint;
  IsingModel := ex_ising;
  FromDocplex2IsingModel := fun m mult unb ineq => Ok (m, mult, unb, ineq);
  solve := fun _ => Some {| get_value := fun _ => 0%Q; is_valid_solution := true |};
  qaoa_lowest_cost_bitstrings := fun ising n =>
    let '(m, _, _, _) := ising in
    Ok {| solutions_bitstrings := [zeros_string (List.length (binary_vars m))];
          probabilities := [1%Q] |};
  scipy_minimize := fun f x0 _ _ _ =>
    match f x0 with
    | Ok _ => Ok x0
    | Raise e => Raise e
    end
|}.

(** The same setting with a solver that finds no solution. *)
Definition unsolved_vendor : Vendor := {|
  RandomState := Z;
  np_random_seed := ex_seed;
  np_random_randint := ex_randint;
  IsingModel := ex_ising;
  FromDocplex2IsingModel := fun m mult unb ineq => Ok (m, mult, unb, ineq);
  solve := fun _ => None;
  qaoa_lowest_cost_bitstrings := fun ising n =>
    let '(m, _, _, _) := ising in
    Ok {| solutions_bitstrings := [zeros_string (List.length (binary_vars m))];
          probabilities := [1%Q] |};
  scipy_minimize := fun f x0 _ _ _ =>
    match f x0 with
    | Ok _ => Ok x0
    | Raise e => Raise e
    end
|}.

Definition args (ws : list Z) (capacity : Z) (bins : option Z) (simp : bool)
  (meth : string) (pen : Penalty) : InitArgs :=
  {| arg_weights := ws; arg_weight_capacity := capacity; arg_penalty := pen;
     arg_n_bins := bins; arg_simplifications := simp; arg_method := meth |}.

(** [BinPacking([2, 3, 4], 5)] *)
Definition three_items : InitArgs := args [2; 3; 4] 5 None true "slack" (PList []).

(** [BinPacking([1, 2], 3, simplifications=False)] *)
Definition two_items_plain : InitArgs := args [1; 2] 3 None false "slack" (PList []).


(** The object a constructor call leaves, or the bare fields when it
    raised. *)
Definition built (a : InitArgs) : BinPacking :=
  match init a with
  | Ok self => self
  | Raise _ => init_fields a
  end.

(** The model of [BinPacking([2, 3, 4], 5)], whatever the penalty and the
    method. *)
Definition three_items_model : Model :=
  match cplex_model (built three_items) with
  | Some m => m
  | None => new_Model "bin_packing"
  end.

(** The pieces of a tuning run on [BinPacking([2, 3, 4], 5)] with two
    random instances: the instances, their classical solutions, and the
    report at the starting point. *)
Definition tuned : BinPacking := built three_items.

Definition tuned_instance (k : Z) : BinPacking :=
  fst (random_instance 3 2 4 5 true k (fresh_instance tuned)).

Definition tuned_solution (k : Z) : string :=
  match classical_solution (tuned_instance k) true with
  | Ok (inl text) => text
  | _ => EmptyString
  end.

Definition tuned_report : PenaltyValue :=
  match get_penalty tuned [1 # 10]%Q
          (Py.tabulate tuned_instance (Py.range 2))
          (Py.tabulate tuned_solution (Py.range 2)) true with
  | Ok r => r
  | Raise _ => Objective 0%Q
  end.

(** The string "0100010" read as a solution of [BinPacking([2, 3, 4], 5)]:
    items 0 and 1 in bin 0, item 2 in bin 1. *)
Definition packed : Solution :=
  match decode_solution (built three_items) "0100010" with
  | Ok s => s
  | Raise _ => []
  end.

(** The axes [plot_solution] leaves for that solution. *)
Definition ex_figure : Axes :=
  fst (plot_solution (built three_items) (inr packed) None).

(** A QUBO problem with two terms, and what [normalizing] makes of it. *)
Definition ex_problem : QUBO.t :=
  {| QUBO.terms := [[0; 1]; [0]];
     QUBO.weights := [2; -4]%Q;
     QUBO.constant := 1%Q |}.

Definition normalized_once : QUBO.t * Py.result QUBO.call :=
  normalizing (built three_items) ex_problem (-1).

Definition ex_call : QUBO.call :=
  match snd normalized_once with
  | Ok c => c
  | Raise _ => {| QUBO.n := 0; QUBO.call_terms := []; QUBO.call_weights := [] |}
  end.

(** A workflow that keeps the parameters it was last given and whose
    energy at [(beta, gamma)] is [beta * gamma]. *)
Definition ex_workflow : Workflow := {|
  QAOA := Q * Q;
  Angle := Q;
  update_from_raw := fun _ params => (params, Ok tt);
  expectation := fun qaoa => (qaoa, Ok (fst qaoa * snd qaoa)%Q);
  probability_dict := fun qaoa => (qaoa, Ok [])
|}.

End BinpackingExample.

(* ================================================================== *)
(** * Part II: properties                                              *)
(* ================================================================== *)

(** ** The AWS Braket backend *)

Module BraketFacts.
Import Braket.

Section Backend.
Context {vendor : Vendor}.

(** One unit of fuel is all the loop ever uses: the first pass either sets
    [job_state] or leaves through [break]. *)
Lemma get_counts_first_task fuel self cloud params :
  get_counts (S fuel) self cloud params =
  match outcome cloud (List.length (tasks cloud)) with
  | Completed c =>
      Some (set_measurement_outcomes self c,
            fst (run cloud (the_task self params)), Ok c)
  | NoResult =>
      Some (self,
            print (fst (run cloud (the_task self params))) resending,
            Raise (UnboundLocalError "counts"))
  end.
Proof.
  unfold get_counts. cbn [while_job_state job_state].
  unfold loop_body, the_task, resending. cbn [run outcome].
  destruct (outcome cloud (List.length (tasks cloud))) as [c|]; cbn.
  - destruct fuel; reflexivity.
  - reflexivity.
Qed.

(** The [ConnectionError] of the retry check is out of reach. *)
Lemma get_counts_no_connection_error fuel self cloud params self' cloud' msg :
  get_counts fuel self cloud params <> Some (self', cloud', Raise (ConnectionError msg)).
Proof.
  destruct fuel as [|fuel].
  - cbn. discriminate.
  - rewrite get_counts_first_task.
    destruct (outcome cloud (List.length (tasks cloud))); discriminate.
Qed.

(** C1 (as the code behaves).  When the first task comes back without a
    result, [get_counts] has submitted that one task only, has printed
    the resend notice, and fails with [UnboundLocalError] on [counts]:
    the [break] in the handler leaves the loop, so nothing is re-sent and
    [ConnectionError] is not raised. *)
Theorem get_counts_breaks_on_first_failure fuel self cloud params :
  outcome cloud (List.length (tasks cloud)) = NoResult ->
  exists cloud',
    get_counts (S fuel) self cloud params
      = Some (self, cloud', Raise (UnboundLocalError "counts"))
    /\ tasks cloud' = tasks cloud ++ [the_task self params]
    /\ stdout cloud' = stdout cloud ++ [resending].
Proof.
  intros Hout. rewrite get_counts_first_task, Hout.
  eexists. split; [reflexivity|]. split; reflexivity.
Qed.

(** C5.  When the task completes, [get_counts] returns its measurement
    counts (bitstring to number of shots) and leaves that same dictionary
    in [self.measurement_outcomes]; exactly one task was submitted. *)
Theorem get_counts_returns_and_stores_counts fuel self cloud params c :
  outcome cloud (List.length (tasks cloud)) = Completed c ->
  exists self' cloud',
    get_counts (S fuel) self cloud params = Some (self', cloud', Ok c)
    /\ measurement_outcomes self' = Some c
    /\ tasks cloud' = tasks cloud ++ [the_task self params].
Proof.
  intros Hout. rewrite get_counts_first_task, Hout.
  do 2 eexists. split; [reflexivity|]. split; reflexivity.
Qed.

Lemma fold_left_snoc {A B} (f : B -> A) (l : list B) (acc : list A) :
  fold_left (fun c b => c ++ [f b]) l acc = acc ++ map f l.
Proof.
  revert acc. induction l as [|b l IH]; intros acc; cbn.
  - now rewrite app_nil_r.
  - rewrite IH, <- app_assoc. reflexivity.
Qed.

Lemma gate_loop gates : forall done params c,
  fold_left gate_step gates (done, params, c) =
  (done ++ map with_param gates,
   params ++ map (fun g => {| fp_name := pauli_label_str g |}) gates,
   apply_all (flat_map (fun g => decomposition (with_param g) "standard") gates) c).
Proof.
  induction gates as [|g gates IH]; intros done params c; cbn.
  - now rewrite !app_nil_r.
  - rewrite IH, <- !app_assoc. cbn.
    unfold apply_all, with_param. now rewrite fold_left_app.
Qed.

(** C6.  The circuit built by [parametric_qaoa_circuit] is, in this order:
    the prepended circuit when there is one; a Hadamard on each qubit of
    [qubit_layout] when [init_hadamard] is set; the standard decomposition
    of every abstract gate, gate after gate, each gate carrying its own
    [FreeParameter] named after its Pauli label; the appended circuit when
    there is one; the [Probability] result type.  The parameters are kept
    in [braket_parameter_list] in gate order, one per gate.  The function
    has no access to the device: no task is submitted, and
    [measurement_outcomes] is untouched. *)
Theorem parametric_qaoa_circuit_order self :
  let gates := abstract_circuit self in
  let prepend := match prepend_state self with Some c => c | None => [] end in
  let hadamards :=
    if init_hadamard self then map H_h (qubit_layout self) else [] in
  let rotations :=
    flat_map (fun g => decomposition (with_param g) "standard") gates in
  let append := match append_state self with Some c => c | None => [] end in
  let '(self', circuit) := parametric_qaoa_circuit self in
  circuit = apply_all rotations (prepend ++ hadamards)
              ++ append ++ [Probability_probability]
  /\ braket_parameter_list self'
     = map (fun g => {| fp_name := pauli_label_str g |}) gates
  /\ List.length (braket_parameter_list self') = List.length gates
  /\ abstract_circuit self' = map with_param gates
  /\ measurement_outcomes self' = measurement_outcomes self.
Proof.
  cbv zeta. unfold parametric_qaoa_circuit.
  cbn [abstract_circuit braket_parameter_list set_braket_parameter_list
       init_hadamard qubit_layout prepend_state append_state].
  rewrite gate_loop. cbn [app].
  cbn [set_braket_parameter_list set_abstract_circuit append_state
       braket_parameter_list abstract_circuit measurement_outcomes].
  rewrite length_map.
  assert (Hstart :
    (if init_hadamard self
     then fold_left (fun c q => c ++ [H_h q]) (qubit_layout self)
            match prepend_state self with Some c => c | None => [] end
     else match prepend_state self with Some c => c | None => [] end)
    = match prepend_state self with Some c => c | None => [] end
      ++ (if init_hadamard self then map H_h (qubit_layout self) else [])).
  { destruct (init_hadamard self).
    - apply fold_left_snoc.
    - now rewrite app_nil_r. }
  rewrite Hstart.
  repeat split.
  destruct (append_state self); cbn.
  - now rewrite <- app_assoc.
  - reflexivity.
Qed.

End Backend.

(** C1, on a device that never completes a task. *)
Lemma get_counts_breaks_on_first_failure_witness :
  exists cloud',
    get_counts 6 BraketExample.ex_backend BraketExample.cloud_down [1; 2]
      = Some (BraketExample.ex_backend, cloud',
              Raise (UnboundLocalError "counts"))
    /\ tasks cloud' = [the_task BraketExample.ex_backend [1; 2]]
    /\ stdout cloud' = [resending].
Proof.
  apply (get_counts_breaks_on_first_failure 5 BraketExample.ex_backend
           BraketExample.cloud_down [1; 2]).
  reflexivity.
Defined.

(** C5, on a device that completes every task. *)
Lemma get_counts_returns_and_stores_counts_witness :
  exists self' cloud',
    get_counts 1 BraketExample.ex_backend BraketExample.cloud_up [1; 2]
      = Some (self', cloud', Ok BraketExample.ex_counts)
    /\ measurement_outcomes self' = Some BraketExample.ex_counts
    /\ tasks cloud' = [the_task BraketExample.ex_backend [1; 2]].
Proof.
  apply (get_counts_returns_and_stores_counts 0 BraketExample.ex_backend
           BraketExample.cloud_up [1; 2] BraketExample.ex_counts).
  reflexivity.
Defined.

(** The example backend's stored circuit is the one the builder produces. *)
Example ex_parametric_circuit :
  snd (parametric_qaoa_circuit BraketExample.ex_backend)
  = parametric_circuit BraketExample.ex_backend.
Proof. reflexivity. Qed.

(** *** Further properties of the backend *)

Section MoreBackend.
Context {vendor : Vendor}.

(** X13.  One call of [get_counts] submits exactly one task, whatever
    comes back: the loop ends after its first turn, with the counts
    (returned and stored) or with [counts] unbound ([self] untouched),
    and in no case with [ConnectionError] or a second submission. *)
Theorem get_counts_submits_once fuel self cloud params :
  exists self' cloud' r,
    get_counts (S fuel) self cloud params = Some (self', cloud', r)
    /\ tasks cloud' = tasks cloud ++ [the_task self params]
    /\ (r = Raise (UnboundLocalError "counts") /\ self' = self
        \/ exists c, r = Ok c /\ self' = set_measurement_outcomes self c).
Proof.
  rewrite get_counts_first_task.
  destruct (outcome cloud (List.length (tasks cloud))) as [c|];
    do 3 eexists; (split; [reflexivity|]); (split; [reflexivity|]).
  - right. exists c. split; reflexivity.
  - left. split; reflexivity.
Qed.

Lemma get_set_same {V} k (v : V) d :
  Py.get String.eqb k (Py.set String.eqb k v d) = Some v.
Proof.
  induction d as [|[k' v'] d IH]; cbn.
  - now rewrite String.eqb_refl.
  - destruct (String.eqb k k') eqn:E; cbn; rewrite E; [reflexivity | exact IH].
Qed.

Lemma get_set_other {V} k k' (v : V) d :
  k <> k' -> Py.get String.eqb k (Py.set String.eqb k' v d) = Py.get String.eqb k d.
Proof.
  intros Hne. induction d as [|[k0 v0] d IH]; cbn.
  - apply String.eqb_neq in Hne. now rewrite Hne.
  - destruct (String.eqb k' k0) eqn:E; cbn.
    + apply String.eqb_eq in E. subst k0.
      apply String.eqb_neq in Hne. now rewrite Hne.
    + destruct (String.eqb k k0); [reflexivity | exact IH].
Qed.

Lemma keys_set {V} k (v : V) d x :
  In x (Py.keys (Py.set String.eqb k v d)) <-> x = k \/ In x (Py.keys d).
Proof.
  induction d as [|[k0 v0] d IH]; cbn.
  - intuition congruence.
  - destruct (String.eqb k k0) eqn:E; cbn.
    + apply String.eqb_eq in E. subst k0. intuition congruence.
    + rewrite IH. intuition congruence.
Qed.

(** A key the remaining pairs do not mention keeps its entry. *)
Lemma get_zip_other {V} k (pairs : list (string * V)) : forall d,
  ~ In k (map fst pairs) ->
  Py.get String.eqb k
    (fold_left (fun d kv => Py.set String.eqb (fst kv) (snd kv) d) pairs d)
  = Py.get String.eqb k d.
Proof.
  induction pairs as [|[k0 v0] pairs IH]; intros d Hk; cbn [fold_left];
    [reflexivity|].
  cbn in Hk. rewrite IH by tauto. apply get_set_other. cbn. intuition congruence.
Qed.

Lemma keys_zip {V} (pairs : list (string * V)) : forall d x,
  In x (Py.keys (fold_left (fun d kv => Py.set String.eqb (fst kv) (snd kv) d)
                           pairs d))
  <-> In x (Py.keys d) \/ In x (map fst pairs).
Proof.
  induction pairs as [|[k0 v0] pairs IH]; intros d x; cbn [fold_left map].
  - cbn. tauto.
  - rewrite IH, keys_set. cbn. intuition congruence.
Qed.

Lemma in_combine_nth {V} (ks : list string) : forall (vs : list V) k,
  In k (map fst (combine ks vs)) ->
  exists n, (n < List.length ks)%nat /\ (n < List.length vs)%nat
            /\ nth n ks EmptyString = k.
Proof.
  induction ks as [|a ks IH]; intros [|v vs] k; cbn; try tauto.
  intros [<-|Hin].
  - exists O. repeat split; lia.
  - destruct (IH vs k Hin) as (n & H1 & H2 & H3).
    exists (S n). repeat split; try lia. exact H3.
Qed.

Lemma map_fst_combine {V} (ks : list string) : forall vs : list V,
  map fst (combine ks vs) = firstn (List.length vs) ks.
Proof.
  induction ks as [|a ks IH]; intros [|v vs]; cbn; try reflexivity.
  now rewrite IH.
Qed.

Lemma dict_zip_last {V} (ks : list string) : forall (vs : list V) d k,
  (k < List.length ks)%nat -> (k < List.length vs)%nat ->
  (forall k', (k < k')%nat -> (k' < List.length ks)%nat ->
              (k' < List.length vs)%nat ->
              nth k' ks EmptyString <> nth k ks EmptyString) ->
  Py.get String.eqb (nth k ks EmptyString)
    (fold_left (fun d kv => Py.set String.eqb (fst kv) (snd kv) d)
               (combine ks vs) d)
  = nth_error vs k.
Proof.
  induction ks as [|a ks IH]; intros [|v vs] d k Hk Hv Hlast;
    cbn [List.length] in *; try lia.
  cbn [combine fold_left fst snd]. destruct k as [|k].
  - cbn [nth nth_error]. rewrite get_zip_other; [apply get_set_same|].
    intros Hin. apply in_combine_nth in Hin as (n & H1 & H2 & H3).
    apply (Hlast (S n)); cbn; try lia. exact H3.
  - cbn [nth nth_error]. apply IH; try lia.
    intros k' H1 H2 H3. apply (Hlast (S k')); lia.
Qed.

(** X14.  What [qaoa_circuit] binds.  The memory map handed to
    [make_bound_circuit] has one entry per name among the first
    [len(angles_list)] parameters, and a name is bound to the angle at
    its last position: with distinct Pauli labels the k-th parameter gets
    the k-th angle, and of two gates that share a label both get the
    angle of the later one. *)
Theorem qaoa_circuit_binds_last self params k :
  let names := map fp_name (braket_parameter_list self) in
  let angles := obtain_angles_for_pauli_list (abstract_circuit self) params in
  (k < List.length names)%nat -> (k < List.length angles)%nat ->
  (forall k', (k < k')%nat -> (k' < List.length names)%nat ->
              (k' < List.length angles)%nat ->
              nth k' names EmptyString <> nth k names EmptyString) ->
  qaoa_circuit self params
  = make_bound_circuit (parametric_circuit self) (dict_zip names angles)
  /\ Py.get String.eqb (nth k names EmptyString) (dict_zip names angles)
     = nth_error angles k
  /\ (forall name, In name (Py.keys (dict_zip names angles))
                   <-> In name (firstn (List.length angles) names)).
Proof.
  intros names angles Hk Hv Hlast. split; [reflexivity|]. split.
  - unfold dict_zip. now apply dict_zip_last.
  - intros name. unfold dict_zip. rewrite keys_zip, map_fst_combine.
    cbn. tauto.
Qed.

End MoreBackend.

Lemma qaoa_circuit_binds_last_witness :
  qaoa_circuit BraketExample.ex_backend [7; 9]
  = make_bound_circuit (parametric_circuit BraketExample.ex_backend)
      (dict_zip ["ZZ"; "X"] [7; 9])
  /\ Py.get String.eqb "ZZ" (dict_zip ["ZZ"; "X"] [7; 9]) = Some 7
  /\ (forall name, In name (Py.keys (dict_zip ["ZZ"; "X"] [7; 9]))
                   <-> In name ["ZZ"; "X"]).
Proof.
  apply (qaoa_circuit_binds_last BraketExample.ex_backend [7; 9] 0).
  - cbn. lia.
  - cbn. lia.
  - intros [|[|k']] H1 H2 H3; cbn in *; try lia. discriminate.
Defined.

(** Two gates with the same label: both parameters are bound to the
    later angle. *)
Example shared_label :
  dict_zip ["ZZ"; "X"; "ZZ"] [7; 9; 11] = [("ZZ", 11); ("X", 9)].
Proof. reflexivity. Qed.

End BraketFacts.

(** ** The bin-packing problem class *)

Module BinpackingFacts.
Import Docplex Binpacking.

(** *** Variable names *)

(** The dictionaries of the class are keyed by the names [y_j] and
    [x_i_j]; the model keys them by the variable itself.  The two agree
    because a variable is determined by its name. *)

Lemma str_inj a b : Py.str a = Py.str b -> a = b.
Proof.
  unfold Py.str. intros H.
  assert (Hnn : forall z, Z.to_int z <> Decimal.Pos Decimal.Nil
                          /\ Z.to_int z <> Decimal.Neg Decimal.Nil).
  { intros [|p|p]; cbn; split; try discriminate;
      intros [= E]; now apply (DecimalPos.Unsigned.to_uint_nonnil p). }
  apply (f_equal NilZero.int_of_string) in H.
  rewrite !NilZero.isi in H by apply Hnn.
  injection H as H. apply (f_equal Z.of_int) in H.
  now rewrite !DecimalZ.of_to in H.
Qed.

Lemma digits_no_underscore d :
  ~ In "_"%char (list_ascii_of_string (NilEmpty.string_of_uint d)).
Proof.
  induction d; cbn; intros H; try (destruct H as [H|H]; [discriminate | tauto]).
  exact H.
Qed.

Lemma str_no_underscore n : ~ In "_"%char (list_ascii_of_string (Py.str n)).
Proof.
  unfold Py.str, NilZero.string_of_int, NilZero.string_of_uint.
  destruct (Z.to_int n) as [d|d].
  - destruct d; try apply digits_no_underscore.
    cbn. intros [H|[]]. discriminate.
  - cbn [list_ascii_of_string]. intros [H|H]; [discriminate|].
    revert H. destruct d; try apply digits_no_underscore.
    cbn. intros [H|[]]. discriminate.
Qed.

Lemma split_at_underscore s : forall s' t t',
  ~ In "_"%char (list_ascii_of_string s) ->
  ~ In "_"%char (list_ascii_of_string s') ->
  (s ++ "_" ++ t)%string = (s' ++ "_" ++ t')%string ->
  s = s' /\ t = t'.
Proof.
  induction s as [|c s IH]; intros [|c' s'] t t' Hs Hs' E; cbn in *.
  - injection E as E. now split.
  - injection E as E1 E2. subst. tauto.
  - injection E as E1 E2. subst. tauto.
  - injection E as E1 E2. subst c'.
    destruct (IH s' t t') as [-> ->]; tauto.
Qed.

Lemma name_inj a b : name a = name b -> a = b.
Proof.
  destruct a as [j|i j], b as [j'|i' j']; cbn; intros E;
    try discriminate; injection E as E.
  - f_equal. now apply str_inj.
  - apply split_at_underscore in E as [Ei Ej]; try apply str_no_underscore.
    f_equal; now apply str_inj.
Qed.

(** The test [y[0] == "y"] of [docplex_model] picks the bin variables. *)
Lemma starts_with_y_spec v :
  starts_with_y v = match v with y_ _ => true | x_ _ _ => false end.
Proof. now destruct v. Qed.

(** *** Division by the capacity *)

Lemma minimum_bins_zero_capacity ws :
  exists e, minimum_bins ws 0 = Raise e.
Proof.
  unfold minimum_bins, Np.true_divide. cbn.
  destruct (Np.sum ws =? 0); cbn; eexists; reflexivity.
Qed.

Lemma Qtruncate_inject (z : Z) :
  (if Qle_bool 0 (inject_Z z) then Qfloor (inject_Z z) else Qceiling (inject_Z z)) = z.
Proof.
  destruct (Qle_bool 0 (inject_Z z)); [apply Qfloor_Z | apply Qceiling_Z].
Qed.

(** With a non-zero capacity the minimum number of bins is the ceiling
    of the quotient. *)
Lemma minimum_bins_nonzero ws capacity :
  capacity <> 0 ->
  minimum_bins ws capacity
  = Ok (Qceiling (inject_Z (Np.sum ws) / inject_Z capacity)).
Proof.
  intros Hc. unfold minimum_bins, Np.true_divide.
  destruct (Z.eqb_spec capacity 0) as [E|_]; [contradiction|].
  cbn. now rewrite Qtruncate_inject.
Qed.

(** C10.  With the simplifications on and a zero [weight_capacity],
    [solution_dict] raises where it divides the total weight by the
    capacity, and the instance is left as it was; hence the constructor,
    which calls [solution_dict] when the weights are not empty, raises
    too and builds no instance. *)
Theorem zero_capacity_fails :
  (forall self,
     simplifications self = true -> weights self <> [] ->
     weight_capacity self = 0 ->
     exists e, solution_dict self = (self, Raise e))
  /\ (forall a,
        arg_simplifications a = true -> arg_weights a <> [] ->
        arg_weight_capacity a = 0 ->
        exists e, init a = Raise e).
Proof.
  split.
  - intros self Hs _ Hc. unfold solution_dict. rewrite Hs, Hc.
    destruct (minimum_bins_zero_capacity (weights self)) as [e He].
    rewrite He. now exists e.
  - intros a Hs Hw Hc. unfold init.
    destruct (arg_weights a) as [|w ws] eqn:Ew; [contradiction|].
    replace (0 <? Py.len (w :: ws)) with true
      by (symmetry; apply Z.ltb_lt; unfold Py.len; cbn [List.length]; lia).
    unfold build, bindM. unfold solution_dict at 1.
    cbn [simplifications weights weight_capacity init_fields].
    rewrite Hs, Hc.
    destruct (minimum_bins_zero_capacity (arg_weights a)) as [e He].
    rewrite He. now exists e.
Qed.

Lemma zero_capacity_fails_witness :
  (exists e, solution_dict (init_fields (BinpackingExample.args [2; 3] 0 None true "slack" (PList [])))
             = (init_fields (BinpackingExample.args [2; 3] 0 None true "slack" (PList [])), Raise e))
  /\ (exists e, init (BinpackingExample.args [2; 3] 0 None true "slack" (PList [])) = Raise e).
Proof.
  split.
  - apply (proj1 zero_capacity_fails); [reflexivity | discriminate | reflexivity].
  - apply (proj2 zero_capacity_fails); [reflexivity | discriminate | reflexivity].
Defined.

(** *** Ranges *)

Lemma in_range2 k a b : In k (Py.range2 a b) <-> a <= k < b.
Proof.
  unfold Py.range2. rewrite in_map_iff. split.
  - intros (n & <- & Hn). apply in_seq in Hn. lia.
  - intros H. exists (Z.to_nat (k - a)). split; [lia|].
    apply in_seq. lia.
Qed.

Lemma in_range k b : In k (Py.range b) <-> 0 <= k < b.
Proof. apply in_range2. Qed.

Lemma NoDup_range2 a b : NoDup (Py.range2 a b).
Proof.
  unfold Py.range2. apply Injective_map_NoDup; [|apply seq_NoDup].
  intros n m H. lia.
Qed.

Lemma NoDup_range b : NoDup (Py.range b).
Proof. apply NoDup_range2. Qed.

(** *** Dictionaries *)

Section DictFacts.
Context {K V : Type} (eqb : K -> K -> bool).
Hypothesis eqb_spec : forall a b, reflect (a = b) (eqb a b).

Lemma set_fresh k (v : V) d :
  ~ In k (Py.keys d) -> Py.set eqb k v d = d ++ [(k, v)].
Proof.
  induction d as [|[k' v'] d IH]; cbn; intros Hk; [reflexivity|].
  destruct (eqb_spec k k') as [->|_]; [tauto|].
  rewrite IH; tauto.
Qed.

Lemma keys_app (d d' : Py.dict (K := K) (V := V)) :
  Py.keys (d ++ d') = Py.keys d ++ Py.keys d'.
Proof. apply map_app. Qed.

(** Storing fresh, distinct keys appends them in order. *)
Lemma fold_set_fresh (v : V) ks : forall d,
  NoDup ks -> (forall k, In k ks -> ~ In k (Py.keys d)) ->
  fold_left (fun d k => Py.set eqb k v d) ks d
  = d ++ Py.tabulate (fun _ => v) ks.
Proof.
  induction ks as [|k ks IH]; intros d Hnd Hfresh; cbn.
  - now rewrite app_nil_r.
  - inversion Hnd as [|? ? Hk Hnd']; subst.
    rewrite set_fresh by (apply Hfresh; now left).
    rewrite IH; [now rewrite <- app_assoc| assumption |].
    intros k' Hk'. rewrite keys_app. cbn. rewrite in_app_iff. cbn.
    intros [H|[->|[]]]; [|tauto].
    apply (Hfresh k'); [now right | assumption].
Qed.

Lemma keys_tabulate (f : K -> V) l : Py.keys (Py.tabulate f l) = l.
Proof.
  unfold Py.keys, Py.tabulate. rewrite map_map. cbn. apply map_id.
Qed.

(** A store to a key of a tabulated dictionary changes the value there
    and nothing else. *)
Lemma set_tabulate k (v : V) f l :
  NoDup l -> In k l ->
  Py.set eqb k v (Py.tabulate f l)
  = Py.tabulate (fun a => if eqb k a then v else f a) l.
Proof.
  induction l as [|a l IH]; intros Hnd Hin; [destruct Hin|].
  inversion Hnd as [|? ? Ha Hnd']; subst. cbn.
  destruct (eqb_spec k a) as [->|Hne].
  - f_equal. apply map_ext_in. intros b Hb.
    destruct (eqb_spec a b) as [->|_]; [contradiction | reflexivity].
  - f_equal. apply IH; [assumption|].
    destruct Hin as [->|Hin]; [contradiction | assumption].
Qed.

Lemma fold_set_tabulate (v : V) l ks : forall f,
  NoDup l -> (forall k, In k ks -> In k l) ->
  fold_left (fun d k => Py.set eqb k v d) ks (Py.tabulate f l)
  = Py.tabulate (fun a => if existsb (fun k => eqb k a) ks then v else f a) l.
Proof.
  induction ks as [|k ks IH]; intros f Hnd Hin; cbn; [reflexivity|].
  rewrite set_tabulate by (try assumption; apply Hin; now left).
  rewrite IH by (try assumption; intros; apply Hin; now right).
  apply map_ext. intros a.
  destruct (eqb k a), (existsb (fun k0 => eqb k0 a) ks); reflexivity.
Qed.

Lemma get_tabulate (f : K -> V) l k :
  Py.get eqb k (Py.tabulate f l) = if existsb (eqb k) l then Some (f k) else None.
Proof.
  induction l as [|a l IH]; cbn; [reflexivity|].
  destruct (eqb_spec k a) as [->|_]; [reflexivity | exact IH].
Qed.

End DictFacts.

Lemma Var_eqb_spec a b : reflect (a = b) (Var_eqb a b).
Proof.
  destruct a as [j|i j], b as [j'|i' j']; cbn; try (constructor; discriminate).
  - destruct (Z.eqb_spec j j'); constructor; congruence.
  - destruct (Z.eqb_spec i i'), (Z.eqb_spec j j'); constructor; congruence.
Qed.

Lemma fold_left_map_keys {A B C} (h : A -> B) (g : C -> B -> C) l : forall c,
  fold_left (fun c a => g c (h a)) l c = fold_left g (map h l) c.
Proof. induction l; intros; cbn; auto. Qed.

Lemma fold_left_flat_map {A B C} (h : A -> list B) (g : C -> B -> C) l : forall c,
  fold_left (fun c a => fold_left g (h a) c) l c = fold_left g (flat_map h l) c.
Proof.
  induction l as [|a l IH]; intros c; cbn; [reflexivity|].
  now rewrite fold_left_app, IH.
Qed.

Lemma fold_left_ext {A C} (g g' : C -> A -> C) :
  (forall c a, g c a = g' c a) ->
  forall l c, fold_left g l c = fold_left g' l c.
Proof.
  intros H l. induction l as [|a l IH]; intros c; cbn; [reflexivity|].
  now rewrite H, IH.
Qed.

Lemma fold_left_filter {A C} (p : A -> bool) (g : C -> A -> C) l : forall c,
  fold_left (fun c a => if p a then g c a else c) l c = fold_left g (filter p l) c.
Proof.
  induction l as [|a l IH]; intros c; cbn; [reflexivity|].
  destruct (p a); cbn; apply IH.
Qed.

(** *** The variables of an instance *)

Lemma in_variables v items bins :
  In v (variables items bins) <->
  match v with
  | y_ j => 0 <= j < bins
  | x_ i j => 0 <= i < items /\ 0 <= j < bins
  end.
Proof.
  unfold variables. rewrite in_app_iff, in_map_iff, in_flat_map. split.
  - intros [(j & <- & Hj)|(i & Hi & Hv)].
    + now apply in_range.
    + apply in_map_iff in Hv as (j & <- & Hj).
      split; now apply in_range.
  - destruct v as [j|i j].
    + intros H. left. exists j. split; [reflexivity | now apply in_range].
    + intros [Hi Hj]. right. exists i. split; [now apply in_range|].
      apply in_map_iff. exists j. split; [reflexivity | now apply in_range].
Qed.

Lemma NoDup_variables items bins : NoDup (variables items bins).
Proof.
  unfold variables. apply NoDup_app.
  - apply Injective_map_NoDup; [|apply NoDup_range]. intros a b H; congruence.
  - generalize (NoDup_range items). generalize (Py.range items) as is_.
    induction is_ as [|i is_ IH]; intros Hnd; cbn; [constructor|].
    inversion Hnd as [|? ? Hi Hnd']; subst.
    apply NoDup_app.
    + apply Injective_map_NoDup; [|apply NoDup_range]. intros a b H; congruence.
    + now apply IH.
    + intros v Hv Hv'. apply in_map_iff in Hv as (j & <- & _).
      apply in_flat_map in Hv' as (i' & Hi' & Hv').
      apply in_map_iff in Hv' as (j' & E & _). congruence.
  - intros v Hv Hv'. apply in_map_iff in Hv as (j & <- & _).
    apply in_flat_map in Hv' as (i' & _ & Hv').
    apply in_map_iff in Hv' as (j' & E & _). discriminate.
Qed.

(** The two comprehension loops of [solution_dict] leave every variable
    at [None], bins first, then items row by row. *)
Lemma initial_solution items bins :
  fold_left (fun d i =>
               fold_left (fun d j => Py.set Var_eqb (x_ i j) None d)
                         (Py.range bins) d)
            (Py.range items)
            (fold_left (fun d i => Py.set Var_eqb (y_ i) (@None Z) d)
                       (Py.range bins) [])
  = Py.tabulate (fun _ => None) (variables items bins).
Proof.
  rewrite (fold_left_map_keys y_ (fun d k => Py.set Var_eqb k None d)).
  rewrite (fold_left_ext _
             (fun d i => fold_left (fun d k => Py.set Var_eqb k None d)
                                   (map (x_ i) (Py.range bins)) d))
    by (intros d i;
        apply (fold_left_map_keys (x_ i) (fun d k => Py.set Var_eqb k None d))).
  rewrite (fold_left_flat_map (fun i => map (x_ i) (Py.range bins))
                              (fun d k => Py.set Var_eqb k None d)).
  rewrite <- fold_left_app.
  rewrite (fold_set_fresh Var_eqb Var_eqb_spec).
  - reflexivity.
  - apply NoDup_variables.
  - intros k _ [].
Qed.

(** *** [solution_dict] *)

Lemma existsb_key_in ks v :
  existsb (fun k => Var_eqb k v) ks = true <-> In v ks.
Proof.
  rewrite existsb_exists. split.
  - intros (k & Hk & E). now destruct (Var_eqb_spec k v) as [<-|].
  - intros H. exists v. split; [assumption|].
    now destruct (Var_eqb_spec v v).
Qed.

Lemma existsb_key_out ks v :
  existsb (fun k => Var_eqb k v) ks = false <-> ~ In v ks.
Proof.
  rewrite <- existsb_key_in. destruct (existsb _ ks); split; congruence.
Qed.

Ltac key_cases :=
  repeat match goal with
  | |- context [existsb (fun k => Var_eqb k ?v) ?ks] =>
      let E := fresh "E" in
      destruct (existsb (fun k => Var_eqb k v) ks) eqn:E;
      [apply existsb_key_in in E | apply existsb_key_out in E]
  end.

Ltac range_facts :=
  repeat match goal with
  | H : In _ (map _ _) |- _ =>
      let j := fresh "j" in let E := fresh "E" in
      apply in_map_iff in H as (j & E & H);
      try subst; try (inversion E; subst); try clear E
  | H : In _ (filter _ _) |- _ => apply filter_In in H as [H ?]
  | H : In _ (Py.range2 _ _) |- _ => apply in_range2 in H
  | H : In _ (Py.range _) |- _ => apply in_range in H
  | H : In _ (variables _ _) |- _ => apply in_variables in H
  | H : (_ <? _) = true |- _ => apply Z.ltb_lt in H
  end.

(** The dictionary [solution_dict] returns under the simplifications,
    for an instance with at least one item and one bin. *)
Lemma solution_dict_simplified self :
  simplifications self = true ->
  weight_capacity self <> 0 ->
  0 < n_items self -> 0 < n_bins self ->
  solution_dict self
  = (set_min_bins (Some (ceil_ratio self)) self,
     Ok (Py.tabulate (simplified_value (ceil_ratio self))
                     (variables (n_items self) (n_bins self)))).
Proof.
  intros Hs Hc Hi Hb. unfold solution_dict. rewrite Hs.
  rewrite minimum_bins_nonzero by assumption. fold (ceil_ratio self).
  cbn [n_bins set_min_bins]. f_equal. f_equal.
  rewrite initial_solution.
  set (mb := ceil_ratio self). set (vars := variables _ _).
  assert (Hnd : NoDup vars) by apply NoDup_variables.
  rewrite (fold_left_filter (fun j => j <? mb)
             (fun d j => Py.set Var_eqb (y_ j) (Some 1) d)).
  rewrite (fold_left_map_keys y_ (fun d k => Py.set Var_eqb k (Some 1) d)).
  rewrite (fold_set_tabulate Var_eqb Var_eqb_spec); [|assumption|].
  2:{ intros k Hk. range_facts. apply in_variables. cbn. lia. }
  rewrite (set_tabulate Var_eqb Var_eqb_spec); [|assumption|].
  2:{ apply in_variables. cbn. lia. }
  rewrite (fold_left_map_keys (x_ 0) (fun d k => Py.set Var_eqb k (Some 0) d)).
  rewrite (fold_set_tabulate Var_eqb Var_eqb_spec); [|assumption|].
  2:{ intros k Hk. range_facts. apply in_variables. cbn. lia. }
  subst vars. apply map_ext_in. intros v Hv. f_equal. range_facts.
  destruct v as [j|i j]; cbn [Var_eqb simplified_value].
  - key_cases; range_facts; try discriminate.
    + destruct (Z.ltb_spec j mb); [reflexivity | lia].
    + destruct (Z.ltb_spec j mb); [|reflexivity].
      exfalso. apply E0. apply in_map_iff. exists j. split; [reflexivity|].
      apply filter_In. split; [apply in_range; lia | now apply Z.ltb_lt].
  - key_cases; range_facts; try discriminate.
    + cbn. destruct (Z.eqb_spec j 0); [lia | reflexivity].
    + destruct (Z.eqb_spec i 0) as [->|Hi0].
      * destruct (Z.eqb_spec j 0) as [->|Hj0]; [reflexivity|].
        exfalso. apply E. apply in_map_iff. exists j. split; [reflexivity|].
        apply in_range2. lia.
      * destruct (Z.eqb_spec 0 i); [lia | reflexivity].
Qed.

(** Without the simplifications every variable is left at [None]. *)
Lemma solution_dict_plain self :
  simplifications self = false ->
  solution_dict self
  = (self, Ok (Py.tabulate (fun _ => None)
                           (variables (n_items self) (n_bins self)))).
Proof.
  intros Hs. unfold solution_dict. rewrite Hs.
  now rewrite initial_solution.
Qed.




(** *** Computations that raise no [ValueError] and keep the built
        attributes *)

Lemma kept_refl self : kept self self.
Proof. repeat split. Qed.

Lemma kept_trans a b c : kept a b -> kept b c -> kept a c.
Proof.
  unfold kept. intros H1 H2.
  repeat match goal with H : _ /\ _ |- _ => destruct H end.
  repeat split; congruence.
Qed.

Lemma quiet_ret {A} (a : A) : quiet (ret a).
Proof. intros self. split; [reflexivity | apply kept_refl]. Qed.

Lemma quiet_gets {A} (f : BinPacking -> A) : quiet (gets f).
Proof. intros self. split; [reflexivity | apply kept_refl]. Qed.

Lemma quiet_attr {A} nm (f : BinPacking -> option A) : quiet (attr nm f).
Proof.
  intros self. unfold attr.
  destruct (f self); (split; [reflexivity | apply kept_refl]).
Qed.

Lemma quiet_lift {A} (r : Py.result A) :
  Py.is_value_error r = false -> quiet (lift r).
Proof. intros H self. split; [exact H | apply kept_refl]. Qed.

Lemma quiet_bind {A B} (m : M A) (k : A -> M B) :
  quiet m -> (forall a, quiet (k a)) -> quiet (bindM m k).
Proof.
  intros Hm Hk self. unfold bindM.
  destruct (Hm self) as [Hv Hkept].
  destruct (m self) as [self' [a|e]]; cbn in *.
  - destruct (Hk a self') as [Hv' Hkept'].
    split; [assumption | eapply kept_trans; eassumption].
  - split; assumption.
Qed.

Lemma quiet_foldM {A B} (body : B -> A -> M B) l :
  (forall b a, quiet (body b a)) -> forall acc, quiet (foldM body l acc).
Proof.
  intros Hb. induction l as [|a l IH]; intros acc; cbn.
  - apply quiet_ret.
  - apply quiet_bind; [apply Hb | exact IH].
Qed.

Lemma quiet_mapM {A B} (f : A -> M B) l :
  (forall a, quiet (f a)) -> quiet (mapM f l).
Proof.
  intros Hf. induction l as [|a l IH]; cbn.
  - apply quiet_ret.
  - apply quiet_bind; [apply Hf|]. intros b.
    apply quiet_bind; [exact IH|]. intros bs. apply quiet_ret.
Qed.

Lemma quiet_set_vars_pos v : quiet (assign (set_vars_pos v)).
Proof. intros self. split; [reflexivity | repeat split]. Qed.

Lemma quiet_set_eq_constraints v : quiet (assign (set_eq_constraints v)).
Proof. intros self. split; [reflexivity | repeat split]. Qed.

Lemma quiet_set_ineq_constraints v : quiet (assign (set_ineq_constraints v)).
Proof. intros self. split; [reflexivity | repeat split]. Qed.

Lemma getitem_no_value_error {K V} eqb show (d : Py.dict (K := K) (V := V)) k :
  Py.is_value_error (getitem eqb show d k) = false.
Proof. unfold getitem. now destruct (Py.get eqb k d). Qed.

Lemma index_no_value_error {A} (l : list A) i :
  Py.is_value_error (Py.index l i) = false.
Proof.
  unfold Py.index.
  destruct ((if i <? 0 then i + Py.len l else i) <? 0); [reflexivity|].
  now destruct (nth_error l _).
Qed.

Lemma coefficient_no_value_error w c :
  Py.is_value_error (coefficient w c) = false.
Proof. unfold coefficient. now destruct (c =? 0). Qed.

Lemma mapM_no_value_error {A B} (f : A -> Py.result B) l :
  (forall a, Py.is_value_error (f a) = false) ->
  Py.is_value_error (Py.mapM f l) = false.
Proof.
  intros Hf. induction l as [|a l IH]; cbn; [reflexivity|].
  specialize (Hf a). destruct (f a) as [b|e]; [|exact Hf].
  destruct (Py.mapM f l) as [bs|e]; [reflexivity | exact IH].
Qed.

Ltac quiet_step :=
  match goal with
  | |- quiet (bindM _ _) => apply quiet_bind; [|intros]
  | |- quiet (ret _) => apply quiet_ret
  | |- quiet (gets _) => apply quiet_gets
  | |- quiet (attr _ _) => apply quiet_attr
  | |- quiet (assign (set_vars_pos _)) => apply quiet_set_vars_pos
  | |- quiet (assign (set_eq_constraints _)) => apply quiet_set_eq_constraints
  | |- quiet (assign (set_ineq_constraints _)) => apply quiet_set_ineq_constraints
  | |- quiet (foldM _ _ _) => apply quiet_foldM; intros
  | |- quiet (mapM _ _) => apply quiet_mapM; intros
  | |- quiet (positions_in_bin _ _) => unfold positions_in_bin
  | |- quiet (declare_variable _ _) => unfold declare_variable
  | |- quiet (record_item _ _ _) => unfold record_item
  | |- quiet (record_bin _ _ _ _) => unfold record_bin
  | |- quiet (lift (getitem _ _ _ _)) => apply quiet_lift, getitem_no_value_error
  | |- quiet (lift (Py.index _ _)) => apply quiet_lift, index_no_value_error
  | |- quiet (lift (coefficient _ _)) => apply quiet_lift, coefficient_no_value_error
  | |- quiet (lift (Py.mapM _ _)) =>
      apply quiet_lift, mapM_no_value_error; intros; apply getitem_no_value_error
  | |- context [match ?p with (_, _) => _ end] => is_var p; destruct p
  | |- quiet (match ?x with _ => _ end) => destruct x
  end.

(** [docplex_model] raises no [ValueError]; it assigns [vars_pos],
    [eq_constraints] and [ineq_constraints] only. *)
Lemma quiet_docplex_model : quiet docplex_model.
Proof. unfold docplex_model. repeat quiet_step. Qed.

(** *** [build]: the three assignments shared by the constructor and
        [random_instance] *)

Lemma solution_dict_kept self : kept self (fst (solution_dict self)).
Proof.
  unfold solution_dict.
  destruct (simplifications self); [|apply kept_refl].
  destruct (minimum_bins (weights self) (weight_capacity self));
    cbn; repeat split.
Qed.

Lemma solution_dict_no_value_error self :
  weight_capacity self <> 0 ->
  Py.is_value_error (snd (solution_dict self)) = false.
Proof.
  intros Hc. unfold solution_dict.
  destruct (simplifications self); [|reflexivity].
  now rewrite minimum_bins_nonzero.
Qed.

Lemma build_spec self :
  match build self with
  | (self', Ok _) =>
      has_attributes self' = true /\ consistent self'
  | (self', Raise e) =>
      cplex_model self' = cplex_model self
      /\ n_vars self' = n_vars self
      /\ (solution self <> None -> solution self' <> None)
      /\ (weight_capacity self <> 0 -> Py.is_value_error (@Raise unit e) = false)
  end.
Proof.
  unfold build, bindM.
  pose proof (solution_dict_kept self) as Hk1.
  pose proof (solution_dict_no_value_error self) as Hv1.
  destruct (solution_dict self) as [s1 [d|e]]; cbn [fst snd] in *.
  2:{ destruct Hk1 as (Hsol & Hm & Hn & _ & Hc & _).
      repeat split; try assumption; congruence. }
  cbn [assign].
  pose proof (quiet_docplex_model (set_solution (Some d) s1)) as [Hv2 Hk2].
  destruct (docplex_model (set_solution (Some d) s1)) as [s3 [m|e]];
    cbn [fst snd] in *.
  - destruct Hk2 as (Hsol & Hm & Hn & _).
    unfold attr. cbn. split.
    + unfold has_attributes. cbn. now rewrite Hsol.
    + intros m' n' Hm' Hn'. cbn in *. congruence.
  - destruct Hk1 as (_ & Hm1 & Hn1 & _).
    destruct Hk2 as (Hsol & Hm & Hn & _). cbn in *.
    split; [congruence|]. split; [congruence|].
    split; [intros _; rewrite Hsol; discriminate | intros _; exact Hv2].
Qed.

Lemma init_spec a self :
  init a = Ok self ->
  (arg_weights a = [] ->
   solution self = None /\ cplex_model self = None /\ n_vars self = None)
  /\ (arg_weights a <> [] -> has_attributes self = true)
  /\ consistent self.
Proof.
  unfold init. destruct (arg_weights a) as [|w ws] eqn:Ew.
  - cbn. intros [= <-]. cbn. repeat split; try congruence.
    intros m n Hm. discriminate.
  - replace (0 <? Py.len (w :: ws)) with true
      by (symmetry; apply Z.ltb_lt; unfold Py.len; cbn [List.length]; lia).
    pose proof (build_spec (init_fields a)) as Hb.
    destruct (build (init_fields a)) as [s [u|e]]; [|discriminate].
    intros [= <-]. destruct Hb as [Hh Hc].
    repeat split; try assumption; try discriminate. now intros _.
Qed.

Section RandomInstance.
Context {vendor : Vendor}.

(** The object after the three assignments that precede the check of
    [random_instance]. *)
Lemma random_instance_unfold n lo hi capacity simp seed rng self :
  np_random_seed seed = Ok rng ->
  random_instance n lo hi capacity simp seed self
  = let started := set_n_bins n (set_n_items n (set_weight_capacity capacity self)) in
    if hi <=? lo then
      (started,
       Raise (ValueError ("min_weight: " ++ Py.str lo
                          ++ " must be < max_weight:" ++ Py.str hi)%string))
    else
      match np_random_randint rng lo hi n with
      | Raise e => (started, Raise e)
      | Ok ws => build (set_simplifications simp (set_weights ws started))
      end.
Proof.
  intros Hseed. unfold random_instance, bindM, lift, assign, raise.
  rewrite Hseed. cbv zeta.
  destruct (hi <=? lo); [reflexivity|].
  destruct (np_random_randint rng lo hi n); reflexivity.
Qed.

Lemma random_instance_seed_refused n lo hi capacity simp seed e self :
  np_random_seed seed = Raise e ->
  random_instance n lo hi capacity simp seed self = (self, Raise e).
Proof.
  intros Hseed. unfold random_instance, bindM, lift. now rewrite Hseed.
Qed.

(** C8 (amended).  NumPy accepting the seed and, when it is asked, the
    draw, and [weight_capacity] not being zero: [random_instance] raises
    [ValueError] if and only if [min_weight >= max_weight]; when it does,
    [weight_capacity], [n_items] and [n_bins] already hold the new
    arguments while [weights], [solution] and [cplex_model] are what they
    were before the call. *)
Theorem random_instance_guard n lo hi capacity simp seed rng self :
  np_random_seed seed = Ok rng ->
  (lo < hi -> Py.is_value_error (np_random_randint rng lo hi n) = false) ->
  capacity <> 0 ->
  let out := random_instance n lo hi capacity simp seed self in
  (Py.is_value_error (snd out) = true <-> lo >= hi)
  /\ (Py.is_value_error (snd out) = true ->
      weight_capacity (fst out) = capacity
      /\ n_items (fst out) = n
      /\ n_bins (fst out) = n
      /\ weights (fst out) = weights self
      /\ solution (fst out) = solution self
      /\ cplex_model (fst out) = cplex_model self).
Proof.
  intros Hseed Hdraw Hc. cbv zeta.
  rewrite (random_instance_unfold _ _ _ _ _ _ _ _ Hseed). cbv zeta.
  destruct (Z.leb_spec hi lo) as [Hle|Hlt].
  - cbn. split; [split; [lia | reflexivity]|]. intros _. repeat split.
  - specialize (Hdraw Hlt).
    destruct (np_random_randint rng lo hi n) as [ws|e].
    + match goal with |- context [build ?s] =>
        pose proof (build_spec s) as Hb; destruct (build s) as [s' [u|e]]
      end.
      * cbn. split; [split; [discriminate | lia]|]. discriminate.
      * destruct Hb as (_ & _ & _ & Hv). specialize (Hv Hc).
        cbn [snd]. rewrite Hv. split; [split; [discriminate | lia]|]. discriminate.
    + cbn in Hdraw |- *. rewrite Hdraw. split; [split; [discriminate | lia]|]. discriminate.
Qed.

(** What one call does to the built attributes, whatever NumPy does. *)
Lemma call_spec a self :
  match call a self with
  | (self', Ok _) => has_attributes self' = true /\ consistent self'
  | (self', Raise _) =>
      cplex_model self' = cplex_model self
      /\ n_vars self' = n_vars self
      /\ (solution self <> None -> solution self' <> None)
  end.
Proof.
  unfold call.
  destruct (np_random_seed (ra_seed a)) as [rng|e] eqn:Hseed.
  - rewrite (random_instance_unfold _ _ _ _ _ _ _ _ Hseed). cbv zeta.
    destruct (ra_max_weight a <=? ra_min_weight a); [now repeat split|].
    destruct (np_random_randint rng _ _ _) as [ws|e]; [|now repeat split].
    match goal with |- context [build ?s] =>
      pose proof (build_spec s) as Hb; destruct (build s) as [s' [u|e]]
    end.
    + exact Hb.
    + destruct Hb as (Hm & Hn & Hs & _). cbn in *. now repeat split.
  - rewrite (random_instance_seed_refused _ _ _ _ _ _ _ _ Hseed).
    now repeat split.
Qed.

Lemma run_calls_spec calls : forall self,
  settled self ->
  settled (fst (run_calls calls self))
  /\ (has_attributes (fst (run_calls calls self)) = true
      <-> has_attributes self = true
          \/ existsb returned (snd (run_calls calls self)) = true).
Proof.
  induction calls as [|a calls IH]; intros self Hs; cbn [run_calls].
  - cbn. split; [assumption|]. split; [now left | intros [H|H]; [assumption | discriminate]].
  - pose proof (call_spec a self) as Hcall.
    destruct (call a self) as [s1 r].
    assert (Hs1 : settled s1 /\ (has_attributes s1 = true
                                 <-> has_attributes self = true \/ returned r = true)).
    { destruct r as [u|e].
      - destruct Hcall as [Hh Hc]. split; [split; [now left | assumption]|].
        split; [now right | intros _; assumption].
      - destruct Hcall as (Hm & Hn & Hsol). destruct Hs as [[Hh|Hnone] Hc].
        + assert (Hh1 : has_attributes s1 = true).
          { unfold has_attributes in *. rewrite Hm, Hn.
            destruct (solution self) eqn:E; [|discriminate].
            destruct (solution s1); [assumption | now elim Hsol]. }
          split; [split; [now left|]|].
          * intros m n. rewrite Hm, Hn. apply Hc.
          * split; [now left | intros _; assumption].
        + assert (Hh1 : has_attributes s1 = false).
          { unfold has_attributes. rewrite Hm, Hnone.
            now destruct (solution s1). }
          assert (Hh0 : has_attributes self = false).
          { unfold has_attributes. rewrite Hnone.
            now destruct (solution self). }
          split; [split; [right; congruence|]|].
          * intros m n. rewrite Hm, Hn. apply Hc.
          * rewrite Hh1, Hh0. cbn. split; [discriminate | intros [H|H]; discriminate]. }
    destruct Hs1 as [Hs1 Hiff].
    specialize (IH s1 Hs1). destruct (run_calls calls s1) as [s2 rs].
    cbn [fst snd existsb] in *. destruct IH as [Hs2 Hiff2].
    split; [assumption|]. rewrite Hiff2, Hiff.
    destruct (returned r); cbn; intuition congruence.
Qed.

(** C9 (amended).  An instance constructed with an empty weights list has
    none of [solution], [cplex_model], [n_vars].  After any sequence of
    [random_instance] calls on a constructed instance, the three
    attributes all exist exactly when the constructor was given a
    non-empty weights list or one of the calls returned without raising;
    and whenever [cplex_model] and [n_vars] exist, [n_vars] is the number
    of binary variables of the model. *)
Theorem attributes_exist_iff_built a self calls :
  init a = Ok self ->
  (arg_weights a = [] ->
   solution self = None /\ cplex_model self = None /\ n_vars self = None)
  /\ (has_attributes (fst (run_calls calls self)) = true
      <-> arg_weights a <> []
          \/ existsb returned (snd (run_calls calls self)) = true)
  /\ (forall m n,
        cplex_model (fst (run_calls calls self)) = Some m ->
        n_vars (fst (run_calls calls self)) = Some n ->
        n = number_of_binary_variables m).
Proof.
  intros Hinit. destruct (init_spec a self Hinit) as (Hempty & Hfull & Hc).
  assert (Hs : settled self).
  { split; [|assumption].
    destruct (arg_weights a) as [|w ws] eqn:Ew.
    - right. now destruct Hempty as (_ & ? & _).
    - left. apply Hfull. discriminate. }
  destruct (run_calls_spec calls self Hs) as [[_ Hc'] Hiff].
  split; [assumption|]. split; [|exact Hc'].
  rewrite Hiff. split.
  - intros [Hh|Hr]; [|now right]. left. intros Ew.
    destruct (Hempty Ew) as (Hsol & _). unfold has_attributes in Hh.
    now rewrite Hsol in Hh.
  - intros [Hw|Hr]; [left; now apply Hfull | now right].
Qed.

End RandomInstance.

(** C8, at [BinPacking().random_instance(min_weight=5, max_weight=5)]:
    the check raises, with the capacity and the counts overwritten. *)
Lemma random_instance_guard_witness :
  (Py.is_value_error
     (snd (random_instance (vendor := BinpackingExample.ex_vendor)
             3 5 5 10 true 1 (init_fields default_args))) = true
   <-> 5 >= 5)
  /\ (Py.is_value_error
        (snd (random_instance (vendor := BinpackingExample.ex_vendor)
                3 5 5 10 true 1 (init_fields default_args))) = true ->
      weight_capacity
        (fst (random_instance (vendor := BinpackingExample.ex_vendor)
                3 5 5 10 true 1 (init_fields default_args))) = 10
      /\ n_items
           (fst (random_instance (vendor := BinpackingExample.ex_vendor)
                   3 5 5 10 true 1 (init_fields default_args))) = 3
      /\ n_bins
           (fst (random_instance (vendor := BinpackingExample.ex_vendor)
                   3 5 5 10 true 1 (init_fields default_args))) = 3
      /\ weights
           (fst (random_instance (vendor := BinpackingExample.ex_vendor)
                   3 5 5 10 true 1 (init_fields default_args)))
         = weights (init_fields default_args)
      /\ solution
           (fst (random_instance (vendor := BinpackingExample.ex_vendor)
                   3 5 5 10 true 1 (init_fields default_args)))
         = solution (init_fields default_args)
      /\ cplex_model
           (fst (random_instance (vendor := BinpackingExample.ex_vendor)
                   3 5 5 10 true 1 (init_fields default_args)))
         = cplex_model (init_fields default_args)).
Proof.
  apply (random_instance_guard (vendor := BinpackingExample.ex_vendor)
           3 5 5 10 true 1 1 (init_fields default_args)).
  - reflexivity.
  - lia.
  - discriminate.
Defined.

(** C8 as stated fails at a zero capacity:
    [BinPacking().random_instance(3, 0, 1, 0)] passes the check
    ([0 < 1]), draws the weights [[0, 0, 0]], and raises [ValueError] all
    the same, from [int(nan)] in [solution_dict]; by then [weights] has
    been overwritten. *)
Lemma random_instance_zero_capacity_counterexample :
  random_instance (vendor := BinpackingExample.ex_vendor)
    3 0 1 0 true 1 (init_fields default_args)
  = (set_simplifications true
       (set_weights [0; 0; 0]
          (set_n_bins 3 (set_n_items 3
             (set_weight_capacity 0 (init_fields default_args))))),
     Raise (ValueError "cannot convert float NaN to integer"))
  /\ ~ (Py.is_value_error
          (snd (random_instance (vendor := BinpackingExample.ex_vendor)
                  3 0 1 0 true 1 (init_fields default_args))) = true
        <-> 0 >= 1).
Proof.
  split; [reflexivity|].
  intros [H _]. assert (0 >= 1) by (apply H; reflexivity). lia.
Qed.

(** C9, at [BinPacking()] followed by one [random_instance()]. *)
Lemma attributes_exist_iff_built_witness :
  (arg_weights default_args = [] ->
   solution (init_fields default_args) = None
   /\ cplex_model (init_fields default_args) = None
   /\ n_vars (init_fields default_args) = None)
  /\ (has_attributes
        (fst (run_calls (vendor := BinpackingExample.ex_vendor)
                [default_random] (init_fields default_args))) = true
      <-> arg_weights default_args <> []
          \/ existsb returned
               (snd (run_calls (vendor := BinpackingExample.ex_vendor)
                       [default_random] (init_fields default_args))) = true)
  /\ (forall m n,
        cplex_model
          (fst (run_calls (vendor := BinpackingExample.ex_vendor)
                  [default_random] (init_fields default_args))) = Some m ->
        n_vars
          (fst (run_calls (vendor := BinpackingExample.ex_vendor)
                  [default_random] (init_fields default_args))) = Some n ->
        n = number_of_binary_variables m).
Proof.
  apply (attributes_exist_iff_built (vendor := BinpackingExample.ex_vendor)
           default_args (init_fields default_args) [default_random]).
  reflexivity.
Defined.

(** The call of the witness does return, and builds a model of eight
    binary variables. *)
Example default_random_returns :
  snd (run_calls (vendor := BinpackingExample.ex_vendor)
         [default_random] (init_fields default_args)) = [Ok tt]
  /\ n_vars (fst (run_calls (vendor := BinpackingExample.ex_vendor)
                    [default_random] (init_fields default_args))) = Some 8.
Proof. split; reflexivity. Qed.

(** C9 as stated fails when the call raises: on [BinPacking()],
    [random_instance(min_weight=5, max_weight=5)] has been called, it
    raised [ValueError], and the instance still has no [solution], no
    [cplex_model] and no [n_vars]. *)
Lemma called_but_not_built_counterexample :
  init default_args = Ok (init_fields default_args)
  /\ (exists msg,
        snd (run_calls (vendor := BinpackingExample.ex_vendor)
               [{| ra_n_items := 3; ra_min_weight := 5; ra_max_weight := 5;
                   ra_weight_capacity := 10; ra_simplification := true;
                   ra_seed := 1 |}]
               (init_fields default_args)) = [Raise (ValueError msg)])
  /\ ~ (has_attributes
          (fst (run_calls (vendor := BinpackingExample.ex_vendor)
                  [{| ra_n_items := 3; ra_min_weight := 5; ra_max_weight := 5;
                      ra_weight_capacity := 10; ra_simplification := true;
                      ra_seed := 1 |}]
                  (init_fields default_args))) = true
        <-> arg_weights default_args <> []
            \/ [{| ra_n_items := 3; ra_min_weight := 5; ra_max_weight := 5;
                   ra_weight_capacity := 10; ra_simplification := true;
                   ra_seed := 1 |}] <> []).
Proof.
  split; [reflexivity|]. split; [eexists; reflexivity|].
  intros [_ H]. assert (Hh : false = true) by (apply H; right; discriminate).
  discriminate.
Qed.

(** *** [get_qubo_problem] *)

Section Qubo.
Context {vendor : Vendor}.


(** A method that is neither of the two leaves [qubo] unbound. *)
Lemma get_qubo_problem_other_method self ps :
  penalty self = PList ps ->
  method self <> "slack" -> method self <> "unbalanced" ->
  get_qubo_problem self = Raise (UnboundLocalError "qubo").
Proof.
  intros Hp H1 H2. unfold get_qubo_problem. rewrite Hp. cbn.
  destruct (String.eqb_spec (method self) "slack"); [contradiction|].
  destruct (String.eqb_spec (method self) "unbalanced"); [contradiction|].
  now destruct (0 <? Py.len ps).
Qed.

(** A penalty given as a single float has no length. *)
Lemma get_qubo_problem_float_penalty self p :
  penalty self = PFloat p ->
  get_qubo_problem self
  = Raise (TypeError "object of type 'float' has no len()").
Proof. intros Hp. unfold get_qubo_problem. now rewrite Hp. Qed.

End Qubo.



(** *** [constraints_not_fulfilled] *)

(** Without the simplifications an inequality constraint cannot be
    checked against a string: the right-hand side is looked up with the
    list [constraint[1]] instead of its element. *)
Lemma check_ineq_plain self n sol ii constraint :
  simplifications self = false -> 0 <= n ->
  check_ineq self n sol ii constraint
  = Raise (TypeError "string indices must be integers").
Proof.
  intros Hs Hn. unfold check_ineq, Np.zeros.
  destruct (Z.ltb_spec n 0); [lia|]. cbn. now rewrite Hs.
Qed.

Lemma range_cons n : Py.range (Z.of_nat (S n)) = 0 :: Py.range2 1 (Z.of_nat (S n)).
Proof.
  unfold Py.range, Py.range2.
  replace (Z.to_nat (Z.of_nat (S n) - 0)) with (S n) by lia.
  replace (Z.to_nat (Z.of_nat (S n) - 1)) with n by lia.
  cbn [seq map]. f_equal.
  rewrite <- seq_shift, map_map. apply map_ext. intros k. lia.
Qed.

(** So, on any instance built without the simplifications that has a
    recorded inequality constraint, [constraints_not_fulfilled] returns
    no count. *)
Lemma constraints_not_fulfilled_plain self sol n :
  simplifications self = false ->
  n_vars self = Some n -> 0 <= n ->
  ineq_constraints self <> [] ->
  exists e, constraints_not_fulfilled self sol = Raise e.
Proof.
  intros Hs Hn Hpos Hne. unfold constraints_not_fulfilled. rewrite Hn.
  destruct (count_violations _ (Py.values (eq_constraints self)) 0) as [c|e];
    [|now exists e].
  cbn [Py.bind].
  destruct (ineq_constraints self) as [|[k c0] rest]; [contradiction|].
  unfold Py.values, Py.len. cbn [map List.length].
  rewrite range_cons. cbn [combine count_violations].
  rewrite check_ineq_plain by assumption. cbn. eexists. reflexivity.
Qed.

(** *** What one recorded constraint checks *)

Lemma length_update {A} (l : list A) k a :
  List.length (Np.update l k a) = List.length l.
Proof.
  revert k. induction l as [|b l IH]; intros [|k]; cbn; auto.
Qed.

Lemma nth_update_other {A} (l : list A) k p a d :
  k <> p -> nth p (Np.update l k a) d = nth p l d.
Proof.
  revert k p. induction l as [|b l IH]; intros [|k] [|p] H; cbn; auto.
  - congruence.
Qed.

Lemma dot_update vec : forall k a bs,
  (k < List.length vec)%nat -> List.length bs = List.length vec ->
  Np.sum (map (fun ab => fst ab * snd ab) (combine (Np.update vec k a) bs))
  = Np.sum (map (fun ab => fst ab * snd ab) (combine vec bs))
    + (a - nth k vec 0) * nth k bs 0.
Proof.
  unfold Np.sum.
  induction vec as [|v vec IH]; intros k a bs Hk Hlen; cbn in Hk; [lia|].
  destruct bs as [|b bs]; [discriminate|]. cbn in Hlen.
  destruct k as [|k]; cbn.
  - ring.
  - rewrite IH by lia. ring.
Qed.

(** Writing distinct positions of a vector that is zero there adds the
    written values, each times the bit at its position. *)
Lemma dot_fold_update bs pairs : forall vec,
  List.length bs = List.length vec ->
  NoDup (map fst pairs) ->
  (forall k, In k (map fst pairs) ->
             (k < List.length vec)%nat /\ nth k vec 0 = 0) ->
  Np.sum (map (fun ab => fst ab * snd ab)
              (combine (fold_left (fun v pa => Np.update v (fst pa) (snd pa))
                                  pairs vec) bs))
  = Np.sum (map (fun ab => fst ab * snd ab) (combine vec bs))
    + Np.sum (map (fun pa => snd pa * nth (fst pa) bs 0) pairs).
Proof.
  induction pairs as [|[k a] pairs IH]; intros vec Hlen Hnd Hzero;
    cbn [fold_left map fst snd].
  - change (Np.sum []) with 0. lia.
  - cbn in Hnd. inversion Hnd as [|? ? Hk Hnd']; subst.
    destruct (Hzero k (or_introl eq_refl)) as [Hlt Hz].
    rewrite IH.
    + rewrite dot_update by (try assumption; lia). rewrite Hz.
      unfold Np.sum. cbn [fold_right]. ring.
    + now rewrite length_update.
    + assumption.
    + intros p Hp. destruct (Hzero p (or_intror Hp)) as [Hlt' Hz'].
      rewrite length_update. split; [assumption|].
      rewrite nth_update_other; [assumption|]. intros ->. contradiction.
Qed.

Lemma dot_zeros n bs :
  Np.sum (map (fun ab => fst ab * snd ab) (combine (repeat 0 n) bs)) = 0.
Proof.
  revert bs. induction n as [|n IH]; intros [|b bs]; cbn; auto.
Qed.

Lemma nth_repeat_zero n k : nth k (repeat 0 n) 0 = 0.
Proof. revert k. induction n; intros [|k]; cbn; auto. Qed.

Lemma int_array_bits bits :
  int_array (bits_string bits) = Ok (map Z.b2z bits).
Proof.
  unfold int_array, bits_string. rewrite list_ascii_of_string_of_list_ascii.
  induction bits as [|b bits IH]; cbn; [reflexivity|].
  cbn in IH. rewrite IH. now destruct b.
Qed.

Lemma positions_in_range n ps :
  (forall p, In p ps -> 0 <= p < Z.of_nat n) ->
  Py.mapM (Np.position n) ps = Ok (map Z.to_nat ps).
Proof.
  induction ps as [|p ps IH]; intros Hin; cbn; [reflexivity|].
  assert (Hp : 0 <= p < Z.of_nat n) by (apply Hin; now left).
  unfold Np.position at 1.
  destruct (Z.ltb_spec p 0); [lia|].
  destruct (Z.ltb_spec p 0); [lia|].
  destruct (Z.leb_spec (Z.of_nat n) p); [lia|]. cbn.
  rewrite IH; [reflexivity|]. intros q Hq. apply Hin. now right.
Qed.

Lemma NoDup_to_nat ps :
  NoDup ps -> (forall p, In p ps -> 0 <= p) -> NoDup (map Z.to_nat ps).
Proof.
  intros Hnd Hpos. apply Injective_map_NoDup_in; [|assumption].
  intros a b Ha Hb E. apply Hpos in Ha, Hb. lia.
Qed.

(** The sum [np.sum(vec * bits)] after writing the values [ws] at the
    positions [ps] of a zero vector. *)
Lemma written_sum n ps ws bits :
  List.length bits = n ->
  well_placed (Z.of_nat n) ps ->
  List.length ws = List.length ps ->
  Np.sum (map (fun ab => fst ab * snd ab)
              (combine (fold_left (fun v pa => Np.update v (fst pa) (snd pa))
                                  (combine (map Z.to_nat ps) ws) (repeat 0 n))
                       (map Z.b2z bits)))
  = weighted_sum ps ws bits.
Proof.
  intros Hlen [Hnd Hin] Hws.
  assert (Hfst : map fst (combine (map Z.to_nat ps) ws) = map Z.to_nat ps).
  { clear Hnd Hin. revert ws Hws. induction ps as [|p ps IH]; intros [|w ws] H;
      cbn in *; try discriminate; [reflexivity|]. f_equal. apply IH. lia. }
  rewrite dot_fold_update.
  - rewrite dot_zeros. unfold weighted_sum, bit_at. cbn [Z.add].
    f_equal. clear Hfst Hnd Hin. revert ws Hws.
    induction ps as [|p ps IH]; intros [|w ws] H; cbn in *;
      try discriminate; [reflexivity|].
    f_equal. apply IH. lia.
  - now rewrite length_map, repeat_length.
  - rewrite Hfst. apply NoDup_to_nat; [assumption|]. intros p Hp.
    apply Hin in Hp. lia.
  - rewrite Hfst. intros k Hk. apply in_map_iff in Hk as (p & <- & Hp).
    apply Hin in Hp. rewrite repeat_length. split; [lia|].
    apply nth_repeat_zero.
Qed.

(** An equality constraint with well-placed positions is counted as
    violated exactly when the bits at its positions do not add up to its
    right-hand side. *)
Lemma check_eq_counts bits ps r :
  well_placed (Py.len bits) ps ->
  check_eq (Py.len bits) (bits_string bits)
           {| c_positions := ps; c_rhs := [r] |}
  = Ok (if assigned ps bits =? r then 0 else 1).
Proof.
  intros Hwp. pose proof Hwp as [Hnd Hin].
  unfold check_eq, Np.zeros, Py.len in *.
  destruct (Z.ltb_spec (Z.of_nat (List.length bits)) 0); [lia|].
  cbn [Py.bind c_positions c_rhs]. rewrite Nat2Z.id.
  unfold Np.setitem_scalar. rewrite repeat_length.
  rewrite positions_in_range by assumption. cbn [Py.bind].
  rewrite int_array_bits. cbn [Py.bind].
  unfold Np.multiply.
  rewrite (fold_left_map_keys (fun p => (p, 1))
             (fun v pa => Np.update v (fst pa) (snd pa))).
  assert (Hl : List.length
                 (fold_left (fun v pa => Np.update v (fst pa) (snd pa))
                            (map (fun p => (p, 1)) (map Z.to_nat ps))
                            (repeat 0 (List.length bits)))
               = List.length (map Z.b2z bits)).
  { rewrite length_map. generalize (map (fun p => (p, 1)) (map Z.to_nat ps)).
    intros l. rewrite <- (repeat_length 0 (List.length bits)) at 2.
    generalize (repeat 0 (List.length bits)). induction l as [|pa l IH];
      intros v; cbn; [reflexivity|]. now rewrite IH, length_update. }
  rewrite Hl, Nat.eqb_refl. cbn [Py.bind].
  replace (map (fun p => (p, 1)) (map Z.to_nat ps))
    with (combine (map Z.to_nat ps) (repeat 1 (List.length ps))).
  2:{ clear. induction ps as [|p ps IH]; cbn; [reflexivity | now rewrite IH]. }
  rewrite (written_sum (List.length bits)); try assumption; try reflexivity.
  2:{ now rewrite repeat_length. }
  cbn. replace (weighted_sum ps (repeat 1 (List.length ps)) bits)
    with (assigned ps bits); [reflexivity|].
  unfold weighted_sum, assigned, Np.sum. clear.
  induction ps as [|p ps IH];
    cbn [List.length repeat combine map fold_right fst snd]; [reflexivity|].
  rewrite IH. now rewrite Z.mul_1_l.
Qed.


Lemma int_at_bit bits r :
  0 <= r < Py.len bits ->
  int_at (bits_string bits) (SInt r) = Ok (bit_at bits r).
Proof.
  unfold Py.len. intros Hr. unfold int_at, bits_string, Py.index.
  rewrite list_ascii_of_string_of_list_ascii.
  destruct (Z.ltb_spec r 0); [lia|]. destruct (Z.ltb_spec r 0); [lia|].
  unfold bit_at.
  assert (Hlt : (Z.to_nat r < List.length bits)%nat) by lia.
  revert Hlt. generalize (Z.to_nat r). clear. intros k.
  revert k. induction bits as [|b bits IH]; intros [|k] Hk; cbn in *; try lia.
  - now destruct b.
  - apply IH. lia.
Qed.

Lemma length_fold_update (pairs : list (nat * Z)) : forall v,
  List.length (fold_left (fun v pa => Np.update v (fst pa) (snd pa)) pairs v)
  = List.length v.
Proof.
  induction pairs as [|pa pairs IH]; intros v; cbn; [reflexivity|].
  now rewrite IH, length_update.
Qed.

(** An inequality constraint with well-placed positions, read under the
    simplifications, is counted as violated exactly when the weights of
    the items at its positions add up to more than its right-hand side:
    the recorded number for a bin below [min_bins], the capacity times
    the bit of the bin's own variable otherwise. *)
Lemma check_ineq_counts self bits ii ps r mb :
  simplifications self = true ->
  min_bins self = Some mb ->
  well_placed (Py.len bits) ps ->
  List.length ps = List.length (tl (weights self)) ->
  (mb <= ii -> 0 <= r < Py.len bits) ->
  check_ineq self (Py.len bits) (bits_string bits) ii
             {| c_positions := ps; c_rhs := [r] |}
  = Ok (if (if ii <? mb then r else weight_capacity self * bit_at bits r)
           <? weighted_sum ps (tl (weights self)) bits
        then 1 else 0).
Proof.
  intros Hs Hmb Hwp Hlen Hr. pose proof Hwp as [Hnd Hin].
  unfold check_ineq, Np.zeros.
  destruct (Z.ltb_spec (Py.len bits) 0); [unfold Py.len in *; lia|].
  cbn [Py.bind c_positions c_rhs]. rewrite Hs, Hmb.
  assert (Hrhs :
    (if ii <? mb
     then r0 <- Py.index [r] 0 ;; Ok (tl (weights self), r0)
     else k <- Py.index [r] 0 ;;
          b <- int_at (bits_string bits) (SInt k) ;;
          Ok (tl (weights self), weight_capacity self * b))
    = Ok (tl (weights self),
          if ii <? mb then r else weight_capacity self * bit_at bits r)).
  { destruct (Z.ltb_spec ii mb); [reflexivity|].
    change (Py.index [r] 0) with (Ok r). cbn [Py.bind].
    rewrite int_at_bit by auto. reflexivity. }
  rewrite Hrhs. cbn [Py.bind].
  unfold Np.setitem, Py.len. rewrite Nat2Z.id, repeat_length.
  unfold Py.len in Hin. rewrite positions_in_range by assumption.
  cbn [Py.bind]. rewrite length_map, <- Hlen, Nat.eqb_refl.
  rewrite int_array_bits. cbn [Py.bind].
  unfold Np.multiply.
  rewrite length_fold_update, repeat_length, length_map, Nat.eqb_refl.
  cbn [Py.bind].
  rewrite (written_sum (List.length bits));
    [reflexivity | reflexivity | exact Hwp | now symmetry].
Qed.


Lemma count_violations_sum {A} (f : A -> Py.result Z) (g : A -> Z) l :
  (forall a, In a l -> f a = Ok (g a)) ->
  forall check, count_violations f l check = Ok (check + Np.sum (map g l)).
Proof.
  unfold Np.sum. induction l as [|a l IH]; intros Hf check; cbn.
  - f_equal. lia.
  - rewrite Hf by now left. cbn [Py.bind].
    rewrite IH by (intros; apply Hf; now right). f_equal. lia.
Qed.

(** Under the simplifications, on an instance whose recorded constraints
    have the shape [docplex_model] gives them, [constraints_not_fulfilled]
    returns the number of recorded constraints the bitstring violates. *)
Lemma constraints_not_fulfilled_counts self mb bits :
  simplifications self = true ->
  min_bins self = Some mb ->
  n_vars self = Some (Py.len bits) ->
  (forall c, In c (Py.values (eq_constraints self)) ->
             recorded_eq (Py.len bits) c) ->
  (forall iic, In iic (enumerate (Py.values (ineq_constraints self))) ->
               recorded_ineq self mb (Py.len bits) iic) ->
  constraints_not_fulfilled self (bits_string bits)
  = Ok (violations self mb bits).
Proof.
  intros Hs Hmb Hn Heq Hineq. unfold constraints_not_fulfilled. rewrite Hn.
  rewrite (count_violations_sum _ (eq_violated bits)).
  2:{ intros [ps rhs] Hc. destruct (Heq _ Hc) as [Hwp [r Hr]]. cbn in *.
      subst rhs. now rewrite check_eq_counts. }
  cbn [Py.bind]. fold (enumerate (Py.values (ineq_constraints self))).
  rewrite (count_violations_sum _ (ineq_violated self mb bits)).
  - reflexivity.
  - intros [ii [ps rhs]] Hc.
    destruct (Hineq _ Hc) as (Hwp & Hlen & r & Hr & Hrange). cbn in *.
    subst rhs. now rewrite (check_ineq_counts self bits ii ps r mb).
Qed.

(** [BinPacking([2, 3, 4], 5)] records constraints of that shape, so on
    each of its 128 bitstrings the method returns the number of violated
    constraints. *)
Example three_items_counts bits :
  List.length bits = 7%nat ->
  constraints_not_fulfilled
    (BinpackingExample.built BinpackingExample.three_items) (bits_string bits)
  = Ok (violations (BinpackingExample.built BinpackingExample.three_items) 2 bits).
Proof.
  intros Hlen. apply constraints_not_fulfilled_counts.
  - reflexivity.
  - reflexivity.
  - unfold Py.len. now rewrite Hlen.
  - unfold Py.len. rewrite Hlen. intros c Hc. vm_compute in Hc.
    destruct Hc as [<-|[<-|[]]]; (split; [split|eexists; reflexivity]);
      cbn; try (intros p Hp; intuition lia);
      repeat constructor; cbn; intuition discriminate.
  - unfold Py.len. rewrite Hlen. intros iic Hc. vm_compute in Hc.
    destruct Hc as [<-|[<-|[<-|[]]]];
      (split; [split|split; [reflexivity|eexists; split; [reflexivity|cbn; lia]]]);
      cbn; try (intros p Hp; intuition lia);
      repeat constructor; cbn; intuition discriminate.
Qed.


(** *** The positions of the model's variables *)

Lemma fold_set_pairs {K V} (eqb : K -> K -> bool)
  (eqb_spec : forall a b, reflect (a = b) (eqb a b)) (pairs : list (V * K)) :
  forall d,
    NoDup (map snd pairs) ->
    (forall k, In k (map snd pairs) -> ~ In k (Py.keys d)) ->
    fold_left (fun d nv => Py.set eqb (snd nv) (fst nv) d) pairs d
    = d ++ map (fun nv => (snd nv, fst nv)) pairs.
Proof.
  induction pairs as [|[n k] pairs IH]; intros d Hnd Hfresh; cbn.
  - now rewrite app_nil_r.
  - cbn in Hnd. inversion Hnd as [|? ? Hk Hnd']; subst.
    rewrite (set_fresh eqb eqb_spec) by (apply Hfresh; now left).
    rewrite IH; [now rewrite <- app_assoc | assumption |].
    intros k' Hk'. rewrite keys_app, in_app_iff. cbn.
    intros [H|[->|[]]]; [|contradiction].
    apply (Hfresh k'); [now right | assumption].
Qed.

Lemma length_range n : List.length (Py.range (Z.of_nat n)) = n.
Proof.
  unfold Py.range, Py.range2. rewrite length_map, length_seq. lia.
Qed.

Lemma map_snd_combine {A B} (l : list A) (l' : list B) :
  List.length l = List.length l' -> map snd (combine l l') = l'.
Proof.
  revert l'. induction l as [|a l IH]; intros [|b l'] H; cbn in *;
    try discriminate; [reflexivity|]. f_equal. apply IH. lia.
Qed.

Lemma enumerate_positions_eq l :
  NoDup l ->
  enumerate_positions l
  = map (fun nv => (snd nv, fst nv)) (combine (Py.range (Py.len l)) l).
Proof.
  intros Hnd. unfold enumerate_positions.
  rewrite (fold_set_pairs Var_eqb Var_eqb_spec); [reflexivity | |].
  - unfold Py.len. rewrite map_snd_combine; [assumption|]. apply length_range.
  - intros k _ [].
Qed.

Lemma get_enumerated v l : forall start,
  In v l ->
  exists k,
    Py.get Var_eqb v
      (map (fun nv => (snd nv, fst nv))
           (combine (map (fun k => 0 + Z.of_nat k) (seq start (List.length l))) l))
    = Some (Z.of_nat (start + k))
    /\ (k < List.length l)%nat /\ nth_error l k = Some v.
Proof.
  induction l as [|a l IH]; intros start Hin; [destruct Hin|].
  cbn [List.length seq map combine Py.get fst snd].
  destruct (Var_eqb_spec v a) as [->|Hne].
  - exists 0%nat. repeat split; [f_equal; lia | lia].
  - destruct Hin as [->|Hin]; [contradiction|].
    destruct (IH (S start) Hin) as (k & Hget & Hk & Hnth).
    exists (S k). rewrite Hget. repeat split; [f_equal; lia | lia | assumption].
Qed.

(** A variable of the model has a position within the bitstring, and
    [vars_pos] finds it. *)
Lemma position_of_spec l v :
  NoDup l -> In v l ->
  Py.get Var_eqb v (enumerate_positions l) = Some (position_of l v)
  /\ 0 <= position_of l v < Py.len l
  /\ nth_error l (Z.to_nat (position_of l v)) = Some v.
Proof.
  intros Hnd Hin. unfold position_of.
  rewrite enumerate_positions_eq by assumption.
  unfold Py.range, Py.range2, Py.len.
  replace (Z.to_nat (Z.of_nat (List.length l) - 0)) with (List.length l) by lia.
  destruct (get_enumerated v l 0 Hin) as (k & -> & Hk & Hnth).
  cbn [Nat.add]. rewrite Nat2Z.id. repeat split; try lia. assumption.
Qed.


Lemma getitem_position l v :
  NoDup l -> In v l ->
  getitem Var_eqb name (enumerate_positions l) v = Ok (position_of l v).
Proof.
  intros Hnd Hin. unfold getitem.
  now destruct (position_of_spec l v Hnd Hin) as (-> & _).
Qed.


(** *** Running [docplex_model] under the simplifications *)

Lemma bind_gets {A B} (f : BinPacking -> A) (k : A -> M B) s :
  bindM (gets f) k s = k (f s) s.
Proof. reflexivity. Qed.

Lemma bind_attr {A B} nm (f : BinPacking -> option A) (k : A -> M B) s a :
  f s = Some a -> bindM (attr nm f) k s = k a s.
Proof. intros H. unfold bindM, attr. now rewrite H. Qed.

Lemma bind_lift {A B} (r : Py.result A) (k : A -> M B) s a :
  r = Ok a -> bindM (lift r) k s = k a s.
Proof. intros ->. reflexivity. Qed.

Lemma bind_assign {B} upd (k : unit -> M B) s :
  bindM (assign upd) k s = k tt (upd s).
Proof. reflexivity. Qed.

Lemma bind_ok {A B} (m : M A) (k : A -> M B) s s' a :
  m s = (s', Ok a) -> bindM m k s = k a s'.
Proof. intros H. unfold bindM. now rewrite H. Qed.

Lemma mapM_state {A B} (f : A -> M B) (g : A -> B) l s :
  (forall a, In a l -> f a s = (s, Ok (g a))) ->
  mapM f l s = (s, Ok (map g l)).
Proof.
  induction l as [|a l IH]; intros Hf; cbn [mapM map]; [reflexivity|].
  rewrite (bind_ok _ _ _ _ _ (Hf a (or_introl eq_refl))).
  rewrite (bind_ok _ _ _ _ _ (IH (fun b Hb => Hf b (or_intror Hb)))).
  reflexivity.
Qed.

Lemma mapM_state_ex {A B} (f : A -> M B) l s :
  (forall a, In a l -> exists b, f a s = (s, Ok b)) ->
  exists bs, mapM f l s = (s, Ok bs).
Proof.
  induction l as [|a l IH]; intros Hf; cbn [mapM]; [now exists []|].
  destruct (Hf a (or_introl eq_refl)) as [b Hb].
  destruct (IH (fun c Hc => Hf c (or_intror Hc))) as [bs Hbs].
  exists (b :: bs). rewrite (bind_ok _ _ _ _ _ Hb), (bind_ok _ _ _ _ _ Hbs).
  reflexivity.
Qed.

Lemma Py_mapM_ok {A B} (f : A -> Py.result B) (g : A -> B) l :
  (forall a, In a l -> f a = Ok (g a)) -> Py.mapM f l = Ok (map g l).
Proof.
  induction l as [|a l IH]; intros Hf; cbn; [reflexivity|].
  rewrite Hf by now left. rewrite IH; [reflexivity|].
  intros b Hb. apply Hf. now right.
Qed.

Lemma existsb_eqb_in v l : In v l -> existsb (Var_eqb v) l = true.
Proof.
  intros H. apply existsb_exists. exists v. split; [assumption|].
  now destruct (Var_eqb_spec v v).
Qed.

Lemma getitem_tabulate {V} (f : Var -> V) l v :
  In v l -> getitem Var_eqb name (Py.tabulate f l) v = Ok (f v).
Proof.
  intros H. unfold getitem.
  now rewrite (get_tabulate Var_eqb Var_eqb_spec), existsb_eqb_in.
Qed.

Lemma index_in_range {A} (l : list A) i :
  0 <= i < Py.len l -> exists a, Py.index l i = Ok a.
Proof.
  unfold Py.len, Py.index. intros H.
  destruct (Z.ltb_spec i 0); [lia|]. destruct (Z.ltb_spec i 0); [lia|].
  destruct (nth_error l (Z.to_nat i)) as [a|] eqn:E; [now exists a|].
  apply nth_error_None in E. lia.
Qed.

Lemma add_binary_vars_nil mdl : add_binary_vars mdl [] = mdl.
Proof. destruct mdl. unfold add_binary_vars. cbn. now rewrite app_nil_r. Qed.

(** The first loop: the free variables become the binary variables of
    the model, in order, and [vars_] maps every variable to its term. *)
Lemma declare_variables mb sol l : forall mdl vars_ s,
  solution s = Some sol ->
  (forall v, In v l -> Py.get Var_eqb v sol = Some (simplified_value mb v)) ->
  NoDup l ->
  (forall v, In v l -> ~ In v (Py.keys vars_)) ->
  foldM declare_variable l (mdl, vars_) s
  = (s, Ok (add_binary_vars mdl (filter (free mb) l),
            vars_ ++ Py.tabulate (term_of mb) l)).
Proof.
  induction l as [|a l IH]; intros mdl vars_ s Hsol Hget Hnd Hfresh;
    cbn [foldM filter].
  - unfold ret. now rewrite add_binary_vars_nil, app_nil_r.
  - inversion Hnd as [|? ? Ha Hnd']; subst.
    assert (Hstep :
      declare_variable (mdl, vars_) a s
      = (s, Ok (add_binary_vars mdl (filter (free mb) [a]),
                vars_ ++ [(a, term_of mb a)]))).
    { unfold declare_variable. rewrite (bind_attr _ _ _ _ _ Hsol).
      unfold getitem. rewrite (Hget a (or_introl eq_refl)).
      rewrite (bind_lift _ _ _ _ eq_refl).
      unfold term_of, free. cbn [filter].
      destruct (simplified_value mb a); unfold ret;
        rewrite (set_fresh Var_eqb Var_eqb_spec) by (apply Hfresh; now left).
      - now rewrite add_binary_vars_nil.
      - reflexivity. }
    rewrite (bind_ok _ _ _ _ _ Hstep).
    rewrite IH; try assumption.
    + f_equal. f_equal. f_equal.
      * unfold add_binary_vars. cbn. rewrite <- app_assoc.
        now destruct (free mb a).
      * now rewrite <- app_assoc.
    + intros v Hv. apply Hget. now right.
    + intros v Hv. rewrite keys_app, in_app_iff. cbn.
      intros [H|[->|[]]]; [|contradiction].
      apply (Hfresh v); [now right | assumption].
Qed.


Lemma free_x mb i j : free mb (x_ i j) = negb (i =? 0).
Proof. unfold free. cbn. destruct (i =? 0); [now destruct (j =? 0) | reflexivity]. Qed.

Lemma free_y mb j : free mb (y_ j) = negb (j <? mb).
Proof. unfold free. cbn. now destruct (j <? mb). Qed.

Lemma in_free_vars mb items bins v :
  In v (free_vars mb items bins)
  <-> In v (variables items bins) /\ free mb v = true.
Proof. apply filter_In. Qed.

Lemma NoDup_free_vars mb items bins : NoDup (free_vars mb items bins).
Proof. apply NoDup_filter, NoDup_variables. Qed.

Lemma in_free_x mb items bins i j :
  1 <= i < items -> 0 <= j < bins -> In (x_ i j) (free_vars mb items bins).
Proof.
  intros Hi Hj. apply in_free_vars. split.
  - apply in_variables. lia.
  - rewrite free_x. destruct (Z.eqb_spec i 0); [lia | reflexivity].
Qed.

Lemma in_free_y mb items bins j :
  mb <= j -> 0 <= j < bins -> In (y_ j) (free_vars mb items bins).
Proof.
  intros Hm Hj. apply in_free_vars. split.
  - now apply in_variables.
  - rewrite free_y. destruct (Z.ltb_spec j mb); [lia | reflexivity].
Qed.

Lemma index_head (ws : list Z) : ws <> [] -> Py.index ws 0 = Ok (hd 0 ws).
Proof. now destruct ws. Qed.

Section ConstraintLoops.
Variables mb items bins : Z.

Lemma modelled_set_eq s eqs :
  modelled mb items bins s -> modelled mb items bins (set_eq_constraints eqs s).
Proof. intros H. exact H. Qed.

Lemma modelled_set_ineq s ineqs :
  modelled mb items bins s -> modelled mb items bins (set_ineq_constraints ineqs s).
Proof. intros H. exact H. Qed.

Lemma positions_in_bin_spec s l j :
  modelled mb items bins s ->
  (forall i, In i l -> In (x_ i j) (free_vars mb items bins)) ->
  positions_in_bin l j s
  = (s, Ok (map (fun i => position_of (free_vars mb items bins) (x_ i j)) l)).
Proof.
  intros (Hvp & _) Hin. unfold positions_in_bin. apply mapM_state.
  intros i Hi. rewrite (bind_attr _ _ _ _ _ Hvp). unfold lift.
  rewrite getitem_position; [reflexivity | apply NoDup_free_vars | now apply Hin].
Qed.

(** The constraint of one item is recorded under a fresh key. *)
Lemma record_item_spec s mdl i :
  modelled mb items bins s ->
  1 <= i < items ->
  ~ In i (Py.keys (eq_constraints s)) ->
  exists mdl',
    record_item (Py.tabulate (term_of mb) (variables items bins)) mdl i s
    = (set_eq_constraints
         (eq_constraints s
          ++ [(i, eq_record (free_vars mb items bins) bins i)]) s,
       Ok mdl')
    /\ binary_vars mdl' = binary_vars mdl.
Proof.
  intros Hm Hi Hfresh. pose proof Hm as (Hvp & _ & _ & Hn & Hb & _).
  unfold record_item. rewrite bind_gets, Hb.
  assert (Hpos :
    mapM (fun j =>
            bindM (attr "vars_pos" vars_pos)
                  (fun vars_pos => lift (getitem Var_eqb name vars_pos (x_ i j))))
         (Py.range bins) s
    = (s, Ok (map (fun j => position_of (free_vars mb items bins) (x_ i j))
                  (Py.range bins)))).
  { apply mapM_state. intros j Hj. apply in_range in Hj.
    rewrite (bind_attr _ _ _ _ _ Hvp). unfold lift.
    rewrite getitem_position; [reflexivity | apply NoDup_free_vars |].
    now apply in_free_x. }
  rewrite (bind_ok _ _ _ _ _ Hpos).
  rewrite bind_gets, bind_assign, bind_gets.
  cbn [n_bins set_eq_constraints]. rewrite Hb.
  rewrite (bind_lift _ _ _ (map (fun j => term_of mb (x_ i j)) (Py.range bins))).
  2:{ apply Py_mapM_ok. intros j Hj. apply in_range in Hj.
      apply getitem_tabulate, in_variables. lia. }
  rewrite (set_fresh Z.eqb Z.eqb_spec) by assumption.
  eexists. split; reflexivity.
Qed.

Lemma record_items l : forall s mdl,
  modelled mb items bins s ->
  NoDup l ->
  (forall i, In i l -> 1 <= i < items) ->
  (forall i, In i l -> ~ In i (Py.keys (eq_constraints s))) ->
  exists mdl',
    foldM (record_item (Py.tabulate (term_of mb) (variables items bins))) l mdl s
    = (set_eq_constraints
         (eq_constraints s
          ++ Py.tabulate (eq_record (free_vars mb items bins) bins) l) s,
       Ok mdl')
    /\ binary_vars mdl' = binary_vars mdl.
Proof.
  induction l as [|i l IH]; intros s mdl Hm Hnd Hin Hfresh; cbn [foldM].
  - exists mdl. split; [|reflexivity]. unfold ret. cbn [Py.tabulate map].
    rewrite app_nil_r. now destruct s.
  - inversion Hnd as [|? ? Hi Hnd']; subst.
    destruct (record_item_spec s mdl i Hm (Hin i (or_introl eq_refl))
                (Hfresh i (or_introl eq_refl))) as (mdl1 & Hstep & Hb1).
    rewrite (bind_ok _ _ _ _ _ Hstep).
    destruct (IH (set_eq_constraints
                    (eq_constraints s
                     ++ [(i, eq_record (free_vars mb items bins) bins i)]) s)
                 mdl1) as (mdl2 & Hloop & Hb2).
    + now apply modelled_set_eq.
    + assumption.
    + intros k Hk. apply Hin. now right.
    + intros k Hk. cbn [eq_constraints set_eq_constraints].
      rewrite keys_app, in_app_iff. cbn.
      intros [H|[->|[]]]; [|contradiction].
      apply (Hfresh k); [now right | assumption].
    + exists mdl2. split; [|congruence]. rewrite Hloop.
      cbn [eq_constraints set_eq_constraints Py.tabulate map].
      now rewrite <- app_assoc.
Qed.

(** The constraint of one bin is recorded under a fresh key. *)
Lemma record_bin_spec s mdl j :
  modelled mb items bins s ->
  0 < items -> 0 <= j < bins ->
  ~ In j (Py.keys (ineq_constraints s)) ->
  exists mdl',
    record_bin (Py.tabulate (term_of mb) (variables items bins))
               (Py.range2 1 items) mdl j s
    = (set_ineq_constraints
         (ineq_constraints s
          ++ [(j, ineq_record (free_vars mb items bins) items
                    (weight_capacity s) (weights s) mb j)]) s,
       Ok mdl')
    /\ binary_vars mdl' = binary_vars mdl.
Proof.
  intros Hm Hitems Hj Hfresh.
  pose proof Hm as (Hvp & Hs & Hmb & Hn & Hb & Hlen & Hc).
  unfold record_bin, ineq_record. rewrite bind_gets, Hn.
  destruct (mapM_state_ex
              (fun i =>
                 bindM (gets weights) (fun ws =>
                 bindM (lift (Py.index ws i)) (fun w =>
                 bindM (gets weight_capacity) (fun capacity =>
                 bindM (lift (coefficient w capacity)) (fun c =>
                 bindM (lift (getitem Var_eqb name
                                (Py.tabulate (term_of mb) (variables items bins))
                                (x_ i j))) (fun t =>
                 ret (c, t)))))))
              (Py.range items) s) as [terms Hterms].
  { intros i Hi. apply in_range in Hi. rewrite bind_gets.
    destruct (index_in_range (weights s) i) as [w Hw]; [lia|].
    rewrite (bind_lift _ _ _ _ Hw), bind_gets.
    unfold coefficient. destruct (Z.eqb_spec (weight_capacity s) 0); [contradiction|].
    rewrite (bind_lift _ _ _ _ eq_refl).
    rewrite (bind_lift _ _ _ (term_of mb (x_ i j))).
    - eexists. reflexivity.
    - apply getitem_tabulate, in_variables. lia. }
  rewrite (bind_ok _ _ _ _ _ Hterms).
  rewrite (bind_lift _ _ _ (term_of mb (y_ j)))
    by (apply getitem_tabulate, in_variables; lia).
  rewrite bind_gets, Hs.
  assert (Hbelow :
    bindM (attr "min_bins" min_bins) (fun mb0 => ret (j <? mb0)) s
    = (s, Ok (j <? mb))).
  { now rewrite (bind_attr _ _ _ _ _ Hmb). }
  rewrite (bind_ok _ _ _ _ _ Hbelow).
  assert (Hws : weights s <> []).
  { intros E. rewrite E in Hlen. unfold Py.len in Hlen. cbn in Hlen. lia. }
  assert (Hpositions :
    positions_in_bin (Py.range2 1 items) j s
    = (s, Ok (map (fun i => position_of (free_vars mb items bins) (x_ i j))
                  (Py.range2 1 items)))).
  { apply positions_in_bin_spec; [assumption|]. intros i Hi.
    apply in_range2 in Hi. now apply in_free_x. }
  destruct (Z.ltb_spec j mb) as [Hlt|Hge].
  - destruct (Z.eqb_spec j 0) as [->|Hj0].
    + rewrite (bind_ok _ _ _ _ _ Hpositions), !bind_gets.
      rewrite (bind_lift _ _ _ _ (index_head _ Hws)).
      rewrite bind_gets, bind_assign.
      rewrite (set_fresh Z.eqb Z.eqb_spec) by assumption.
      eexists. split; reflexivity.
    + rewrite (bind_ok _ _ _ _ _ Hpositions), !bind_gets, bind_assign.
      rewrite (set_fresh Z.eqb Z.eqb_spec) by assumption.
      eexists. split; reflexivity.
  - rewrite (bind_ok _ _ _ _ _ Hpositions).
    rewrite (bind_attr _ _ _ _ _ Hvp).
    rewrite (bind_lift _ _ _ (position_of (free_vars mb items bins) (y_ j))).
    2:{ apply getitem_position; [apply NoDup_free_vars|]. now apply in_free_y. }
    rewrite bind_gets, bind_assign.
    rewrite (set_fresh Z.eqb Z.eqb_spec) by assumption.
    eexists. split; reflexivity.
Qed.

Lemma record_bins l : forall s mdl,
  modelled mb items bins s ->
  0 < items ->
  NoDup l ->
  (forall j, In j l -> 0 <= j < bins) ->
  (forall j, In j l -> ~ In j (Py.keys (ineq_constraints s))) ->
  exists mdl',
    foldM (record_bin (Py.tabulate (term_of mb) (variables items bins))
                      (Py.range2 1 items)) l mdl s
    = (set_ineq_constraints
         (ineq_constraints s
          ++ Py.tabulate (ineq_record (free_vars mb items bins) items
                            (weight_capacity s) (weights s) mb) l) s,
       Ok mdl')
    /\ binary_vars mdl' = binary_vars mdl.
Proof.
  induction l as [|j l IH]; intros s mdl Hm Hitems Hnd Hin Hfresh; cbn [foldM].
  - exists mdl. split; [|reflexivity]. unfold ret. cbn [Py.tabulate map].
    rewrite app_nil_r. now destruct s.
  - inversion Hnd as [|? ? Hj Hnd']; subst.
    destruct (record_bin_spec s mdl j Hm Hitems (Hin j (or_introl eq_refl))
                (Hfresh j (or_introl eq_refl))) as (mdl1 & Hstep & Hb1).
    rewrite (bind_ok _ _ _ _ _ Hstep).
    destruct (IH (set_ineq_constraints
                    (ineq_constraints s
                     ++ [(j, ineq_record (free_vars mb items bins) items
                               (weight_capacity s) (weights s) mb j)]) s)
                 mdl1) as (mdl2 & Hloop & Hb2).
    + now apply modelled_set_ineq.
    + assumption.
    + assumption.
    + intros k Hk. apply Hin. now right.
    + intros k Hk. cbn [ineq_constraints set_ineq_constraints].
      rewrite keys_app, in_app_iff. cbn.
      intros [H|[->|[]]]; [|contradiction].
      apply (Hfresh k); [now right | assumption].
    + exists mdl2. split; [|congruence]. rewrite Hloop.
      cbn [ineq_constraints set_ineq_constraints weight_capacity weights
           Py.tabulate map].
      now rewrite <- app_assoc.
Qed.

End ConstraintLoops.


(** Under the simplifications, on an instance with its solution
    dictionary and no constraint recorded yet, [docplex_model] returns a
    model whose binary variables are the free variables, and leaves
    their positions, one equality constraint per item after the first
    and one inequality constraint per bin. *)
Lemma docplex_model_simplified s mb :
  simplifications s = true ->
  min_bins s = Some mb ->
  solution s = Some (Py.tabulate (simplified_value mb)
                                 (variables (n_items s) (n_bins s))) ->
  n_items s = Py.len (weights s) ->
  0 < n_items s ->
  weight_capacity s <> 0 ->
  eq_constraints s = [] ->
  ineq_constraints s = [] ->
  exists mdl,
    docplex_model s
    = (set_ineq_constraints
         (Py.tabulate
            (ineq_record (free_vars mb (n_items s) (n_bins s)) (n_items s)
                         (weight_capacity s) (weights s) mb)
            (Py.range (n_bins s)))
         (set_eq_constraints
            (Py.tabulate
               (eq_record (free_vars mb (n_items s) (n_bins s)) (n_bins s))
               (Py.range2 1 (n_items s)))
            (set_vars_pos
               (Some (enumerate_positions
                        (free_vars mb (n_items s) (n_bins s)))) s)),
       Ok mdl)
    /\ binary_vars mdl = free_vars mb (n_items s) (n_bins s).
Proof.
  intros Hs Hmb Hsol Hlen Hitems Hc Heq Hineq.
  set (items := n_items s) in *. set (bins := n_bins s) in *.
  unfold docplex_model. rewrite (bind_attr _ _ _ _ _ Hsol).
  rewrite keys_tabulate.
  rewrite (bind_ok _ _ _ _ _
             (declare_variables mb _ (variables items bins)
                (new_Model "bin_packing") [] s Hsol
                (fun v Hv =>
                   eq_trans (get_tabulate Var_eqb Var_eqb_spec _ _ v)
                            (f_equal (fun b : bool =>
                                        if b then Some (simplified_value mb v)
                                        else None)
                                     (existsb_eqb_in v _ Hv)))
                (NoDup_variables items bins)
                (fun v _ H => H))).
  cbv beta iota. cbn [app]. rewrite keys_tabulate.
  rewrite (bind_lift _ _ _
             (map (term_of mb) (filter starts_with_y (variables items bins)))).
  2:{ apply Py_mapM_ok. intros v Hv. apply filter_In in Hv as [Hv _].
      now apply getitem_tabulate. }
  rewrite bind_assign, !bind_gets.
  cbn [simplifications n_items set_vars_pos]. rewrite Hs. fold items.
  unfold iter_binary_vars, add_binary_vars, new_Model.
  cbn [binary_vars app]. fold (free_vars mb items bins).
  set (s1 := set_vars_pos _ s).
  assert (Hm1 : modelled mb items bins s1).
  { unfold modelled. cbn. repeat split; assumption. }
  destruct (record_items mb items bins (Py.range2 1 items) s1
              (minimize
                 {| model_name := "bin_packing";
                    binary_vars := free_vars mb items bins;
                    objective := None; constraints := [] |}
                 (map (term_of mb) (filter starts_with_y (variables items bins))))
              Hm1 (NoDup_range2 1 items))
    as (mdl1 & Hloop1 & Hb1).
  { intros i Hi. now apply in_range2 in Hi. }
  { intros i _. cbn. rewrite Heq. intros []. }
  rewrite (bind_ok _ _ _ _ _ Hloop1). rewrite bind_gets.
  cbn [n_bins set_eq_constraints s1 set_vars_pos]. fold bins. fold s1.
  set (s2 := set_eq_constraints _ s1).
  assert (Hm2 : modelled mb items bins s2) by exact Hm1.
  destruct (record_bins mb items bins (Py.range bins) s2 mdl1 Hm2 Hitems
              (NoDup_range bins))
    as (mdl2 & Hloop2 & Hb2).
  { intros j Hj. now apply in_range in Hj. }
  { intros j _. cbn. rewrite Hineq. intros []. }
  rewrite (bind_ok _ _ _ _ _ Hloop2). unfold ret.
  exists mdl2. split; [|now rewrite Hb2, Hb1].
  subst s2 s1. cbn [eq_constraints ineq_constraints weight_capacity weights
                    set_eq_constraints set_vars_pos].
  now rewrite Heq, Hineq.
Qed.








(** C3 (as the code behaves).  [BinPacking([1, 2], 3,
    simplifications=False)] is built with six binary variables, two
    recorded equality constraints and two recorded inequality
    constraints; on the bitstring "000000", which violates the two
    equality constraints and no inequality constraint,
    [constraints_not_fulfilled] raises [TypeError] instead of returning
    2. *)
Theorem constraints_not_fulfilled_plain_raises :
  n_vars (BinpackingExample.built BinpackingExample.two_items_plain) = Some 6
  /\ eq_constraints (BinpackingExample.built BinpackingExample.two_items_plain)
     = [(0, {| c_positions := [2; 3]; c_rhs := [1] |});
        (1, {| c_positions := [4; 5]; c_rhs := [1] |})]
  /\ ineq_constraints (BinpackingExample.built BinpackingExample.two_items_plain)
     = [(0, {| c_positions := [2; 4]; c_rhs := [0] |});
        (1, {| c_positions := [3; 5]; c_rhs := [1] |})]
  /\ constraints_not_fulfilled
       (BinpackingExample.built BinpackingExample.two_items_plain) "000000"
     = Raise (TypeError "string indices must be integers").
Proof. repeat split; vm_compute; reflexivity. Qed.

(** The same call under the simplifications counts the violations:
    [BinPacking([2, 3, 4], 5)] has seven binary variables, and the
    all-zero bitstring leaves its two items unassigned. *)
Example constraints_not_fulfilled_simplified :
  constraints_not_fulfilled
    (BinpackingExample.built BinpackingExample.three_items) "0000000" = Ok 2
  /\ constraints_not_fulfilled
       (BinpackingExample.built BinpackingExample.three_items) "0100010" = Ok 0
  /\ constraints_not_fulfilled
       (BinpackingExample.built BinpackingExample.three_items) "0100100" = Ok 1.
Proof. repeat split; vm_compute; reflexivity. Qed.


(** *** [find_penalty_terms] *)

Section DictAppend.
Context {K V : Type} (eqb : K -> K -> bool).
Hypothesis eqb_spec : forall a b, reflect (a = b) (eqb a b).



End DictAppend.

Section Tuning.
Context {vendor : Vendor}.

(** [classical_solution(string=True)] returns a string. *)
Lemma classical_solution_string self r :
  classical_solution self true = Ok r -> exists text, r = inl text.
Proof.
  unfold classical_solution.
  destruct (the_model self) as [mdl|e]; [|discriminate]. cbn [Py.bind].
  assert (Hfold : forall vars (start : Py.result (string + Solution)) sol,
            (forall r0, start = Ok r0 -> exists t, r0 = inl t) ->
            fold_left
              (fun acc var =>
                 acc <- acc ;;
                 s <- solved (solve mdl) "get_value" ;;
                 v <- round_to_int (get_value s var) ;;
                 match acc with
                 | inl text => Ok (inl (text ++ Py.str v)%string)
                 | inr d => Ok (inr (Py.set Var_eqb var (Some v) d))
                 end) vars start = Ok sol ->
            exists t, sol = inl t).
  { induction vars as [|var vars IH]; intros start sol Hstart; cbn [fold_left].
    - apply Hstart.
    - apply IH. intros r0 Hr0.
      destruct start as [[text|d]|e]; cbn [Py.bind] in Hr0; try discriminate.
      + destruct (solved (solve mdl) "get_value") as [s|e];
          cbn [Py.bind] in Hr0; [|discriminate].
        destruct (round_to_int (get_value s var)) as [v|e];
          cbn [Py.bind] in Hr0; [|discriminate].
        injection Hr0 as <-. eexists. reflexivity.
      + destruct (Hstart _ eq_refl) as [t Ht]. discriminate. }
  destruct (fold_left _ (iter_binary_vars mdl) (Ok (inl EmptyString)))
    as [sol|e] eqn:Efold; [|discriminate].
  cbn [Py.bind].
  destruct (solved (solve mdl) "is_valid_solution") as [s|e]; [|discriminate].
  cbn [Py.bind]. destruct (negb (is_valid_solution s)); [discriminate|].
  intros [= <-].
  apply (Hfold (iter_binary_vars mdl) (Ok (inl EmptyString)) sol);
    [|exact Efold].
  intros r0 [= <-]. eexists. reflexivity.
Qed.



Lemma init_with_method m : init (with_method m) = Ok (init_fields (with_method m)).
Proof. reflexivity. Qed.




End Tuning.



(** In that run both instances are solved by the all-zero string, and
    the report is the callback dictionary of the first instance. *)
Example tuned_run :
  map BinpackingExample.tuned_solution [0; 1] = ["0000000"; "0000000"]
  /\ match BinpackingExample.tuned_report with
     | Callback r => report_pos r = 0 /\ report_n_vars r = 7
                     /\ report_constraints_not_fulfilled r = 2
     | Objective _ => False
     end.
Proof. vm_compute. repeat split. Qed.

(*MORE*)
(* ------------------------------------------------------------------ *)
(** ** Further properties of the problem class                         *)
(* ------------------------------------------------------------------ *)

(** *** Variable names *)

(** X1.  Two variables have the same name exactly when they are the
    same variable: the names [y_j] and [x_i_j] the class uses as keys of
    [solution], [vars_] and [vars_pos] never collide ([x_1_12] and
    [x_11_2], say, are different keys). *)
Theorem name_eqb a b : String.eqb (name a) (name b) = Var_eqb a b.
Proof.
  destruct (Var_eqb_spec a b) as [->|Hne].
  - apply String.eqb_refl.
  - apply String.eqb_neq. intros E. apply Hne. now apply name_inj.
Qed.

(** *** The constructor under the simplifications *)

(** What the constructor leaves under the simplifications, the model and
    the positions included. *)
Lemma init_simplified_model a :
  arg_simplifications a = true ->
  arg_weights a <> [] ->
  arg_weight_capacity a <> 0 ->
  0 < n_bins (init_fields a) ->
  exists self mdl,
    init a = Ok self
    /\ cplex_model self = Some mdl
    /\ binary_vars mdl
       = free_vars (ceil_ratio (init_fields a)) (Py.len (arg_weights a))
                   (n_bins (init_fields a))
    /\ vars_pos self = Some (enumerate_positions (binary_vars mdl))
    /\ solution self
       = Some (Py.tabulate (simplified_value (ceil_ratio (init_fields a)))
                           (variables (Py.len (arg_weights a))
                                      (n_bins (init_fields a))))
    /\ n_vars self = Some (Py.len (binary_vars mdl))
    /\ min_bins self = Some (ceil_ratio (init_fields a)).
Proof.
  intros Hs Hw Hc Hb.
  assert (Hitems : 0 < Py.len (arg_weights a)).
  { destruct (arg_weights a); [contradiction|].
    unfold Py.len. cbn [List.length]. lia. }
  unfold init. rewrite (proj2 (Z.ltb_lt _ _) Hitems).
  set (s0 := init_fields a) in *. set (mb := ceil_ratio s0).
  unfold build.
  rewrite (bind_ok _ _ _ _ _
             (solution_dict_simplified s0 Hs Hc Hitems Hb)).
  rewrite bind_assign. fold mb.
  destruct (docplex_model_simplified
              (set_solution
                 (Some (Py.tabulate (simplified_value mb)
                                    (variables (n_items s0) (n_bins s0))))
                 (set_min_bins (Some mb) s0)) mb)
    as (mdl & Hmodel & Hvars); try reflexivity; try assumption.
  rewrite (bind_ok _ _ _ _ _ Hmodel). rewrite bind_assign.
  rewrite (bind_attr _ cplex_model _ _ mdl) by reflexivity.
  unfold assign. eexists. exists mdl. split; [reflexivity|].
  cbn. unfold number_of_binary_variables. rewrite Hvars.
  repeat split; reflexivity.
Qed.




Lemma length_range2 a b : List.length (Py.range2 a b) = Z.to_nat (b - a).
Proof. unfold Py.range2. now rewrite length_map, length_seq. Qed.




(** X3.  The positions kept in [vars_pos] are those of the model: on an
    instance built under the simplifications, the binary variables of
    the model are the entries of the solution dictionary that are still
    [None], and [vars_pos] sends each of them to its place in
    [iter_binary_vars()], a place below [n_vars]. *)
Theorem vars_pos_round_trip a :
  arg_simplifications a = true ->
  arg_weights a <> [] ->
  arg_weight_capacity a <> 0 ->
  0 < n_bins (init_fields a) ->
  exists self mdl vp sol n,
    init a = Ok self
    /\ cplex_model self = Some mdl
    /\ vars_pos self = Some vp
    /\ solution self = Some sol
    /\ n_vars self = Some n
    /\ (forall v, In v (iter_binary_vars mdl)
                  <-> Py.get Var_eqb v sol = Some None)
    /\ (forall v, In v (iter_binary_vars mdl) ->
          exists p, Py.get Var_eqb v vp = Some p
                    /\ 0 <= p < n
                    /\ nth_error (iter_binary_vars mdl) (Z.to_nat p) = Some v)
    /\ (forall v p, Py.get Var_eqb v vp = Some p -> In v (iter_binary_vars mdl)).
Proof.
  intros Hs Hw Hc Hb.
  destruct (init_simplified_model a Hs Hw Hc Hb)
    as (self & mdl & Hinit & Hmdl & Hvars & Hvp & Hsol & Hn & Hmb).
  exists self, mdl. do 3 eexists.
  repeat (split; [eassumption|]).
  unfold iter_binary_vars.
  assert (Hnd : NoDup (binary_vars mdl)).
  { rewrite Hvars. apply NoDup_free_vars. }
  split; [|split].
  - intros v. rewrite Hvars, in_free_vars.
    rewrite (get_tabulate Var_eqb Var_eqb_spec). unfold free.
    split.
    + intros [Hin Hfree]. rewrite (existsb_eqb_in _ _ Hin).
      destruct (simplified_value _ v); [discriminate|reflexivity].
    + intros E.
      destruct (existsb (Var_eqb v) _) eqn:Hex; [|discriminate].
      split.
      * apply existsb_exists in Hex as (w & Hw' & Hvw).
        now destruct (Var_eqb_spec v w) as [->|]; [|discriminate].
      * injection E as ->. reflexivity.
  - intros v Hv.
    destruct (position_of_spec _ v Hnd Hv) as (Hget & Hrange & Hnth).
    exists (position_of (binary_vars mdl) v). repeat split; try assumption; lia.
  - intros v p Hget.
    rewrite (enumerate_positions_eq _ Hnd) in Hget.
    assert (Hk : In v (Py.keys (map (fun nv : Z * Var => (snd nv, fst nv))
                                    (combine (Py.range (Py.len (binary_vars mdl)))
                                             (binary_vars mdl))))).
    { clear - Hget. induction (map _ _) as [|[k q] d IH]; [discriminate|].
      cbn in Hget |- *. destruct (Var_eqb_spec v k) as [->|]; [now left|].
      right. now apply IH. }
    unfold Py.keys in Hk. rewrite map_map in Hk. cbn [fst] in Hk.
    change (map (fun x : Z * Var => snd x)) with (@map (Z * Var) Var snd) in Hk.
    rewrite map_snd_combine in Hk; [assumption|].
    unfold Py.len. now rewrite length_range.
Qed.

Lemma vars_pos_round_trip_witness :
  exists self mdl vp sol n,
    init BinpackingExample.three_items = Ok self
    /\ cplex_model self = Some mdl
    /\ vars_pos self = Some vp
    /\ solution self = Some sol
    /\ n_vars self = Some n
    /\ (forall v, In v (iter_binary_vars mdl)
                  <-> Py.get Var_eqb v sol = Some None)
    /\ (forall v, In v (iter_binary_vars mdl) ->
          exists p, Py.get Var_eqb v vp = Some p
                    /\ 0 <= p < n
                    /\ nth_error (iter_binary_vars mdl) (Z.to_nat p) = Some v)
    /\ (forall v p, Py.get Var_eqb v vp = Some p -> In v (iter_binary_vars mdl)).
Proof.
  apply (vars_pos_round_trip BinpackingExample.three_items).
  - reflexivity.
  - discriminate.
  - discriminate.
  - reflexivity.
Defined.

(** *** [constraints_not_fulfilled] *)


(** X5.  Without the simplifications the check never returns a count
    once an inequality constraint is recorded, whatever the solution
    string and the other attributes: the first inequality constraint
    raises (at the latest at [solution[constraint[1]]], a string indexed
    with a list). *)
Theorem constraints_not_fulfilled_plain_never_counts self sol :
  simplifications self = false ->
  ineq_constraints self <> [] ->
  exists e, constraints_not_fulfilled self sol = Raise e.
Proof.
  intros Hs Hne. unfold constraints_not_fulfilled.
  destruct (count_violations _ (Py.values (eq_constraints self)) 0) as [c|e];
    [|now exists e].
  cbn [Py.bind].
  destruct (ineq_constraints self) as [|[k c0] rest]; [contradiction|].
  unfold Py.values, Py.len. cbn [map List.length].
  rewrite range_cons. cbn [combine count_violations].
  destruct (n_vars self) as [n|]; [|eexists; reflexivity].
  unfold check_ineq. destruct (Np.zeros n) as [vec|e]; [|eexists; reflexivity].
  cbn. rewrite Hs. cbn. eexists. reflexivity.
Qed.

Lemma constraints_not_fulfilled_plain_never_counts_witness :
  exists e,
    constraints_not_fulfilled
      (BinpackingExample.built BinpackingExample.two_items_plain) "110110"
    = Raise e.
Proof.
  apply (constraints_not_fulfilled_plain_never_counts
           (BinpackingExample.built BinpackingExample.two_items_plain) "110110").
  - reflexivity.
  - discriminate.
Defined.

(** *** Constraints recorded by an earlier build *)

Lemma grown_refl self : grown self self.
Proof. split; auto. Qed.

Lemma grown_trans a b c : grown a b -> grown b c -> grown a c.
Proof. intros [H1 H2] [H3 H4]. split; auto. Qed.

Lemma keys_set_grow {K V} (eqb : K -> K -> bool) k (v : V) d k' :
  In k' (Py.keys d) -> In k' (Py.keys (Py.set eqb k v d)).
Proof.
  induction d as [|[k0 v0] d IH]; cbn; [tauto|].
  destruct (eqb k k0); cbn; tauto.
Qed.

Lemma growing_ret {A} (a : A) : growing (ret a).
Proof. intros s. apply grown_refl. Qed.

Lemma growing_raise {A} e : growing (@raise A e).
Proof. intros s. apply grown_refl. Qed.

Lemma growing_gets {A} (f : BinPacking -> A) : growing (gets f).
Proof. intros s. apply grown_refl. Qed.

Lemma growing_attr {A} nm (f : BinPacking -> option A) : growing (attr nm f).
Proof. intros s. unfold attr. destruct (f s); apply grown_refl. Qed.

Lemma growing_lift {A} (r : Py.result A) : growing (lift r).
Proof. intros s. apply grown_refl. Qed.

Lemma growing_bind {A B} (m : M A) (k : A -> M B) :
  growing m -> (forall a, growing (k a)) -> growing (bindM m k).
Proof.
  intros Hm Hk s. unfold bindM. specialize (Hm s).
  destruct (m s) as [s' [a|e]]; cbn in *; [|assumption].
  eapply grown_trans; [eassumption | apply Hk].
Qed.

Lemma growing_foldM {A B} (body : B -> A -> M B) l :
  (forall b a, growing (body b a)) -> forall acc, growing (foldM body l acc).
Proof.
  intros Hbody. induction l as [|a l IH]; intros acc; cbn [foldM].
  - apply growing_ret.
  - apply growing_bind; auto.
Qed.

Lemma growing_mapM {A B} (f : A -> M B) l :
  (forall a, growing (f a)) -> growing (mapM f l).
Proof.
  intros Hf. induction l as [|a l IH]; cbn [mapM].
  - apply growing_ret.
  - apply growing_bind; [apply Hf|]. intros b.
    apply growing_bind; [apply IH|]. intros bs. apply growing_ret.
Qed.

(** An assignment to an attribute other than the two dictionaries. *)
Lemma growing_assign upd :
  (forall s, eq_constraints (upd s) = eq_constraints s
             /\ ineq_constraints (upd s) = ineq_constraints s) ->
  growing (assign upd).
Proof.
  intros H s. cbn. destruct (H s) as [E1 E2].
  split; intros k; [rewrite E1 | rewrite E2]; auto.
Qed.

(** [self.eq_constraints[key] = c] and [self.ineq_constraints[key] = c] *)
Lemma growing_store_eq {B} i c (k : unit -> M B) :
  (forall u, growing (k u)) ->
  growing (bindM (gets eq_constraints)
                 (fun eqs =>
                    bindM (assign (set_eq_constraints (Py.set Z.eqb i c eqs))) k)).
Proof.
  intros Hk s. rewrite bind_gets, bind_assign.
  eapply grown_trans; [|apply Hk].
  split; cbn; intros k' Hk'; [now apply keys_set_grow | assumption].
Qed.

Lemma growing_store_ineq {B} j c (k : unit -> M B) :
  (forall u, growing (k u)) ->
  growing (bindM (gets ineq_constraints)
                 (fun ineqs =>
                    bindM (assign (set_ineq_constraints (Py.set Z.eqb j c ineqs))) k)).
Proof.
  intros Hk s. rewrite bind_gets, bind_assign.
  eapply grown_trans; [|apply Hk].
  split; cbn; intros k' Hk'; [assumption | now apply keys_set_grow].
Qed.

Ltac growing_step :=
  match goal with
  | |- growing (bindM (gets eq_constraints) _) => apply growing_store_eq; intros
  | |- growing (bindM (gets ineq_constraints) _) => apply growing_store_ineq; intros
  | |- growing (bindM _ _) => apply growing_bind; [|intros]
  | |- growing (ret _) => apply growing_ret
  | |- growing (raise _) => apply growing_raise
  | |- growing (gets _) => apply growing_gets
  | |- growing (attr _ _) => apply growing_attr
  | |- growing (lift _) => apply growing_lift
  | |- growing (assign _) => apply growing_assign; intros; split; reflexivity
  | |- growing (foldM _ _ _) => apply growing_foldM; intros
  | |- growing (mapM _ _) => apply growing_mapM; intros
  | |- growing (positions_in_bin _ _) => unfold positions_in_bin
  | |- growing (declare_variable _ _) => unfold declare_variable
  | |- growing (record_item _ _ _) => unfold record_item
  | |- growing (record_bin _ _ _ _) => unfold record_bin
  | |- context [match ?p with (_, _) => _ end] => is_var p; destruct p
  | |- growing (match ?x with _ => _ end) => destruct x
  end.

Lemma growing_docplex_model : growing docplex_model.
Proof. unfold docplex_model. repeat growing_step. Qed.

Lemma growing_solution_dict : growing solution_dict.
Proof.
  intros s. unfold solution_dict.
  destruct (simplifications s); [|apply grown_refl].
  destruct (minimum_bins _ _); cbn [fst]; [|apply grown_refl].
  split; cbn; auto.
Qed.

Lemma growing_build : growing build.
Proof.
  unfold build.
  apply growing_bind; [apply growing_solution_dict|]. intros sol.
  apply growing_bind; [growing_step|]. intros _.
  apply growing_bind; [apply growing_docplex_model|]. intros mdl.
  repeat growing_step.
Qed.

Section Rebuilding.
Context {vendor : Vendor}.

Lemma growing_random_instance n lo hi capacity simp seed :
  growing (random_instance n lo hi capacity simp seed).
Proof.
  unfold random_instance.
  do 4 (apply growing_bind; [growing_step|]; intros).
  destruct (hi <=? lo); [growing_step|].
  do 3 (apply growing_bind; [growing_step|]; intros).
  apply growing_build.
Qed.

(** X6.  Neither [docplex_model] nor [random_instance] removes a recorded
    constraint: whatever the instance and the arguments, and whether the
    call returns or raises, every key of [eq_constraints] and of
    [ineq_constraints] is still there afterwards.  (Only the constructor
    empties the two dictionaries, so a second [random_instance] with
    fewer items keeps the constraints of the larger instance.) *)
Theorem constraints_are_never_removed :
  (forall self, grown self (fst (docplex_model self)))
  /\ (forall n lo hi capacity simp seed self,
        grown self (fst (random_instance n lo hi capacity simp seed self))).
Proof.
  split.
  - apply growing_docplex_model.
  - intros. apply growing_random_instance.
Qed.


End Rebuilding.


(** An instance built for three items and then made random again with
    two: the constraint of item 2 and that of bin 2 are still recorded. *)
Example rebuilt_smaller :
  let self :=
    fst (random_instance (vendor := BinpackingExample.ex_vendor)
           2 1 5 10 true 1 (BinpackingExample.built BinpackingExample.three_items)) in
  n_items self = 2
  /\ Py.keys (eq_constraints self) = [1; 2]
  /\ Py.keys (ineq_constraints self) = [0; 1; 2].
Proof. vm_compute. repeat split; reflexivity. Qed.

(** *** Error behaviour of [get_qubo_problem] *)

Section MoreQubo.
Context {vendor : Vendor}.

(** X8.  When [get_qubo_problem] fails before it reaches the converter:
    a penalty that is a number (the type the class documents) raises
    [TypeError] at [len(self.penalty)]; with a list penalty, a method
    other than "slack" and "unbalanced" leaves [qubo] unbound, and a
    known method on an instance without a model raises
    [AttributeError]. *)
Theorem get_qubo_problem_errors self :
  (forall p, penalty self = PFloat p ->
     get_qubo_problem self
     = Raise (TypeError "object of type 'float' has no len()"))
  /\ (forall ps, penalty self = PList ps ->
        method self <> "slack" -> method self <> "unbalanced" ->
        get_qubo_problem self = Raise (UnboundLocalError "qubo"))
  /\ (forall ps, penalty self = PList ps ->
        method self = "slack" \/ method self = "unbalanced" ->
        cplex_model self = None ->
        get_qubo_problem self = Raise (AttributeError "cplex_model")).
Proof.
  split; [|split].
  - intros p Hp. unfold get_qubo_problem. now rewrite Hp.
  - intros ps Hp H1 H2. unfold get_qubo_problem. rewrite Hp. cbn.
    apply String.eqb_neq in H1, H2. rewrite H1, H2.
    now destruct (0 <? Py.len ps).
  - intros ps Hp Hm Hmdl. unfold get_qubo_problem, the_model.
    rewrite Hp, Hmdl. cbn.
    destruct Hm as [-> | ->]; cbn; now destruct (0 <? Py.len ps).
Qed.

End MoreQubo.

Lemma get_qubo_problem_errors_witness :
  get_qubo_problem (vendor := BinpackingExample.ex_vendor)
    (BinpackingExample.built
       (BinpackingExample.args [2; 3; 4] 5 None true "slack" (PFloat (1 # 2))))
  = Raise (TypeError "object of type 'float' has no len()")
  /\ get_qubo_problem (vendor := BinpackingExample.ex_vendor)
       (BinpackingExample.built
          (BinpackingExample.args [2; 3; 4] 5 None true "penalty" (PList [1%Q])))
     = Raise (UnboundLocalError "qubo")
  /\ get_qubo_problem (vendor := BinpackingExample.ex_vendor)
       (init_fields default_args)
     = Raise (AttributeError "cplex_model").
Proof.
  split; [|split].
  - apply (proj1 (get_qubo_problem_errors (vendor := BinpackingExample.ex_vendor)
                    (BinpackingExample.built
                       (BinpackingExample.args [2; 3; 4] 5 None true "slack"
                          (PFloat (1 # 2))))) (1 # 2)%Q).
    reflexivity.
  - apply (proj1 (proj2 (get_qubo_problem_errors
                           (vendor := BinpackingExample.ex_vendor)
                           (BinpackingExample.built
                              (BinpackingExample.args [2; 3; 4] 5 None true
                                 "penalty" (PList [1%Q]))))) [1%Q]).
    + reflexivity.
    + discriminate.
    + discriminate.
  - apply (proj2 (proj2 (get_qubo_problem_errors
                           (vendor := BinpackingExample.ex_vendor)
                           (init_fields default_args))) []).
    + reflexivity.
    + left. reflexivity.
    + reflexivity.
Defined.

(** *** [classical_solution] *)

(** Reading a solver value: the nearest multiple of one tenth, then the
    integer part. *)
Lemma round_nearest q n :
  (inject_Z n - (1 # 2) < q * inject_Z 10)%Q ->
  (q * inject_Z 10 < inject_Z n + (1 # 2))%Q ->
  Np.round q 1 = Np.Finite (inject_Z n / inject_Z 10)%Q.
Proof.
  intros Hlo Hhi. unfold Np.round. change (10 ^ 1) with 10.
  set (t := (q * inject_Z 10)%Q) in *.
  pose proof (Qfloor_le t) as Hf1. pose proof (Qlt_floor t) as Hf2.
  set (f := Qfloor t) in *.
  rewrite inject_Z_plus in Hf2. change (inject_Z 1) with 1%Q in Hf2.
  assert (Hcases : f = n \/ n = f + 1).
  { assert (inject_Z f < inject_Z (n + 1))%Q as H1.
    { rewrite inject_Z_plus. change (inject_Z 1) with 1%Q. lra. }
    assert (inject_Z n < inject_Z (f + 2))%Q as H2.
    { rewrite inject_Z_plus. change (inject_Z 2) with 2%Q. lra. }
    rewrite <- Zlt_Qlt in H1, H2. lia. }
  destruct Hcases as [E|E].
  - rewrite E in *.
    destruct (Qcompare_spec (t - inject_Z n) (1 # 2)) as [H|H|H];
      try reflexivity; lra.
  - rewrite E in *. rewrite inject_Z_plus in Hlo, Hhi.
    change (inject_Z 1) with 1%Q in *.
    destruct (Qcompare_spec (t - inject_Z f) (1 # 2)) as [H|H|H];
      try reflexivity; lra.
Qed.

Section MoreTuning.
Context {vendor : Vendor}.

(** A value within one twentieth of 0 or of 1 is read as that bit. *)
Lemma round_to_int_bit q (b : bool) :
  (Qabs (q - inject_Z (Z.b2z b)) < 1 # 20)%Q ->
  round_to_int q = Ok (Z.b2z b).
Proof.
  intros H. apply Qabs_Qlt_condition in H as [H1 H2].
  unfold round_to_int.
  rewrite (round_nearest q (10 * Z.b2z b)).
  - destruct b; reflexivity.
  - destruct b; cbn [Z.b2z] in *; change (10 * 1) with 10; change (10 * 0) with 0;
      unfold inject_Z in *; lra.
  - destruct b; cbn [Z.b2z] in *; change (10 * 1) with 10; change (10 * 0) with 0;
      unfold inject_Z in *; lra.
Qed.

Lemma round_to_int_total q : exists z, round_to_int q = Ok z.
Proof. unfold round_to_int, Np.round, Np.to_int. eexists. reflexivity. Qed.

Lemma append_snoc text c rest :
  ((text ++ String c "") ++ rest = text ++ String c rest)%string.
Proof. induction text as [|a text IH]; cbn; [reflexivity | now rewrite IH]. Qed.

Lemma str_bit (b : bool) : Py.str (Z.b2z b) = String (bit_char b) "".
Proof. destruct b; reflexivity. Qed.

(** The loop of [classical_solution(string=True)] over values that are
    bits: it appends one character per variable. *)
Lemma string_loop s (b : Var -> bool) vars : forall text,
  (forall v, In v vars ->
             (Qabs (get_value s v - inject_Z (Z.b2z (b v))) < 1 # 20)%Q) ->
  fold_left
    (fun (acc : Py.result (string + Py.dict (K := Var) (V := option Z))) var =>
       acc <- acc ;;
       s <- solved (Some s) "get_value" ;;
       v <- round_to_int (get_value s var) ;;
       match acc with
       | inl text => Ok (inl (text ++ Py.str v)%string)
       | inr d => Ok (inr (Py.set Var_eqb var (Some v) d))
       end) vars (Ok (inl text))
  = Ok (inl (text ++ bits_string (map b vars))%string).
Proof.
  induction vars as [|v vars IH]; intros text Hvars; cbn [fold_left].
  - cbn. f_equal. f_equal. induction text as [|a t IHt]; cbn; congruence.
  - cbn [Py.bind solved].
    rewrite (round_to_int_bit _ (b v)) by (apply Hvars; now left).
    cbn [Py.bind]. rewrite IH by (intros; apply Hvars; now right).
    rewrite str_bit. unfold bits_string. cbn [map string_of_list_ascii].
    now rewrite append_snoc.
Qed.

(** X9.  [classical_solution(string=True)] returns the bitstring of the
    solver's solution, one character per binary variable in the order of
    [iter_binary_vars()]: when the solver returns a valid solution whose
    values are within 0.05 of 0 or 1, the result is the string of those
    bits (so it has [number_of_binary_variables] characters). *)
Theorem classical_solution_bits self mdl s (b : Var -> bool) :
  cplex_model self = Some mdl ->
  solve mdl = Some s ->
  is_valid_solution s = true ->
  (forall v, In v (iter_binary_vars mdl) ->
             (Qabs (get_value s v - inject_Z (Z.b2z (b v))) < 1 # 20)%Q) ->
  classical_solution self true
  = Ok (inl (bits_string (map b (iter_binary_vars mdl)))).
Proof.
  intros Hmdl Hsolve Hvalid Hbits.
  unfold classical_solution, the_model. rewrite Hmdl. cbn [Py.bind].
  rewrite Hsolve. unfold Solution.
  rewrite (string_loop s b _ EmptyString Hbits). cbn [Py.bind solved].
  now rewrite Hvalid.
Qed.

Lemma fold_raised {A B} (f : Py.result B -> A -> Py.result B) l e :
  (forall a, f (Raise e) a = Raise e) -> fold_left f l (Raise e) = Raise e.
Proof.
  intros Hf. induction l as [|a l IH]; cbn [fold_left]; [reflexivity|].
  now rewrite Hf.
Qed.

(** X10.  How [classical_solution] fails on an instance with its model
    and its solution dictionary.  When the solver finds nothing
    ([solve()] returns [None]) it raises [AttributeError], at the first
    [get_value] or, on a model without variables, at
    [is_valid_solution]; its own [ValueError] is raised exactly when the
    solver returns a solution object it reports as not valid; on a
    valid one the method returns. *)
Theorem classical_solution_failures self mdl sol string_ :
  cplex_model self = Some mdl ->
  solution self = Some sol ->
  match solve mdl with
  | None =>
      classical_solution self string_
      = Raise (AttributeError match iter_binary_vars mdl with
                              | [] => "is_valid_solution"
                              | _ :: _ => "get_value"
                              end)
  | Some s =>
      if is_valid_solution s
      then Py.is_ok (classical_solution self string_) = true
      else classical_solution self string_
           = Raise (ValueError "The Cplex solver does not find a solution.")
  end.
Proof.
  intros Hmdl Hsol. unfold classical_solution, the_model.
  rewrite Hmdl, Hsol. cbn [Py.bind].
  set (start0 := if string_ then Ok (@inl string Solution EmptyString)
                 else Ok (inr sol)).
  assert (Hstart : exists start, start0 = Ok start).
  { subst start0. destruct string_; eexists; reflexivity. }
  destruct Hstart as [start ->]. cbn [Py.bind].
  destruct (solve mdl) as [s|].
  - match goal with
    | |- context [fold_left ?body _ _] =>
        assert (Hfold : forall vars acc, exists acc',
                  fold_left body vars (Ok acc) = Ok acc')
    end.
    { induction vars as [|v vars IH]; intros acc; cbn [fold_left].
      - now exists acc.
      - cbn [Py.bind solved].
        destruct (round_to_int_total (get_value s v)) as [z ->].
        cbn [Py.bind]. destruct acc; apply IH. }
    unfold Solution in *.
    destruct (Hfold (iter_binary_vars mdl) start) as [acc' ->].
    cbn [Py.bind solved].
    destruct (is_valid_solution s); reflexivity.
  - destruct (iter_binary_vars mdl) as [|v vars].
    + reflexivity.
    + cbn [fold_left Py.bind solved]. rewrite fold_raised; reflexivity.
Qed.

(** *** [find_penalty_terms] and its objective *)

(** X11.  When [find_penalty_terms] cannot tune.  On an instance without
    weights it raises the [ValueError] of [min()].  On an instance whose
    weights are all equal to a value of at most 1 (unit weights, say),
    asked for at least one random instance, it raises the [ValueError]
    of [random_instance], which is given equal bounds; the check for
    this case in the method itself does not fire.  In both cases the
    instance is left as it was. *)
Theorem find_penalty_terms_refuses self penalty0 n_items n_mdls :
  (weights self = [] ->
   find_penalty_terms penalty0 n_items n_mdls self
   = (self, Raise (ValueError "min() arg is an empty sequence")))
  /\ (forall w rng,
        py_min (weights self) = Ok w -> py_max (weights self) = Ok w ->
        w <= 1 -> 0 < n_mdls -> np_random_seed 0 = Ok rng ->
        find_penalty_terms penalty0 n_items n_mdls self
        = (self, Raise (ValueError ("min_weight: " ++ Py.str w
                                    ++ " must be < max_weight:" ++ Py.str w)%string))).
Proof.
  split.
  - intros Hw. unfold find_penalty_terms.
    unfold bindM at 1. cbn [gets]. unfold bindM at 1. cbn [lift].
    now rewrite Hw.
  - intros w rng Hlo Hhi Hw Hn Hseed. unfold find_penalty_terms.
    unfold bindM at 1. cbn [gets]. unfold bindM at 1. cbn [lift]. rewrite Hlo.
    unfold bindM at 1. cbn [gets]. unfold bindM at 1. cbn [lift]. rewrite Hhi.
    unfold bindM at 1. rewrite Z.eqb_refl.
    destruct (Z.ltb_spec 1 w); [lia|]. cbn [andb ret].
    unfold bindM at 1.
    replace n_mdls with (Z.of_nat (S (Z.to_nat (n_mdls - 1)))) by lia.
    rewrite range_cons. cbn [foldM].
    unfold bindM at 1. unfold bindM at 1. cbn [gets lift].
    unfold add_instance. rewrite init_with_method. cbn [Py.bind Py.set].
    unfold getitem at 1. cbn [Py.get]. rewrite Z.eqb_refl. cbn [Py.bind].
    rewrite (random_instance_unfold _ _ _ _ _ _ _ _ Hseed). cbv zeta.
    now rewrite Z.leb_refl.
Qed.

(** X12.  With [callback=True] the objective [get_penalty] looks at the
    first problem only: it returns from inside its loop, so the report
    (the one [find_penalty_terms] returns) is that of the first problem,
    however many there are.  With no problem at all the result is the
    number 0, also with [callback=True]. *)
Theorem get_penalty_callback_first_only self penalty sol_str :
  (forall k problem rest,
     get_penalty self penalty ((k, problem) :: rest) sol_str true
     = get_penalty self penalty [(k, problem)] sol_str true)
  /\ (forall callback,
        get_penalty self penalty [] sol_str callback
        = Ok (Objective (inject_Z 0 - 0)%Q)).
Proof.
  split; [|reflexivity].
  intros k problem rest. unfold get_penalty.
  cbn [Py.keys map fst get_penalty_loop].
  unfold getitem. cbn [Py.get]. rewrite Z.eqb_refl. cbn [Py.bind].
  reflexivity.
Qed.

End MoreTuning.

Lemma classical_solution_bits_witness :
  classical_solution (vendor := BinpackingExample.ex_vendor)
    (BinpackingExample.built BinpackingExample.three_items) true
  = Ok (inl "0000000").
Proof.
  apply (classical_solution_bits (vendor := BinpackingExample.ex_vendor)
           (BinpackingExample.built BinpackingExample.three_items)
           BinpackingExample.three_items_model
           {| get_value := fun _ => 0%Q; is_valid_solution := true |}
           (fun _ => false)).
  - reflexivity.
  - reflexivity.
  - reflexivity.
  - intros v _. reflexivity.
Defined.

Lemma classical_solution_failures_witness :
  classical_solution (vendor := BinpackingExample.unsolved_vendor)
    (BinpackingExample.built BinpackingExample.three_items) false
  = Raise (AttributeError "get_value").
Proof.
  refine (classical_solution_failures (vendor := BinpackingExample.unsolved_vendor)
            (BinpackingExample.built BinpackingExample.three_items)
            BinpackingExample.three_items_model _ false _ _).
  - reflexivity.
  - reflexivity.
Defined.

Lemma find_penalty_terms_refuses_witness :
  find_penalty_terms (vendor := BinpackingExample.ex_vendor)
    [1 # 10]%Q 3 3 (init_fields default_args)
  = (init_fields default_args,
     Raise (ValueError "min() arg is an empty sequence"))
  /\ find_penalty_terms (vendor := BinpackingExample.ex_vendor)
       [1 # 10]%Q 3 3
       (BinpackingExample.built
          (BinpackingExample.args [1; 1; 1] 2 None true "slack" (PList [])))
     = (BinpackingExample.built
          (BinpackingExample.args [1; 1; 1] 2 None true "slack" (PList [])),
        Raise (ValueError "min_weight: 1 must be < max_weight:1")).
Proof.
  split.
  - apply (proj1 (find_penalty_terms_refuses
                    (vendor := BinpackingExample.ex_vendor)
                    (init_fields default_args) [1 # 10]%Q 3 3)).
    reflexivity.
  - apply (proj2 (find_penalty_terms_refuses
                    (vendor := BinpackingExample.ex_vendor)
                    (BinpackingExample.built
                       (BinpackingExample.args [1; 1; 1] 2 None true "slack"
                          (PList [])))
                    [1 # 10]%Q 3 3) 1 0).
    + reflexivity.
    + reflexivity.
    + lia.
    + lia.
    + reflexivity.
Defined.

(** *** [plot_solution] *)

Lemma plot_items_app self sol j items : forall ax0 ax s,
  plot_items self sol j items (ax0 ++ ax) s
  = (ax0 ++ fst (plot_items self sol j items ax s),
     snd (plot_items self sol j items ax s)).
Proof.
  induction items as [|i items IH]; intros ax0 ax s; cbn [plot_items].
  - reflexivity.
  - destruct (getitem Var_eqb name sol (x_ i j)) as [xij|e]; [|reflexivity].
    destruct (truthy xij); [|apply IH].
    destruct (Py.index (weights self) i) as [w|e]; [|reflexivity].
    rewrite <- app_assoc. apply IH.
Qed.

Lemma plot_bins_app self sol bins : forall ax0 ax,
  plot_bins self sol bins (ax0 ++ ax)
  = (ax0 ++ fst (plot_bins self sol bins ax), snd (plot_bins self sol bins ax)).
Proof.
  induction bins as [|j bins IH]; intros ax0 ax; cbn [plot_bins].
  - reflexivity.
  - destruct (getitem Var_eqb name sol (y_ j)) as [yj|e]; [|reflexivity].
    destruct (truthy yj); [|apply IH].
    rewrite plot_items_app.
    destruct (plot_items self sol j (Py.range (n_items self)) ax 0)
      as [ax1 [s|e]]; cbn [fst snd]; [apply IH | reflexivity].
Qed.

(** X15.  Called with an [ax], [plot_solution] never returns.  It draws
    on the given axes exactly what it draws on the axes of a new figure
    when called without, and where that call returns its figure this one
    raises [UnboundLocalError]: [fig] is bound only in the branch that
    creates the figure. *)
Theorem plot_solution_given_axes self solution ax :
  plot_solution self solution (Some ax)
  = (ax ++ fst (plot_solution self solution None),
     match snd (plot_solution self solution None) with
     | Ok _ => Raise (UnboundLocalError "fig")
     | Raise e => Raise e
     end).
Proof.
  unfold plot_solution.
  destruct (match solution with
            | inl text => decode_solution self text
            | inr d => Ok d
            end) as [sol|e].
  - replace (plot_bins self sol (Py.range (n_bins self)) ax)
      with (plot_bins self sol (Py.range (n_bins self)) (ax ++ []))
      by now rewrite app_nil_r.
    rewrite plot_bins_app.
    destruct (plot_bins self sol (Py.range (n_bins self)) []) as [ax1 [[]|e]];
      cbn [fst snd]; [now rewrite app_assoc | reflexivity].
  - cbn. now rewrite app_nil_r.
Qed.

Lemma height_at_app x a b : height_at x (a ++ b) = height_at x a + height_at x b.
Proof.
  induction a as [|[x' h b' l c| | | | |] a IH]; cbn [app height_at];
    rewrite ?IH; lia.
Qed.

Lemma stacked_nil : stacked [].
Proof. intros [|a pre] x h b l c post E; discriminate. Qed.

(** Appending one artist: a bar has to start at the current height. *)
Lemma stacked_snoc ax a :
  stacked ax ->
  match a with
  | Bar x h b _ _ => b = height_at x ax
  | _ => True
  end ->
  stacked (ax ++ [a]).
Proof.
  intros Hax Ha pre x h b l c post E.
  destruct post as [|p post] using rev_ind.
  - apply app_inj_tail in E as [-> ->]. exact Ha.
  - clear IHpost. rewrite app_comm_cons, app_assoc in E.
    apply app_inj_tail in E as [-> _]. eapply Hax. reflexivity.
Qed.

Lemma stacked_decorations self ax : stacked ax -> stacked (ax ++ decorations self).
Proof.
  intros H. unfold decorations.
  change [?a; ?b; ?c; ?d; ?e] with ([a] ++ [b] ++ [c] ++ [d] ++ [e]).
  rewrite !app_assoc.
  repeat (apply stacked_snoc; [|exact I]). exact H.
Qed.

(** The loop over the items of bin [j], between bars: what it adds is
    stacked onto the bin, and it touches no other bin. *)
Lemma plot_items_stacked self sol j items : forall ax s,
  stacked ax -> s = height_at j ax ->
  stacked (fst (plot_items self sol j items ax s))
  /\ (forall j', j' <> j ->
        height_at j' (fst (plot_items self sol j items ax s)) = height_at j' ax).
Proof.
  induction items as [|i items IH]; intros ax s Hax Hs; cbn [plot_items].
  - split; [exact Hax | reflexivity].
  - destruct (getitem Var_eqb name sol (x_ i j)) as [xij|e];
      [|split; [exact Hax | reflexivity]].
    destruct (truthy xij); [|now apply IH].
    destruct (Py.index (weights self) i) as [w|e];
      [|split; [exact Hax | reflexivity]].
    destruct (IH (ax ++ [Bar j w s ("item " ++ Py.str i)%string i]) (s + w))
      as [H1 H2].
    + apply stacked_snoc; assumption.
    + rewrite height_at_app. cbn [height_at]. rewrite Z.eqb_refl. lia.
    + split; [exact H1|]. intros j' Hj'. rewrite (H2 j' Hj'), height_at_app.
      cbn [height_at]. destruct (Z.eqb_spec j j'); [congruence | lia].
Qed.

Lemma plot_bins_stacked self sol bins : forall ax,
  NoDup bins -> stacked ax ->
  (forall j, In j bins -> height_at j ax = 0) ->
  stacked (fst (plot_bins self sol bins ax)).
Proof.
  induction bins as [|j bins IH]; intros ax Hnd Hax Hclear; cbn [plot_bins].
  - exact Hax.
  - inversion Hnd as [|? ? Hj Hnd']; subst.
    destruct (getitem Var_eqb name sol (y_ j)) as [yj|e]; [|exact Hax].
    destruct (truthy yj).
    + destruct (plot_items_stacked self sol j (Py.range (n_items self)) ax 0 Hax)
        as [H1 H2].
      { symmetry. apply Hclear. now left. }
      destruct (plot_items self sol j (Py.range (n_items self)) ax 0)
        as [ax1 [s|e]]; cbn [fst] in *; [|exact H1].
      apply IH; try assumption.
      intros j' Hj'. rewrite H2; [apply Hclear; now right|].
      intros ->. contradiction.
    + apply IH; try assumption. intros j' Hj'. apply Hclear. now right.
Qed.

(** X16.  The bars of a bin are stacked: on the axes of a new figure,
    every bar [plot_solution] draws starts at the height the bars drawn
    before it in the same bin reach together (its [bottom] is the sum of
    their weights), whatever the instance and the solution, and also
    when the call raises part-way. *)
Theorem plot_solution_stacks_bars self solution :
  stacked (fst (plot_solution self solution None)).
Proof.
  unfold plot_solution.
  destruct (match solution with
            | inl text => decode_solution self text
            | inr d => Ok d
            end) as [sol|e]; [|apply stacked_nil].
  pose proof (plot_bins_stacked self sol (Py.range (n_bins self)) []
                (NoDup_range _) stacked_nil (fun _ _ => eq_refl)) as H.
  destruct (plot_bins self sol (Py.range (n_bins self)) []) as [ax [[]|e]];
    cbn [fst] in *; [|exact H].
  now apply stacked_decorations.
Qed.

Lemma getitem_ok {K V} eqb show (d : Py.dict (K := K) (V := V)) k v :
  getitem eqb show d k = Ok v -> Py.get eqb k d = Some v.
Proof. unfold getitem. destruct (Py.get eqb k d); congruence. Qed.

Lemma index_ok_nth (l : list Z) i a :
  0 <= i -> Py.index l i = Ok a -> nth (Z.to_nat i) l 0 = a.
Proof.
  intros Hi. unfold Py.index.
  destruct (Z.ltb_spec i 0); [lia|].
  destruct (Z.ltb_spec i 0); [lia|].
  destruct (nth_error l (Z.to_nat i)) eqn:E; [|discriminate].
  intros [= <-]. now apply nth_error_nth.
Qed.

(** What a completed loop over the items adds to bin [j]. *)
Lemma plot_items_height self sol j items : forall ax s ax' s',
  (forall i, In i items -> 0 <= i) ->
  plot_items self sol j items ax s = (ax', Ok s') ->
  height_at j ax'
  = height_at j ax
    + Np.sum (map (fun i =>
                     match Py.get Var_eqb (x_ i j) sol with
                     | Some xij =>
                         if truthy xij then nth (Z.to_nat i) (weights self) 0 else 0
                     | None => 0
                     end) items)
  /\ (forall j', j' <> j -> height_at j' ax' = height_at j' ax).
Proof.
  induction items as [|i items IH]; intros ax s ax' s' Hpos; cbn [plot_items].
  - intros [= <- <-]. cbn. split; [lia | reflexivity].
  - destruct (getitem Var_eqb name sol (x_ i j)) as [xij|e] eqn:Ex;
      [|discriminate].
    apply getitem_ok in Ex. cbn [map Np.sum fold_right]. rewrite Ex.
    assert (Hpos' : forall i', In i' items -> 0 <= i')
      by (intros; apply Hpos; now right).
    destruct (truthy xij).
    + destruct (Py.index (weights self) i) as [w|e] eqn:Ew; [|discriminate].
      apply index_ok_nth in Ew; [|apply Hpos; now left]. rewrite Ew.
      intros Hrun. destruct (IH _ _ _ _ Hpos' Hrun) as [H1 H2].
      fold (Np.sum (map (fun i0 =>
                           match Py.get Var_eqb (x_ i0 j) sol with
                           | Some xij0 =>
                               if truthy xij0
                               then nth (Z.to_nat i0) (weights self) 0 else 0
                           | None => 0
                           end) items)) in *.
      rewrite height_at_app in H1. cbn [height_at] in H1.
      rewrite Z.eqb_refl in H1. split; [unfold Np.sum in *; lia|].
      intros j' Hj'. rewrite (H2 j' Hj'), height_at_app. cbn [height_at].
      destruct (Z.eqb_spec j j'); [congruence | lia].
    + intros Hrun. destruct (IH _ _ _ _ Hpos' Hrun) as [H1 H2].
      split; [unfold Np.sum in *; lia | exact H2].
Qed.

Lemma plot_bins_height self sol bins : forall ax ax',
  NoDup bins ->
  plot_bins self sol bins ax = (ax', Ok tt) ->
  (forall j, In j bins -> height_at j ax' = height_at j ax + load self sol j)
  /\ (forall j, ~ In j bins -> height_at j ax' = height_at j ax).
Proof.
  induction bins as [|j bins IH]; intros ax ax' Hnd; cbn [plot_bins].
  - intros [= <-]. split; [intros j [] | reflexivity].
  - inversion Hnd as [|? ? Hj Hnd']; subst.
    destruct (getitem Var_eqb name sol (y_ j)) as [yj|e] eqn:Ey; [|discriminate].
    apply getitem_ok in Ey.
    destruct (truthy yj) eqn:Ty.
    + destruct (plot_items self sol j (Py.range (n_items self)) ax 0)
        as [ax1 [s|e]] eqn:Eitems; [|discriminate].
      intros Hrun. destruct (IH _ _ Hnd' Hrun) as [H1 H2].
      destruct (plot_items_height self sol j _ _ _ _ _
                  (fun i Hi => proj1 (proj1 (in_range i _) Hi)) Eitems)
        as [H3 H4].
      split.
      * intros j' [<-|Hj'].
        -- rewrite (H2 j Hj), H3. unfold load. now rewrite Ey, Ty.
        -- rewrite (H1 j' Hj'), H4; [reflexivity|]. intros ->. contradiction.
      * intros j' Hj'. rewrite H2 by (intros H; apply Hj'; now right).
        apply H4. intros ->. apply Hj'. now left.
    + intros Hrun. destruct (IH _ _ Hnd' Hrun) as [H1 H2]. split.
      * intros j' [<-|Hj'].
        -- rewrite (H2 j Hj). unfold load. rewrite Ey, Ty. lia.
        -- now apply H1.
      * intros j' Hj'. apply H2. intros H. apply Hj'. now right.
Qed.

(** X17.  The picture shows the loads: when [plot_solution] returns a
    figure for a solution dictionary, the bars of every bin reach
    together the total weight of the items the solution puts into that
    bin (nothing for a bin whose [y_j] is false), and there is no bar
    outside the bins. *)
Theorem plot_solution_heights self sol fig j :
  snd (plot_solution self (inr sol) None) = Ok fig ->
  height_at j fig
  = if (0 <=? j) && (j <? n_bins self) then load self sol j else 0.
Proof.
  unfold plot_solution.
  destruct (plot_bins self sol (Py.range (n_bins self)) []) as [ax [[]|e]] eqn:E;
    [|discriminate].
  cbn [snd]. intros [= <-].
  destruct (plot_bins_height self sol _ _ _ (NoDup_range _) E) as [H1 H2].
  rewrite height_at_app.
  replace (height_at j (decorations self)) with 0 by reflexivity.
  rewrite Z.add_0_r.
  destruct (Z.leb_spec 0 j); destruct (Z.ltb_spec j (n_bins self)); cbn [andb].
  - rewrite H1 by (apply in_range; lia). reflexivity.
  - apply H2. rewrite in_range. lia.
  - apply H2. rewrite in_range. lia.
  - apply H2. rewrite in_range. lia.
Qed.

(** *** [normalizing] *)

Lemma insert_unique_in q l x :
  In x (Np.insert_unique q l) -> x = q \/ In x l.
Proof.
  induction l as [|a l IH]; cbn.
  - intuition congruence.
  - destruct (q ?= a)%Q; cbn; intuition congruence.
Qed.

Lemma insert_unique_keeps q l x : In x l -> In x (Np.insert_unique q l).
Proof.
  induction l as [|a l IH]; cbn; [tauto|].
  destruct (q ?= a)%Q; cbn; tauto.
Qed.

Lemma insert_unique_has q l : exists y, In y (Np.insert_unique q l) /\ (y == q)%Q.
Proof.
  induction l as [|a l IH]; cbn.
  - exists q. split; [now left | reflexivity].
  - destruct (Qcompare_spec q a) as [E|E|E].
    + exists a. split; [now left | now symmetry].
    + exists q. split; [now left | reflexivity].
    + destruct IH as (y & Hy & E'). exists y. split; [now right | exact E'].
Qed.

Lemma insert_unique_sorted q l :
  StronglySorted Qlt l -> StronglySorted Qlt (Np.insert_unique q l).
Proof.
  induction l as [|a l IH]; intros Hs; cbn.
  - repeat constructor.
  - inversion Hs as [|? ? Hl Ha]; subst.
    destruct (Qcompare_spec q a) as [E|E|E].
    + exact Hs.
    + constructor; [exact Hs|]. constructor; [exact E|].
      eapply Forall_impl; [|exact Ha]. intros b Hb. now apply (Qlt_trans _ a).
    + constructor; [now apply IH|].
      apply Forall_forall. intros x Hx.
      apply insert_unique_in in Hx as [->|Hx]; [exact E|].
      now apply (proj1 (Forall_forall _ _) Ha).
Qed.

Lemma unique_sorted l : StronglySorted Qlt (Np.unique l).
Proof.
  induction l as [|a l IH]; cbn; [constructor | now apply insert_unique_sorted].
Qed.

Lemma unique_in l x : In x (Np.unique l) -> In x l.
Proof.
  induction l as [|a l IH]; cbn; [tauto|].
  intros H. apply insert_unique_in in H. intuition congruence.
Qed.

Lemma unique_has l x : In x l -> exists y, In y (Np.unique l) /\ (y == x)%Q.
Proof.
  induction l as [|a l IH]; cbn; [tauto|].
  intros [<-|Hx].
  - apply insert_unique_has.
  - destruct (IH Hx) as (y & Hy & E). exists y. split; [|exact E].
    now apply insert_unique_keeps.
Qed.

Lemma insert_index_last x acc :
  Forall (fun a => (fst a <= fst x)%Q) acc -> Np.insert_index x acc = acc ++ [x].
Proof.
  induction acc as [|a acc IH]; intros H; cbn; [reflexivity|].
  inversion H as [|? ? Ha Hacc]; subst.
  rewrite (proj2 (Qle_bool_iff _ _) Ha). now rewrite IH.
Qed.

Lemma fold_insert_index pairs : forall acc,
  StronglySorted (fun a b : Q * Z => (fst a <= fst b)%Q) (acc ++ pairs) ->
  fold_left (fun sorted x => Np.insert_index x sorted) pairs acc = acc ++ pairs.
Proof.
  induction pairs as [|x pairs IH]; intros acc Hs; cbn [fold_left].
  - now rewrite app_nil_r.
  - rewrite insert_index_last.
    + rewrite IH; rewrite <- app_assoc; [reflexivity | exact Hs].
    + apply Forall_forall. intros a Ha.
      clear IH. induction acc as [|b acc IHacc]; [destruct Ha|].
      cbn in Hs. inversion Hs as [|? ? Hrest Hb]; subst.
      destruct Ha as [->|Ha]; [|now apply IHacc].
      apply (proj1 (Forall_forall _ _) Hb). apply in_or_app. right. now left.
Qed.

Lemma sorted_combine l : forall (l2 : list Z),
  StronglySorted Qlt l ->
  StronglySorted (fun a b : Q * Z => (fst a <= fst b)%Q) (combine l l2).
Proof.
  induction l as [|a l IH]; intros [|b l2] Hs; cbn; try constructor.
  - inversion Hs; subst. now apply IH.
  - inversion Hs as [|? ? Hl Ha]; subst.
    apply Forall_forall. intros [q z] Hin. cbn.
    apply in_combine_l in Hin. apply Qlt_le_weak.
    now apply (proj1 (Forall_forall _ _) Ha).
Qed.

Lemma argsort_sorted l :
  StronglySorted Qlt l -> Np.argsort l = Py.range (Py.len l).
Proof.
  intros Hs. unfold Np.argsort.
  rewrite (fold_insert_index _ []); [|now apply sorted_combine].
  cbn [app]. apply map_snd_combine.
  unfold Py.len. now rewrite length_range.
Qed.

(** The last element of a strictly increasing list is its greatest. *)
Lemma sorted_last l m :
  StronglySorted Qlt l ->
  nth_error l (List.length l - 1) = Some m ->
  forall x, In x l -> (x <= m)%Q.
Proof.
  induction l as [|a l IH]; intros Hs Hm x Hx; [destruct Hx|].
  inversion Hs as [|? ? Hl Ha]; subst.
  destruct l as [|b l].
  - cbn in Hm. injection Hm as <-. destruct Hx as [->|[]]. apply Qle_refl.
  - cbn [List.length] in Hm.
    replace (S (S (List.length l)) - 1)%nat with (S (List.length l)) in Hm by lia.
    cbn [nth_error] in Hm.
    assert (Hm' : nth_error (b :: l) (List.length (b :: l) - 1) = Some m).
    { cbn [List.length]. now replace (S (List.length l) - 1)%nat with (List.length l) by lia. }
    destruct Hx as [->|Hx]; [|now apply IH].
    apply Qlt_le_weak.
    apply (proj1 (Forall_forall _ _) Ha). eapply nth_error_In. exact Hm'.
Qed.

Lemma index_last {A} (l : list A) a :
  nth_error l (List.length l - 1) = Some a -> l <> [] ->
  Py.index l (-1) = Ok a.
Proof.
  intros Ha Hne. unfold Py.index, Py.len. cbn [Z.ltb Z.compare].
  destruct l as [|b l]; [contradiction|].
  destruct (Z.ltb_spec (-1 + Z.of_nat (List.length (b :: l))) 0);
    [cbn [List.length] in *; lia|].
  replace (Z.to_nat (-1 + Z.of_nat (List.length (b :: l))))
    with (List.length (b :: l) - 1)%nat by (cbn [List.length]; lia).
  now rewrite Ha.
Qed.

Lemma nth_error_last {A} (l : list A) :
  l <> [] -> exists a, nth_error l (List.length l - 1) = Some a.
Proof.
  intros Hne. destruct (nth_error l (List.length l - 1)) eqn:E; [eauto|].
  apply nth_error_None in E. destruct l; [contradiction | cbn in E; lia].
Qed.

(** Selecting with [normalized = -1]: the largest absolute weight. *)
Lemma largest_abs_weight ws :
  ws <> [] ->
  exists m,
    (k <- Py.index (Np.argsort (Np.unique (map Qabs ws))) (-1) ;;
     Py.index (Np.unique (map Qabs ws)) k) = Ok m
    /\ (exists w, In w ws /\ m = Qabs w)
    /\ (forall w, In w ws -> (Qabs w <= m)%Q).
Proof.
  intros Hne. set (u := Np.unique (map Qabs ws)).
  assert (Hu : u <> []).
  { destruct ws as [|w ws]; [contradiction|].
    destruct (unique_has (map Qabs (w :: ws)) (Qabs w) (or_introl eq_refl))
      as (y & Hy & _).
    intros E. fold u in Hy. rewrite E in Hy. destruct Hy. }
  destruct (nth_error_last u Hu) as [m Hm]. exists m.
  rewrite argsort_sorted by apply unique_sorted.
  assert (Hlen : List.length (Py.range (Py.len u)) = List.length u).
  { unfold Py.len. apply length_range. }
  rewrite (index_last (Py.range (Py.len u)) (Z.of_nat (List.length u - 1))).
  - cbn [Py.bind]. split; [|split].
    + unfold Py.index.
      destruct (Z.ltb_spec (Z.of_nat (List.length u - 1)) 0); [lia|].
      destruct (Z.ltb_spec (Z.of_nat (List.length u - 1)) 0); [lia|].
      rewrite Nat2Z.id. now rewrite Hm.
    + apply nth_error_In in Hm. apply unique_in in Hm.
      apply in_map_iff in Hm as (w & E & Hw). now exists w.
    + intros w Hw.
      destruct (unique_has (map Qabs ws) (Qabs w) (in_map Qabs _ _ Hw))
        as (y & Hy & E).
      rewrite <- E. apply (sorted_last u m (unique_sorted _) Hm). exact Hy.
  - rewrite Hlen. unfold Py.len, Py.range, Py.range2. rewrite Z.sub_0_r, Nat2Z.id.
    rewrite nth_error_map, nth_error_seq.
    destruct u; [contradiction|]. cbn [List.length].
    destruct (Nat.ltb_spec (S (List.length u) - 1) (S (List.length u))); [|lia].
    cbn [option_map]. f_equal; lia.
  - intros E. apply Hu. apply length_zero_iff_nil. rewrite <- Hlen, E. reflexivity.
Qed.

Lemma divide_positive a m : (0 < m)%Q -> Np.divide a m = Np.Finite (a / m).
Proof.
  intros Hm. unfold Np.divide.
  destruct (Qeq_bool m 0) eqn:E; [|reflexivity].
  apply Qeq_bool_eq in E. rewrite E in Hm. now apply Qlt_irrefl in Hm.
Qed.

(** X18.  With the default [normalized = -1], [normalizing] divides by
    the largest absolute weight: on a problem with a non-zero weight
    (and an instance that has [n_vars]) the weights handed to [QUBO] are
    the problem's weights and then its constant, each divided by the
    largest absolute value [m] among the weights, so that every
    normalised weight lies between -1 and 1. *)
Theorem normalizing_scales_by_largest self problem n :
  n_vars self = Some n ->
  (exists w, In w (QUBO.weights problem) /\ ~ (w == 0)%Q) ->
  exists m,
    (0 < m)%Q
    /\ (exists w, In w (QUBO.weights problem) /\ m = Qabs w)
    /\ (forall w, In w (QUBO.weights problem) -> (Qabs w <= m)%Q)
    /\ snd (normalizing self problem (-1))
       = Ok {| QUBO.n := n;
               QUBO.call_terms := QUBO.terms problem ++ [[]];
               QUBO.call_weights :=
                 map (fun w => Np.Finite (w / m)) (QUBO.weights problem)
                 ++ [Np.Finite (QUBO.constant problem / m)] |}
    /\ (forall w, In w (QUBO.weights problem) -> (Qabs (w / m) <= 1)%Q).
Proof.
  intros Hn (w0 & Hw0 & Hnz).
  assert (Hne : QUBO.weights problem <> []) by (intros E; rewrite E in Hw0; destruct Hw0).
  destruct (largest_abs_weight _ Hne) as (m & Hsel & Hmax & Hle).
  assert (Hm : (0 < m)%Q).
  { apply Qlt_le_trans with (Qabs w0); [|now apply Hle].
    destruct (Qlt_le_dec 0 (Qabs w0)) as [H|H]; [exact H|].
    exfalso. apply Hnz. apply Qabs_Qle_condition in H. 
    destruct H as [H1 H2]. apply Qle_antisym; [exact H2 | exact H1]. }
  exists m. repeat (split; [assumption|]). split.
  - unfold normalizing. rewrite Hsel, Hn. cbn [snd QUBO.append_term QUBO.terms QUBO.constant].
    f_equal. f_equal. f_equal.
    + apply map_ext. intros w. now apply divide_positive.
    + now rewrite divide_positive.
  - intros w Hw. apply Qabs_Qle_condition. specialize (Hle w Hw).
    apply Qabs_Qle_condition in Hle as [H1 H2]. split.
    + apply Qle_shift_div_l; [exact Hm|]. lra.
    + apply Qle_shift_div_r; [exact Hm|]. lra.
Qed.

(** X19.  [normalizing] changes the problem it is given: the empty term
    is appended to [problem.terms] itself, the list that is then handed
    to [QUBO], while the weights are copied.  So the problem is left
    with one term more than weights, and normalising the same problem
    again hands [QUBO] the same weights with two empty terms, one term
    more than there are weights. *)
Theorem normalizing_appends_to_its_argument self problem normalized problem1 call1 :
  normalizing self problem normalized = (problem1, Ok call1) ->
  QUBO.terms problem1 = QUBO.terms problem ++ [[]]
  /\ QUBO.weights problem1 = QUBO.weights problem
  /\ QUBO.constant problem1 = QUBO.constant problem
  /\ QUBO.call_terms call1 = QUBO.terms problem1
  /\ List.length (QUBO.call_weights call1) = S (List.length (QUBO.weights problem))
  /\ exists problem2 call2,
       normalizing self problem1 normalized = (problem2, Ok call2)
       /\ QUBO.call_weights call2 = QUBO.call_weights call1
       /\ QUBO.call_terms call2 = QUBO.terms problem ++ [[]; []].
Proof.
  unfold normalizing at 1.
  destruct (k <- Py.index (Np.argsort (Np.unique (map Qabs (QUBO.weights problem))))
                          normalized ;;
            Py.index (Np.unique (map Qabs (QUBO.weights problem))) k)
    as [m|e] eqn:Esel; [|discriminate].
  destruct (n_vars self) as [n|] eqn:En; [|discriminate].
  intros [= <- <-]. cbn [QUBO.terms QUBO.weights QUBO.constant QUBO.append_term
                         QUBO.call_terms QUBO.call_weights].
  repeat (split; [reflexivity|]). split.
  - rewrite length_app, length_map. cbn [List.length]. lia.
  - unfold normalizing. cbn [QUBO.terms QUBO.weights QUBO.constant QUBO.append_term].
    rewrite Esel, En. do 2 eexists. split; [reflexivity|].
    cbn [QUBO.call_terms QUBO.call_weights]. split; [reflexivity|].
    now rewrite <- app_assoc.
Qed.

(** *** [landscape_energy] *)

Section LandscapeFacts.
Context {workflow : Workflow}.

Lemma chunks_rows {A B} (f : A -> list B) (cols : nat) l :
  (forall a, In a l -> List.length (f a) = cols) ->
  Np.chunks (List.length l) cols (flat_map f l) = map f l.
Proof.
  induction l as [|a l IH]; intros Hlen; cbn [List.length Np.chunks flat_map map].
  - reflexivity.
  - assert (E1 : firstn cols (f a ++ flat_map f l) = f a).
    { rewrite <- (Hlen a (or_introl eq_refl)).
      rewrite firstn_app, Nat.sub_diag, firstn_all. cbn. apply app_nil_r. }
    assert (E2 : skipn cols (f a ++ flat_map f l) = flat_map f l).
    { rewrite <- (Hlen a (or_introl eq_refl)).
      rewrite skipn_app, Nat.sub_diag, skipn_all. reflexivity. }
    rewrite E1, E2. f_equal. apply IH. intros. apply Hlen. now right.
Qed.

Lemma landscape_loop_values (f : Angle * Angle -> Q) todo : forall qaoa landscape,
  (forall q p, exists q1 q2,
     update_from_raw q p = (q1, Ok tt) /\ expectation q1 = (q2, Ok (f p))) ->
  exists qaoa',
    landscape_loop todo qaoa landscape = (qaoa', Ok (landscape ++ map f todo)).
Proof.
  induction todo as [|p todo IH]; intros qaoa landscape H; cbn [landscape_loop map].
  - exists qaoa. now rewrite app_nil_r.
  - unfold cost_energy. destruct (H qaoa p) as (q1 & q2 & -> & ->).
    destruct (IH q2 (landscape ++ [f p]) H) as [q' ->].
    exists q'. now rewrite <- app_assoc.
Qed.

(** X20.  [landscape_energy] returns the grid of energies with one row
    per beta and one column per gamma: when updating the parameters and
    asking for the expectation succeed and the energy depends on the
    parameters only, entry [(i, j)] is the energy at
    [(betas[i], gammas[j])]. *)
Theorem landscape_energy_grid (f : Angle * Angle -> Q) qaoa_mdl betas gammas :
  (forall q p, exists q1 q2,
     update_from_raw q p = (q1, Ok tt) /\ expectation q1 = (q2, Ok (f p))) ->
  exists qaoa',
    landscape_energy qaoa_mdl betas gammas
    = (qaoa',
       Ok (map (fun beta => map (fun gamma => f (beta, gamma)) gammas) betas)).
Proof.
  intros H. unfold landscape_energy.
  destruct (landscape_loop_values f (list_prod betas gammas) qaoa_mdl [] H)
    as [q' ->].
  exists q'. cbn [app]. f_equal. unfold Np.reshape, Py.len.
  destruct (Z.ltb_spec (Z.of_nat (List.length betas)) 0); [lia|].
  destruct (Z.ltb_spec (Z.of_nat (List.length gammas)) 0); [lia|].
  cbn [orb]. rewrite length_map, length_prod.
  rewrite Nat2Z.inj_mul, Z.eqb_refl, !Nat2Z.id. f_equal.
  replace (map f (list_prod betas gammas))
    with (flat_map (fun beta => map (fun gamma => f (beta, gamma)) gammas) betas).
  - apply chunks_rows. intros. apply length_map.
  - clear. induction betas as [|b betas IH]; cbn; [reflexivity|].
    now rewrite map_app, map_map, IH.
Qed.

End LandscapeFacts.

Lemma plot_solution_heights_witness :
  height_at 0 BinpackingExample.ex_figure
  = if (0 <=? 0) && (0 <? n_bins (BinpackingExample.built BinpackingExample.three_items))
    then load (BinpackingExample.built BinpackingExample.three_items)
              BinpackingExample.packed 0
    else 0.
Proof.
  apply (plot_solution_heights
           (BinpackingExample.built BinpackingExample.three_items)
           BinpackingExample.packed BinpackingExample.ex_figure 0).
  vm_compute. reflexivity.
Defined.

(** The figure of that solution: bin 0 holds items 0 and 1, bin 1 holds
    item 2, bin 2 is empty. *)
Example plotted :
  snd (plot_solution (BinpackingExample.built BinpackingExample.three_items)
         (inl "0100010") None)
  = Ok [Bar 0 2 0 "item 0" 0; Bar 0 3 2 "item 1" 1; Bar 1 4 0 "item 2" 2;
        HLines 5 (- (1 # 2)) (inject_Z 3 - (1 # 2)) "Max Weight";
        XTicks [0; 1; 2]; XLabel "bin"; YLabel "weight";
        Legend (1 # 2) ((12 # 10) + (11 # 1000) * inject_Z 3)].
Proof. reflexivity. Qed.

Lemma normalizing_scales_by_largest_witness :
  exists m,
    (0 < m)%Q
    /\ (exists w, In w [2; -4]%Q /\ m = Qabs w)
    /\ (forall w, In w [2; -4]%Q -> (Qabs w <= m)%Q)
    /\ snd (normalizing (BinpackingExample.built BinpackingExample.three_items)
              BinpackingExample.ex_problem (-1))
       = Ok {| QUBO.n := 7;
               QUBO.call_terms := [[0; 1]; [0]; []];
               QUBO.call_weights :=
                 [Np.Finite (2 / m); Np.Finite (-4 / m); Np.Finite (1 / m)] |}
    /\ (forall w, In w [2; -4]%Q -> (Qabs (w / m) <= 1)%Q).
Proof.
  apply (normalizing_scales_by_largest
           (BinpackingExample.built BinpackingExample.three_items)
           BinpackingExample.ex_problem 7).
  - reflexivity.
  - exists (-4)%Q. split; [right; left; reflexivity | discriminate].
Defined.

Lemma normalizing_appends_to_its_argument_witness :
  QUBO.terms (fst BinpackingExample.normalized_once) = [[0; 1]; [0]] ++ [[]]
  /\ QUBO.weights (fst BinpackingExample.normalized_once) = [2; -4]%Q
  /\ QUBO.constant (fst BinpackingExample.normalized_once) = 1%Q
  /\ QUBO.call_terms BinpackingExample.ex_call
     = QUBO.terms (fst BinpackingExample.normalized_once)
  /\ List.length (QUBO.call_weights BinpackingExample.ex_call) = 3%nat
  /\ exists problem2 call2,
       normalizing (BinpackingExample.built BinpackingExample.three_items)
         (fst BinpackingExample.normalized_once) (-1)
       = (problem2, Ok call2)
       /\ QUBO.call_weights call2 = QUBO.call_weights BinpackingExample.ex_call
       /\ QUBO.call_terms call2 = [[0; 1]; [0]] ++ [[]; []].
Proof.
  apply (normalizing_appends_to_its_argument
           (BinpackingExample.built BinpackingExample.three_items)
           BinpackingExample.ex_problem (-1)
           (fst BinpackingExample.normalized_once) BinpackingExample.ex_call).
  reflexivity.
Defined.

Lemma landscape_energy_grid_witness :
  exists qaoa',
    landscape_energy (workflow := BinpackingExample.ex_workflow)
      (0, 0)%Q [1; 2]%Q [3; 4; 5]%Q
    = (qaoa',
       Ok (map (fun beta => map (fun gamma => (beta * gamma)%Q) [3; 4; 5]%Q)
               [1; 2]%Q)).
Proof.
  apply (landscape_energy_grid (workflow := BinpackingExample.ex_workflow)
           (fun p => (fst p * snd p)%Q) (0, 0)%Q [1; 2]%Q [3; 4; 5]%Q).
  intros q p. exists p, p. split; reflexivity.
Defined.

(** X21.  The degenerate inputs of [normalizing].  A problem without
    weights raises [IndexError] and is left as it was.  A problem whose
    weights are all zero does not raise: the divisor is zero, every
    normalised weight is [nan] and the constant is divided by zero. *)
Theorem normalizing_degenerate self problem :
  (QUBO.weights problem = [] ->
   forall normalized,
     normalizing self problem normalized
     = (problem, Raise (IndexError "index out of range")))
  /\ (forall n,
        QUBO.weights problem <> [] ->
        (forall w, In w (QUBO.weights problem) -> (w == 0)%Q) ->
        n_vars self = Some n ->
        snd (normalizing self problem (-1))
        = Ok {| QUBO.n := n;
                QUBO.call_terms := QUBO.terms problem ++ [[]];
                QUBO.call_weights :=
                  map (fun _ => Np.NaN) (QUBO.weights problem)
                  ++ [Np.divide (QUBO.constant problem) 0] |}).
Proof.
  split.
  - intros Hw normalized. unfold normalizing. rewrite Hw.
    cbn [map Np.unique fold_right Np.argsort Py.len List.length combine
         fold_left Py.bind].
    unfold Py.index at 1.
    match goal with
    | |- context [if ?c then Raise _ else _] => destruct c; [reflexivity|]
    end.
    now destruct (Z.to_nat _).
  - intros n Hne Hzero Hn.
    destruct (largest_abs_weight _ Hne) as (m & Hsel & (w0 & Hw0 & Hm) & _).
    assert (Em : Qeq_bool m 0 = true).
    { apply Qeq_bool_iff. rewrite Hm, (Hzero w0 Hw0). reflexivity. }
    unfold normalizing. rewrite Hsel, Hn.
    cbn [snd QUBO.append_term QUBO.terms QUBO.constant].
    f_equal. f_equal. f_equal.
    + apply map_ext_in. intros w Hw. unfold Np.divide. rewrite Em.
      now rewrite (proj2 (Qeq_bool_iff _ _) (Hzero w Hw)).
    + unfold Np.divide. now rewrite Em.
Qed.

Section Decoding.
Context {vendor : Vendor}.

Lemma in_enumerate {A} (l : list A) n a :
  In (n, a) (enumerate l) ->
  0 <= n < Py.len l /\ nth_error l (Z.to_nat n) = Some a.
Proof.
  unfold enumerate, Py.range, Py.range2, Py.len. rewrite Z.sub_0_r, Nat2Z.id.
  assert (H : forall start,
            In (n, a) (combine (map (fun k => 0 + Z.of_nat k)
                                    (seq start (List.length l))) l) ->
            exists k, n = Z.of_nat (start + k) /\ nth_error l k = Some a).
  { induction l as [|x l IH]; intros start; cbn; [tauto|].
    intros [E|Hin].
    - injection E as <- <-. exists O. split; [f_equal; lia | reflexivity].
    - destruct (IH (S start) Hin) as (k & -> & Hk).
      exists (S k). split; [f_equal; lia | exact Hk]. }
  intros Hin. destruct (H O Hin) as (k & -> & Hk). cbn [Nat.add].
  rewrite Nat2Z.id. split; [|exact Hk].
  assert (k < List.length l)%nat by (apply nth_error_Some; congruence). lia.
Qed.

(** X22.  The two forms of the classical solution agree: the string
    [classical_solution(string=True)] returns, read back the way
    [plot_solution] reads a string (digit [n] for the [n]-th binary
    variable, on a copy of [self.solution]), is the dictionary
    [classical_solution()] returns.  This is for a valid solution whose
    values are within 0.05 of 0 or 1. *)
Theorem decode_classical_solution self mdl sol s (b : Var -> bool) :
  cplex_model self = Some mdl ->
  solution self = Some sol ->
  solve mdl = Some s ->
  is_valid_solution s = true ->
  (forall v, In v (iter_binary_vars mdl) ->
             (Qabs (get_value s v - inject_Z (Z.b2z (b v))) < 1 # 20)%Q) ->
  exists text d,
    classical_solution self true = Ok (inl text)
    /\ classical_solution self false = Ok (inr d)
    /\ decode_solution self text = Ok d
    /\ String.length text = List.length (iter_binary_vars mdl).
Proof.
  intros Hmdl Hsol Hsolve Hvalid Hbits.
  set (vars := iter_binary_vars mdl) in *.
  exists (bits_string (map b vars)),
         (fold_left (fun d v => Py.set Var_eqb v (Some (Z.b2z (b v))) d) vars sol).
  split; [|split; [|split]].
  - unfold classical_solution, the_model. rewrite Hmdl. cbn [Py.bind].
    rewrite Hsolve. unfold Solution. fold vars.
    rewrite (string_loop s b _ EmptyString Hbits). cbn [Py.bind solved].
    now rewrite Hvalid.
  - unfold classical_solution, the_model. rewrite Hmdl, Hsol. cbn [Py.bind].
    rewrite Hsolve. fold vars.
    match goal with
    | |- context [fold_left ?body _ _] =>
        assert (Hfold : forall l d0,
                  (forall v, In v l ->
                     (Qabs (get_value s v - inject_Z (Z.b2z (b v))) < 1 # 20)%Q) ->
                  fold_left body l (Ok (inr d0))
                  = Ok (inr (fold_left
                               (fun d v => Py.set Var_eqb v (Some (Z.b2z (b v))) d)
                               l d0)))
    end.
    { induction l as [|v l IH]; intros d0 Hl; cbn [fold_left]; [reflexivity|].
      cbn [Py.bind solved].
      rewrite (round_to_int_bit _ (b v)) by (apply Hl; now left).
      cbn [Py.bind]. apply IH. intros; apply Hl; now right. }
    unfold Solution in *. rewrite (Hfold vars sol Hbits). cbn [Py.bind solved].
    now rewrite Hvalid.
  - unfold decode_solution, the_model. rewrite Hmdl, Hsol. cbn [Py.bind].
    fold vars.
    assert (Hfold : forall (pairs : list (Z * Var)) d0,
              (forall n v, In (n, v) pairs ->
                 int_at (bits_string (map b vars)) (SInt n) = Ok (Z.b2z (b v))) ->
              fold_left (fun acc nv =>
                           sol0 <- acc ;;
                           b0 <- int_at (bits_string (map b vars)) (SInt (fst nv)) ;;
                           Ok (Py.set Var_eqb (snd nv) (Some b0) sol0))
                        pairs (Ok d0)
              = Ok (fold_left
                      (fun d v => Py.set Var_eqb v (Some (Z.b2z (b v))) d)
                      (map snd pairs) d0)).
    { induction pairs as [|[n v] pairs IH]; intros d0 Hp; cbn [fold_left map];
        [reflexivity|].
      cbn [Py.bind fst snd]. rewrite (Hp n v (or_introl eq_refl)).
      cbn [Py.bind]. apply IH. intros; apply Hp; now right. }
    unfold Solution in *. rewrite Hfold.
    + unfold enumerate. rewrite map_snd_combine; [reflexivity|].
      unfold Py.len. apply length_range.
    + intros n v Hin. apply in_enumerate in Hin as [Hn Hv].
      rewrite int_at_bit.
      * unfold bit_at. rewrite map_map.
        rewrite (nth_error_nth _ _ _ (map_nth_error (fun x => Z.b2z (b x)) _ _ Hv)).
        reflexivity.
      * unfold Py.len in *. now rewrite length_map.
  - unfold bits_string.
    assert (E : forall l, String.length (string_of_list_ascii l) = List.length l).
    { induction l as [|c l IH]; cbn; congruence. }
    now rewrite E, !length_map.
Qed.

End Decoding.

(** *** The model [docplex_model] builds *)

Lemma index_nth (l : list Z) i :
  0 <= i < Py.len l -> Py.index l i = Ok (nth (Z.to_nat i) l 0).
Proof.
  intros Hi. destruct (index_in_range l i Hi) as [a Ha].
  rewrite Ha. f_equal. symmetry. apply index_ok_nth; [lia | exact Ha].
Qed.

Section ModelLoops.
Variables mb items bins : Z.





End ModelLoops.

Lemma add_constraints_spec mdl cs :
  add_constraints mdl cs
  = {| model_name := model_name mdl; binary_vars := binary_vars mdl;
       objective := objective mdl; constraints := constraints mdl ++ cs |}.
Proof.
  revert mdl. induction cs as [|c cs IH]; intros mdl; cbn.
  - rewrite app_nil_r. now destruct mdl.
  - unfold add_constraints in IH. rewrite IH. cbn. now rewrite <- app_assoc.
Qed.

Lemma filter_y_variables items bins :
  filter starts_with_y (variables items bins) = map y_ (Py.range bins).
Proof.
  unfold variables. rewrite filter_app.
  replace (filter starts_with_y (flat_map _ (Py.range items))) with (@nil Var).
  - rewrite app_nil_r. apply forallb_filter_id. apply forallb_forall.
    intros v Hv. apply in_map_iff in Hv as (j & <- & _). reflexivity.
  - symmetry. induction (Py.range items) as [|i l IH]; [reflexivity|].
    cbn [flat_map]. rewrite filter_app, IH, app_nil_r.
    clear IH. induction (Py.range bins) as [|j r IHr]; [reflexivity|].
    cbn [map filter]. rewrite starts_with_y_spec. exact IHr.
Qed.




(** *** The count against the model *)




















(** *** The constructor without the simplifications *)

Lemma declare_all sol l : forall mdl vars_ s,
  solution s = Some sol ->
  (forall v, In v l -> Py.get Var_eqb v sol = Some None) ->
  NoDup l ->
  (forall v, In v l -> ~ In v (Py.keys vars_)) ->
  foldM declare_variable l (mdl, vars_) s
  = (s, Ok (add_binary_vars mdl l, vars_ ++ Py.tabulate BinVar l)).
Proof.
  induction l as [|a l IH]; intros mdl vars_ s Hsol Hget Hnd Hfresh; cbn [foldM].
  - unfold ret. now rewrite add_binary_vars_nil, app_nil_r.
  - inversion Hnd as [|? ? Ha Hnd']; subst.
    assert (Hstep :
      declare_variable (mdl, vars_) a s
      = (s, Ok (add_binary_vars mdl [a], vars_ ++ [(a, BinVar a)]))).
    { unfold declare_variable. rewrite (bind_attr _ _ _ _ _ Hsol).
      unfold getitem. rewrite (Hget a (or_introl eq_refl)).
      rewrite (bind_lift _ _ _ _ eq_refl). unfold ret.
      now rewrite (set_fresh Var_eqb Var_eqb_spec) by (apply Hfresh; now left). }
    rewrite (bind_ok _ _ _ _ _ Hstep).
    rewrite IH; try assumption.
    + f_equal. f_equal. f_equal.
      * unfold add_binary_vars. cbn. now rewrite <- app_assoc.
      * now rewrite <- app_assoc.
    + intros v Hv. apply Hget. now right.
    + intros v Hv. rewrite keys_app, in_app_iff. cbn.
      intros [H|[->|[]]]; [|contradiction].
      apply (Hfresh v); [now right | assumption].
Qed.

Section PlainLoops.
Variables items bins : Z.

Lemma plain_modelled_set_eq s eqs :
  plain_modelled items bins s -> plain_modelled items bins (set_eq_constraints eqs s).
Proof. intros H. exact H. Qed.

Lemma plain_modelled_set_ineq s ineqs :
  plain_modelled items bins s ->
  plain_modelled items bins (set_ineq_constraints ineqs s).
Proof. intros H. exact H. Qed.

Lemma plain_positions s (h : Z -> Var) l :
  plain_modelled items bins s ->
  (forall k, In k l -> In (h k) (variables items bins)) ->
  mapM (fun k =>
          bindM (attr "vars_pos" vars_pos)
                (fun vars_pos => lift (getitem Var_eqb name vars_pos (h k))))
       l s
  = (s, Ok (map (fun k => position_of (variables items bins) (h k)) l)).
Proof.
  intros (Hvp & _) Hin. apply mapM_state.
  intros k Hk. rewrite (bind_attr _ _ _ _ _ Hvp). unfold lift.
  rewrite getitem_position; [reflexivity | apply NoDup_variables | now apply Hin].
Qed.

Lemma plain_record_item s mdl i :
  plain_modelled items bins s ->
  0 <= i < items ->
  ~ In i (Py.keys (eq_constraints s)) ->
  record_item (Py.tabulate BinVar (variables items bins)) mdl i s
  = (set_eq_constraints
       (eq_constraints s ++ [(i, eq_record (variables items bins) bins i)]) s,
     Ok (add_constraint mdl (plain_item_constraint bins i))).
Proof.
  intros Hm Hi Hfresh. pose proof Hm as (Hvp & _ & Hn & Hb & _).
  unfold record_item. rewrite bind_gets, Hb.
  rewrite (bind_ok _ _ _ _ _ (plain_positions s (x_ i) (Py.range bins) Hm
                                (fun j Hj => proj2 (in_variables (x_ i j) items bins)
                                   (conj Hi (proj1 (in_range j bins) Hj))))).
  rewrite bind_gets, bind_assign, bind_gets.
  cbn [n_bins set_eq_constraints]. rewrite Hb.
  rewrite (bind_lift _ _ _ (map (fun j => BinVar (x_ i j)) (Py.range bins))).
  2:{ apply Py_mapM_ok. intros j Hj. apply in_range in Hj.
      apply getitem_tabulate, in_variables. lia. }
  rewrite (set_fresh Z.eqb Z.eqb_spec) by assumption.
  unfold plain_item_constraint, eq_record. now rewrite map_map.
Qed.

Lemma plain_record_items l : forall s mdl,
  plain_modelled items bins s ->
  NoDup l ->
  (forall i, In i l -> 0 <= i < items) ->
  (forall i, In i l -> ~ In i (Py.keys (eq_constraints s))) ->
  foldM (record_item (Py.tabulate BinVar (variables items bins))) l mdl s
  = (set_eq_constraints
       (eq_constraints s ++ Py.tabulate (eq_record (variables items bins) bins) l) s,
     Ok (add_constraints mdl (map (plain_item_constraint bins) l))).
Proof.
  induction l as [|i l IH]; intros s mdl Hm Hnd Hin Hfresh; cbn [foldM].
  - unfold ret. cbn [Py.tabulate map]. rewrite app_nil_r. now destruct s.
  - inversion Hnd as [|? ? Hi Hnd']; subst.
    rewrite (bind_ok _ _ _ _ _
               (plain_record_item s mdl i Hm (Hin i (or_introl eq_refl))
                  (Hfresh i (or_introl eq_refl)))).
    rewrite IH.
    + cbn [eq_constraints set_eq_constraints Py.tabulate map].
      now rewrite <- app_assoc.
    + now apply plain_modelled_set_eq.
    + assumption.
    + intros k Hk. apply Hin. now right.
    + intros k Hk. cbn [eq_constraints set_eq_constraints].
      rewrite keys_app, in_app_iff. cbn.
      intros [H|[->|[]]]; [|contradiction].
      apply (Hfresh k); [now right | assumption].
Qed.

Lemma plain_record_bin s mdl j :
  plain_modelled items bins s ->
  0 <= j < bins ->
  ~ In j (Py.keys (ineq_constraints s)) ->
  record_bin (Py.tabulate BinVar (variables items bins)) (Py.range items) mdl j s
  = (set_ineq_constraints
       (ineq_constraints s
        ++ [(j, plain_ineq_record (variables items bins) items j)]) s,
     Ok (add_constraint mdl
           (plain_bin_constraint items (weight_capacity s) (weights s) j))).
Proof.
  intros Hm Hj Hfresh.
  pose proof Hm as (Hvp & Hs & Hn & Hb & Hlen & Hc).
  unfold record_bin, plain_ineq_record. rewrite bind_gets, Hn.
  assert (Hterms :
    mapM (fun i =>
            bindM (gets weights) (fun ws =>
            bindM (lift (Py.index ws i)) (fun w =>
            bindM (gets weight_capacity) (fun capacity =>
            bindM (lift (coefficient w capacity)) (fun c =>
            bindM (lift (getitem Var_eqb name
                           (Py.tabulate BinVar (variables items bins))
                           (x_ i j))) (fun t =>
            ret (c, t)))))))
         (Py.range items) s
    = (s, Ok (map (fun i =>
                     ((inject_Z (nth (Z.to_nat i) (weights s) 0%Z)
                       / inject_Z (weight_capacity s))%Q,
                      BinVar (x_ i j)))
                  (Py.range items)))).
  { apply mapM_state. intros i Hi. apply in_range in Hi. rewrite bind_gets.
    rewrite (bind_lift _ _ _ _ (index_nth (weights s) i ltac:(lia))), bind_gets.
    unfold coefficient. destruct (Z.eqb_spec (weight_capacity s) 0); [contradiction|].
    rewrite (bind_lift _ _ _ _ eq_refl).
    rewrite (bind_lift _ _ _ (BinVar (x_ i j))); [reflexivity|].
    apply getitem_tabulate, in_variables. lia. }
  rewrite (bind_ok _ _ _ _ _ Hterms).
  rewrite (bind_lift _ _ _ (BinVar (y_ j)))
    by (apply getitem_tabulate, in_variables; lia).
  rewrite bind_gets, Hs. unfold ret at 1. unfold bindM at 1.
  unfold positions_in_bin.
  rewrite (bind_ok _ _ _ _ _ (plain_positions s (fun i => x_ i j) (Py.range items) Hm
                                (fun i Hi => proj2 (in_variables (x_ i j) items bins)
                                   (conj (proj1 (in_range i items) Hi) Hj)))).
  rewrite (bind_attr _ _ _ _ _ Hvp).
  rewrite (bind_lift _ _ _ (position_of (variables items bins) (y_ j))).
  2:{ apply getitem_position; [apply NoDup_variables|]. now apply in_variables. }
  rewrite bind_gets, bind_assign.
  rewrite (set_fresh Z.eqb Z.eqb_spec) by assumption.
  reflexivity.
Qed.

Lemma plain_record_bins l : forall s mdl,
  plain_modelled items bins s ->
  NoDup l ->
  (forall j, In j l -> 0 <= j < bins) ->
  (forall j, In j l -> ~ In j (Py.keys (ineq_constraints s))) ->
  foldM (record_bin (Py.tabulate BinVar (variables items bins)) (Py.range items))
        l mdl s
  = (set_ineq_constraints
       (ineq_constraints s
        ++ Py.tabulate (plain_ineq_record (variables items bins) items) l) s,
     Ok (add_constraints mdl
           (map (plain_bin_constraint items (weight_capacity s) (weights s)) l))).
Proof.
  induction l as [|j l IH]; intros s mdl Hm Hnd Hin Hfresh; cbn [foldM].
  - unfold ret. cbn [Py.tabulate map]. rewrite app_nil_r. now destruct s.
  - inversion Hnd as [|? ? Hj Hnd']; subst.
    rewrite (bind_ok _ _ _ _ _
               (plain_record_bin s mdl j Hm (Hin j (or_introl eq_refl))
                  (Hfresh j (or_introl eq_refl)))).
    rewrite IH.
    + cbn [ineq_constraints set_ineq_constraints weight_capacity weights
           Py.tabulate map].
      now rewrite <- app_assoc.
    + now apply plain_modelled_set_ineq.
    + assumption.
    + intros k Hk. apply Hin. now right.
    + intros k Hk. cbn [ineq_constraints set_ineq_constraints].
      rewrite keys_app, in_app_iff. cbn.
      intros [H|[->|[]]]; [|contradiction].
      apply (Hfresh k); [now right | assumption].
Qed.

End PlainLoops.

Lemma docplex_model_plain s :
  simplifications s = false ->
  solution s = Some (Py.tabulate (fun _ => None)
                                 (variables (n_items s) (n_bins s))) ->
  n_items s = Py.len (weights s) ->
  weight_capacity s <> 0 ->
  eq_constraints s = [] ->
  ineq_constraints s = [] ->
  docplex_model s
  = (set_ineq_constraints
       (Py.tabulate
          (plain_ineq_record (variables (n_items s) (n_bins s)) (n_items s))
          (Py.range (n_bins s)))
       (set_eq_constraints
          (Py.tabulate
             (eq_record (variables (n_items s) (n_bins s)) (n_bins s))
             (Py.range (n_items s)))
          (set_vars_pos
             (Some (enumerate_positions (variables (n_items s) (n_bins s)))) s)),
     Ok (plain_model (n_items s) (n_bins s) (weight_capacity s) (weights s))).
Proof.
  intros Hs Hsol Hlen Hc Heq Hineq.
  set (items := n_items s) in *. set (bins := n_bins s) in *.
  unfold docplex_model. rewrite (bind_attr _ _ _ _ _ Hsol).
  rewrite keys_tabulate.
  rewrite (bind_ok _ _ _ _ _
             (declare_all _ (variables items bins)
                (new_Model "bin_packing") [] s Hsol
                (fun v Hv =>
                   eq_trans (get_tabulate Var_eqb Var_eqb_spec _ _ v)
                            (f_equal (fun b : bool =>
                                        if b then Some (@None Z) else None)
                                     (existsb_eqb_in v _ Hv)))
                (NoDup_variables items bins)
                (fun v _ H => H))).
  cbv beta iota. cbn [app]. rewrite keys_tabulate.
  rewrite (bind_lift _ _ _
             (map BinVar (filter starts_with_y (variables items bins)))).
  2:{ apply Py_mapM_ok. intros v Hv. apply filter_In in Hv as [Hv _].
      now apply getitem_tabulate. }
  rewrite bind_assign, !bind_gets.
  cbn [simplifications n_items set_vars_pos]. rewrite Hs. fold items.
  unfold iter_binary_vars, add_binary_vars, new_Model.
  cbn [binary_vars app].
  set (s1 := set_vars_pos _ s).
  assert (Hm1 : plain_modelled items bins s1).
  { unfold plain_modelled. cbn. repeat split; assumption. }
  rewrite (bind_ok _ _ _ _ _
             (plain_record_items items bins (Py.range items) s1 _
                Hm1 (NoDup_range items)
                (fun i Hi => proj1 (in_range i items) Hi)
                (fun i _ H => eq_ind _ (fun l => In i (Py.keys l)) H _ Heq))).
  rewrite bind_gets.
  cbn [n_bins set_eq_constraints s1 set_vars_pos]. fold bins. fold s1.
  set (s2 := set_eq_constraints _ s1).
  assert (Hm2 : plain_modelled items bins s2) by exact Hm1.
  rewrite (bind_ok _ _ _ _ _
             (plain_record_bins items bins (Py.range bins) s2 _ Hm2
                (NoDup_range bins)
                (fun j Hj => proj1 (in_range j bins) Hj)
                (fun j _ H => eq_ind _ (fun l => In j (Py.keys l)) H _ Hineq))).
  unfold ret. f_equal.
  - subst s2 s1. cbn [eq_constraints ineq_constraints set_eq_constraints
                      set_vars_pos]. now rewrite Heq, Hineq.
  - f_equal. rewrite !add_constraints_spec. unfold minimize, plain_model.
    cbn [model_name binary_vars objective constraints app weight_capacity weights
         s2 s1 set_eq_constraints set_vars_pos].
    rewrite filter_y_variables, map_map. reflexivity.
Qed.

Lemma len_variables items bins :
  0 <= items ->
  Py.len (variables items bins) = (items + 1) * Z.max 0 bins.
Proof.
  intros Hi. unfold Py.len, variables.
  rewrite length_app, length_map.
  assert (E : forall l : list Z,
            List.length (flat_map (fun i => map (x_ i) (Py.range bins)) l)
            = (List.length l * List.length (Py.range bins))%nat).
  { induction l as [|i l IH]; [reflexivity|].
    cbn [flat_map List.length]. rewrite length_app, length_map, IH. lia. }
  rewrite E. unfold Py.range. rewrite !length_range2. nia.
Qed.

(** X25.  The constructor without the simplifications: with non-empty
    weights and a non-zero capacity it returns, no variable is fixed and
    [min_bins] is not set; the model is the full bin-packing program
    over the [(n_items + 1) * n_bins] variables (one equality per item,
    one inequality per bin), and the recorded constraints hold the
    positions of the same variables: [eq_i] those of item [i] over the
    bins against 1, [ineq_j] those of all items in bin [j] against the
    position of [y_j]. *)
Theorem constructor_without_simplifications a :
  arg_simplifications a = false ->
  arg_weights a <> [] ->
  arg_weight_capacity a <> 0 ->
  exists self,
    init a = Ok self
    /\ min_bins self = None
    /\ solution self
       = Some (Py.tabulate (fun _ => None)
                 (variables (Py.len (arg_weights a)) (n_bins (init_fields a))))
    /\ cplex_model self
       = Some (plain_model (Py.len (arg_weights a)) (n_bins (init_fields a))
                 (arg_weight_capacity a) (arg_weights a))
    /\ n_vars self
       = Some ((Py.len (arg_weights a) + 1) * Z.max 0 (n_bins (init_fields a)))
    /\ eq_constraints self
       = Py.tabulate
           (eq_record (variables (Py.len (arg_weights a)) (n_bins (init_fields a)))
                      (n_bins (init_fields a)))
           (Py.range (Py.len (arg_weights a)))
    /\ ineq_constraints self
       = Py.tabulate
           (plain_ineq_record
              (variables (Py.len (arg_weights a)) (n_bins (init_fields a)))
              (Py.len (arg_weights a)))
           (Py.range (n_bins (init_fields a))).
Proof.
  intros Hs Hw Hc.
  assert (Hitems : 0 < Py.len (arg_weights a)).
  { destruct (arg_weights a); [contradiction|].
    unfold Py.len. cbn [List.length]. lia. }
  unfold init. rewrite (proj2 (Z.ltb_lt _ _) Hitems).
  set (s0 := init_fields a) in *.
  unfold build.
  rewrite (bind_ok _ _ _ _ _ (solution_dict_plain s0 Hs)).
  rewrite bind_assign.
  rewrite (bind_ok _ _ _ _ _
             (docplex_model_plain (set_solution _ s0) Hs eq_refl eq_refl Hc
                eq_refl eq_refl)).
  rewrite bind_assign.
  rewrite (bind_attr _ cplex_model _ _
             (plain_model (n_items s0) (n_bins s0) (weight_capacity s0)
                          (weights s0))) by reflexivity.
  unfold assign. eexists. split; [reflexivity|].
  cbn. unfold number_of_binary_variables. cbn [binary_vars plain_model].
  rewrite len_variables by lia.
  repeat split; reflexivity.
Qed.

Lemma constructor_without_simplifications_witness :
  exists self,
    init BinpackingExample.two_items_plain = Ok self
    /\ min_bins self = None
    /\ solution self = Some (Py.tabulate (fun _ => None) (variables 2 2))
    /\ cplex_model self = Some (plain_model 2 2 3 [1; 2])
    /\ n_vars self = Some 6
    /\ eq_constraints self
       = Py.tabulate (eq_record (variables 2 2) 2) (Py.range 2)
    /\ ineq_constraints self
       = Py.tabulate (plain_ineq_record (variables 2 2) 2) (Py.range 2).
Proof.
  apply (constructor_without_simplifications BinpackingExample.two_items_plain).
  - reflexivity.
  - discriminate.
  - discriminate.
Defined.

Lemma normalizing_degenerate_witness :
  normalizing (BinpackingExample.built BinpackingExample.three_items)
    {| QUBO.terms := []; QUBO.weights := []; QUBO.constant := 1%Q |} (-1)
  = ({| QUBO.terms := []; QUBO.weights := []; QUBO.constant := 1%Q |},
     Raise (IndexError "index out of range"))
  /\ snd (normalizing (BinpackingExample.built BinpackingExample.three_items)
            {| QUBO.terms := [[0]; [1]]; QUBO.weights := [0; 0]%Q;
               QUBO.constant := 1%Q |} (-1))
     = Ok {| QUBO.n := 7;
             QUBO.call_terms := [[0]; [1]; []];
             QUBO.call_weights := [Np.NaN; Np.NaN; Np.Infinity false] |}.
Proof.
  split.
  - apply (proj1 (normalizing_degenerate
                    (BinpackingExample.built BinpackingExample.three_items)
                    {| QUBO.terms := []; QUBO.weights := [];
                       QUBO.constant := 1%Q |})).
    reflexivity.
  - apply (proj2 (normalizing_degenerate
                    (BinpackingExample.built BinpackingExample.three_items)
                    {| QUBO.terms := [[0]; [1]]; QUBO.weights := [0; 0]%Q;
                       QUBO.constant := 1%Q |}) 7).
    + discriminate.
    + intros w [<-|[<-|[]]]; reflexivity.
    + reflexivity.
Defined.

Lemma decode_classical_solution_witness :
  exists text d,
    classical_solution (vendor := BinpackingExample.ex_vendor)
      (BinpackingExample.built BinpackingExample.three_items) true
    = Ok (inl text)
    /\ classical_solution (vendor := BinpackingExample.ex_vendor)
         (BinpackingExample.built BinpackingExample.three_items) false
       = Ok (inr d)
    /\ decode_solution (BinpackingExample.built BinpackingExample.three_items) text
       = Ok d
    /\ String.length text
       = List.length (iter_binary_vars BinpackingExample.three_items_model).
Proof.
  refine (decode_classical_solution (vendor := BinpackingExample.ex_vendor)
            (BinpackingExample.built BinpackingExample.three_items)
            BinpackingExample.three_items_model _
            {| get_value := fun _ => 0%Q; is_valid_solution := true |}
            (fun _ => false) _ _ _ _ _).
  - reflexivity.
  - reflexivity.
  - reflexivity.
  - reflexivity.
  - intros v _. reflexivity.
Defined.



(** On [BinPacking([2, 3, 4], 5)]: items 1 and 2 both in bin 0 overload
    it (one violated constraint of the model); item 1 in bin 0 and
    item 2 in bin 1 violates none. *)
Example three_items_violations :
  map (violated (iter_binary_vars BinpackingExample.three_items_model)
                [false; true; false; false; true; false; false])
      (constraints BinpackingExample.three_items_model)
  = [0; 0; 1; 0; 0]
  /\ map (violated (iter_binary_vars BinpackingExample.three_items_model)
                   [false; true; false; false; false; true; false])
         (constraints BinpackingExample.three_items_model)
     = [0; 0; 0; 0; 0].
Proof. split; vm_compute; reflexivity. Qed.

(** The model of [BinPacking([2, 3, 4], 5)]: two bins are needed, so
    [y_0] and [y_1] are the constant 1; item 0 sits in bin 0. *)
Example three_items_program :
  objective BinpackingExample.three_items_model
  = Some [Const 1; Const 1; BinVar (y_ 2)]
  /\ map sense (constraints BinpackingExample.three_items_model)
     = [EQ; EQ; LE; LE; LE]
  /\ map rhs (constraints BinpackingExample.three_items_model)
     = [Const 1; Const 1; Const 1; Const 1; BinVar (y_ 2)]
  /\ map (fun c => map snd (lhs c)) (constraints BinpackingExample.three_items_model)
     = [[BinVar (x_ 1 0); BinVar (x_ 1 1); BinVar (x_ 1 2)];
        [BinVar (x_ 2 0); BinVar (x_ 2 1); BinVar (x_ 2 2)];
        [Const 1; BinVar (x_ 1 0); BinVar (x_ 2 0)];
        [Const 0; BinVar (x_ 1 1); BinVar (x_ 2 1)];
        [Const 0; BinVar (x_ 1 2); BinVar (x_ 2 2)]].
Proof. repeat split; vm_compute; reflexivity. Qed.

End BinpackingFacts.
